(** * Smart LLM gateway: routing and dispatch engine

    A shallow embedding of the gateway's dispatcher
    ([services/modelGatewayService.js]), its router
    ([services/modelRouterService.js]), the request pre-processor
    ([middleware/requestProcessor.js]) and the monitoring loop
    ([monitoring/metrics/MetricsCollector.js],
    [monitoring/alerts/AlertManager.js], [monitoring/MonitoringService.js]).

    Conventions of the embedding.
    - A JavaScript number is an exact rational ([Q]); the few places where
      the code can meet [Infinity] or [NaN] (the parsed budget, a ratio of
      two absent fields) use [jsnum].
    - A query is a JavaScript string, that is a sequence of UTF-16 code
      units ([list N]); provider names, tags and messages are [string]s
      holding the text of the source literal.
    - The router's [Map]s, which are only looked up, are [gmap]s; the
      collector's, which are iterated, and [config.modelProviders] are
      association lists in insertion order.
    - Code that throws returns a [result]; code that mutates the router or
      the monitoring singletons passes the state explicitly. *)

From Stdlib Require Import QArith Qminmax ZArith List String Ascii Lia Lqa Bool.
From stdpp Require Import gmap strings list.
Import ListNotations.

#[local] Open Scope string_scope.

(** ** JavaScript values *)

Module JS.

(** A string is its sequence of UTF-16 code units; [length] is the
    [.length] of the source. *)
Definition jsstring := list N.

(** Code units of a literal written with ASCII characters only. *)
Fixpoint of_ascii (s : string) : jsstring :=
  match s with
  | EmptyString => []
  | String c s' => N_of_ascii c :: of_ascii s'
  end.

(** The class [\s] of a regular expression, which is also what
    [String.prototype.trim] strips: WhiteSpace and LineTerminator. *)
Definition isWhiteSpace (c : N) : bool :=
  ((9 <=? c) && (c <=? 13) || (c =? 32) || (c =? 160) || (c =? 5760)
   || (8192 <=? c) && (c <=? 8202) || (c =? 8232) || (c =? 8233)
   || (c =? 8239) || (c =? 8287) || (c =? 12288) || (c =? 65279))%N.

(** The class [[.!?]]. *)
Definition isSentenceEnd (c : N) : bool :=
  ((c =? 46) || (c =? 33) || (c =? 63))%N.

(** [s.split(/[sep]+/)]: every maximal run of separators closes the
    piece before it; a run at either end leaves an empty piece there, and
    the empty string gives one empty piece. [in_run] tells that the
    previous code unit was a separator. *)
Fixpoint splitRuns (sep : N -> bool) (s : jsstring) (in_run : bool)
  : list jsstring :=
  match s with
  | [] => [[]]
  | c :: s' =>
      if sep c then
        if in_run then splitRuns sep s' true
        else [] :: splitRuns sep s' true
      else
        match splitRuns sep s' false with
        | piece :: rest => (c :: piece) :: rest
        | [] => [[c]]
        end
  end.

Definition split (sep : N -> bool) (s : jsstring) : list jsstring :=
  splitRuns sep s false.

(** The number of maximal runs of separators of [s]; [in_run] tells that
    a run is under way. *)
Fixpoint separatorRuns (sep : N -> bool) (s : jsstring) (in_run : bool) : nat :=
  match s with
  | [] => 0
  | c :: s' =>
      if sep c then (if in_run then 0 else 1) + separatorRuns sep s' true
      else separatorRuns sep s' false
  end.

Fixpoint dropWhile {A} (p : A -> bool) (l : list A) : list A :=
  match l with
  | [] => []
  | x :: l' => if p x then dropWhile p l' else l
  end.

Definition trim (s : jsstring) : jsstring :=
  rev (dropWhile isWhiteSpace (rev (dropWhile isWhiteSpace s))).

(** Numbers that need not be finite. *)
Inductive jsnum :=
| JNum (q : Q)
| JPosInf
| JNegInf
| JNaN.

Definition Qltb (x y : Q) : bool := negb (Qle_bool y x).

(** [x > y] for a finite [x]. *)
Definition gt_num (x : Q) (y : jsnum) : bool :=
  match y with
  | JNum b => Qltb b x
  | JPosInf => false
  | JNegInf => true
  | JNaN => false
  end.

(** [x <= y] for a finite [x]. *)
Definition le_num (x : Q) (y : jsnum) : bool :=
  match y with
  | JNum b => Qle_bool x b
  | JPosInf => true
  | JNegInf => false
  | JNaN => false
  end.

Definition ofNat (n : nat) : Q := inject_Z (Z.of_nat n).

(** [x || d] on an optional number: [undefined] and [0] are falsy. *)
Definition orDefault (x : option Q) (d : Q) : Q :=
  match x with
  | Some v => if Qeq_bool v 0 then d else v
  | None => d
  end.

End JS.

(** ** Errors ([utils/errors.js]) *)

Module Errors.

Inductive ErrorCode :=
| INVALID_REQUEST
| MODEL_UNAVAILABLE
| COMPLEXITY_EVALUATION_FAILED
| COST_LIMIT_EXCEEDED.

(** What a [throw] carries: a [GatewayError] made by one of the [Errors]
    constructors, or another exception (a [TypeError], an adapter's own
    [Error]), of which only the message matters. *)
Inductive exn :=
| GatewayError (code : ErrorCode) (message : string)
| OtherError (name : string) (message : string).

Definition invalidRequest := GatewayError INVALID_REQUEST.
Definition modelUnavailable := GatewayError MODEL_UNAVAILABLE.
Definition complexityEvaluationFailed := GatewayError COMPLEXITY_EVALUATION_FAILED.
Definition costLimitExceeded := GatewayError COST_LIMIT_EXCEEDED.

(** [ErrorCodeToGrpcStatus]. *)
Definition getGrpcStatus (c : ErrorCode) : Z :=
  match c with
  | INVALID_REQUEST => 3
  | MODEL_UNAVAILABLE => 14
  | COMPLEXITY_EVALUATION_FAILED => 2
  | COST_LIMIT_EXCEEDED => 8
  end.

(** [grpc.status.INTERNAL]. *)
Definition INTERNAL : Z := 13.

Inductive result (A : Type) :=
| Ok (a : A)
| Throw (e : exn).
Arguments Ok {A} a.
Arguments Throw {A} e.

End Errors.

(** ** Complexity evaluator ([evaluateQueryComplexity]) *)

Module Evaluator.
Import JS.
#[local] Open Scope Q_scope.

Definition words (query : jsstring) : list jsstring := split isWhiteSpace query.

Definition wordCount (query : jsstring) : nat := length (words query).

Definition avgWordLength (query : jsstring) : Q :=
  fold_left (fun sum word => sum + ofNat (length word)) (words query) 0
  / ofNat (wordCount query).

Definition vocabularyComplexity (query : jsstring) : Q :=
  Qmin (ofNat (wordCount query) / 100) 1 * (1 # 2)
  + Qmin (avgWordLength query / 10) 1 * (1 # 2).

Definition sentences (query : jsstring) : list jsstring :=
  List.filter (fun s => (0 <? length (trim s))%nat) (split isSentenceEnd query).

Definition sentenceCount (query : jsstring) : nat :=
  Nat.max (length (sentences query)) 1.

Definition avgSentenceLength (query : jsstring) : Q :=
  ofNat (wordCount query) / ofNat (sentenceCount query).

Definition grammarComplexity (query : jsstring) : Q :=
  Qmin (avgSentenceLength query / 20) 1.

Definition complexityScoreOf (query : jsstring) : Q :=
  vocabularyComplexity query * (6 # 10) + grammarComplexity query * (4 # 10).

Definition tagVocabulary : string := "高词汇复杂度".
Definition tagGrammar : string := "复杂语法结构".
Definition tagLength : string := "查询长度较长".

Definition complexityFactorsOf (query : jsstring) : list string :=
  let f0 : list string := [] in
  let f1 := if Qltb (6 # 10) (vocabularyComplexity query)
            then (f0 ++ [tagVocabulary])%list else f0 in
  let f2 := if Qltb (6 # 10) (grammarComplexity query)
            then (f1 ++ [tagGrammar])%list else f1 in
  if (100 <? wordCount query)%nat then (f2 ++ [tagLength])%list else f2.

Record ComplexityResult := {
  complexityScore : Q;
  complexityFactors : list string
}.

(** The value the evaluator returns; its call of
    [monitoringService.recordRequest] is in [Gateway]. *)
Definition evaluate (query : jsstring) : ComplexityResult :=
  {| complexityScore := complexityScoreOf query;
     complexityFactors := complexityFactorsOf query |}.

End Evaluator.

(** ** Router ([services/modelRouterService.js]) *)

Module Router.
Import JS Errors.
#[local] Open Scope Q_scope.

Inductive ModelType := local | hybrid | remote.

Definition ModelType_eqb (a b : ModelType) : bool :=
  match a, b with
  | local, local | hybrid, hybrid | remote, remote => true
  | _, _ => false
  end.

Definition typeName (t : ModelType) : string :=
  match t with
  | local => "local"
  | hybrid => "hybrid"
  | remote => "remote"
  end.

(** One entry of [config.modelProviders]; every field may be absent. *)
Record ProviderConfig := {
  status : option string;
  supportedModelTypes : option (list ModelType);
  maxConcurrentQueries : option Z;
  baseCostPerQuery : option Q;
  maxCostPerQuery : option Q;
  costEfficiency : option Q;
  defaultModel : option string
}.

Record RoutingStrategy := {
  lowComplexityThreshold : Q;
  highComplexityThreshold : Q
}.

Record ModelStats := {
  avgResponseTime : Q;
  successRate : Q;
  statsCostEfficiency : Q;
  totalCalls : Q
}.

(** The fields of the singleton [ModelRouterService]. *)
Record State := {
  routingStrategy : RoutingStrategy;
  modelProviders : list (string * ProviderConfig);
  activeConnections : gmap string Z;
  modelStats : gmap string ModelStats
}.

(** The request metadata the router and the dispatcher read:
    [extractMetadata] sets [queryLength], the other keys come from the
    caller and are strings. *)
Record Metadata := {
  budget : option string;
  queryLength : option nat;
  maxTokens : option string;
  temperature : option string;
  systemMessage : option string
}.

Record Provider := {
  name : string;
  config : ProviderConfig
}.

(** A routing decision; [estimatedCost] is absent from what
    [getBackupModel] returns. *)
Record ModelInfo := {
  provider : string;
  modelType : ModelType;
  modelConfig : ProviderConfig;
  estimatedCost : option Q;
  isBackup : bool;
  costControlled : bool
}.

(** [config.maxConcurrentQueries || 10]. *)
Definition connectionLimit (cfg : ProviderConfig) : Z :=
  match maxConcurrentQueries cfg with
  | Some m => if (m =? 0)%Z then 10%Z else m
  | None => 10%Z
  end.

(** [this.activeConnections.get(name) || 0]. *)
Definition currentConnections (st : State) (n : string) : Z :=
  match activeConnections st !! n with
  | Some c => c
  | None => 0%Z
  end.

Definition supportsModelType (cfg : ProviderConfig) (t : ModelType) : bool :=
  match supportedModelTypes cfg with
  | Some ts => existsb (ModelType_eqb t) ts
  | None => true
  end.

Definition isOnline (cfg : ProviderConfig) : bool :=
  match status cfg with
  | Some s => negb (String.eqb s "offline")
  | None => true
  end.

Definition withinConnectionLimit (st : State) (n : string) (cfg : ProviderConfig) : bool :=
  (currentConnections st n <? connectionLimit cfg)%Z.

Definition getAvailableProviders (st : State) (t : ModelType) (md : Metadata)
  : list Provider :=
  map (fun '(n, cfg) => {| name := n; config := cfg |})
    (List.filter
       (fun '(n, cfg) =>
          supportsModelType cfg t && isOnline cfg && withinConnectionLimit st n cfg)
       (modelProviders st)).

Definition defaultStats : ModelStats :=
  {| avgResponseTime := 500; successRate := 95 # 100;
     statsCostEfficiency := 8 # 10; totalCalls := 0 |}.

(** The score [selectBestProvider] gives a candidate. Neither divisor is
    0: [maxLoad] by its default, and [avgResponseTime] is a mean of
    response times, which are not negative. *)
Definition providerScore (st : State) (p : Provider) : Q :=
  let stats := match modelStats st !! name p with
               | Some s => s
               | None => defaultStats
               end in
  let currentLoad := currentConnections st (name p) in
  let maxLoad := connectionLimit (config p) in
  let loadFactor := 1 - inject_Z currentLoad / inject_Z maxLoad in
  let costFactor := orDefault (costEfficiency (config p)) (1 # 2) in
  let performanceFactor :=
    successRate stats * (1000 / (avgResponseTime stats + 100)) in
  loadFactor * (4 # 10) + costFactor * (3 # 10) + performanceFactor * (3 # 10).

(** [scoredProviders.sort((a, b) => b.score - a.score)]: the sort is
    stable, so among equal scores the order of the input is kept. *)
Fixpoint insertByScore (x : Provider * Q) (l : list (Provider * Q))
  : list (Provider * Q) :=
  match l with
  | [] => [x]
  | y :: l' =>
      if Qle_bool (snd y) (snd x) then x :: y :: l'
      else y :: insertByScore x l'
  end.

Definition sortByScore (l : list (Provider * Q)) : list (Provider * Q) :=
  fold_right insertByScore [] l.

(** [None] stands for the [undefined] that indexing an empty array
    gives; every caller checks the length first. *)
Definition selectBestProvider (st : State) (providers : list Provider)
    (complexityScore : Q) (md : Metadata) : option Provider :=
  match providers with
  | [p] => Some p
  | _ =>
      match sortByScore (map (fun p => (p, providerScore st p)) providers) with
      | (p, _) :: _ => Some p
      | [] => None
      end
  end.

(** [modelConfig.maxCostPerQuery || 0.1]. *)
Definition maxCostOf (cfg : ProviderConfig) : Q :=
  orDefault (maxCostPerQuery cfg) (1 # 10).

Definition estimateCost (cfg : ProviderConfig) (complexityScore : Q) (md : Metadata) : Q :=
  let baseCost := orDefault (baseCostPerQuery cfg) (1 # 1000) in
  let complexityFactor := 1 + complexityScore in
  let queryLength := match queryLength md with Some n => n | None => 0%nat end in
  let lengthFactor := 1 + ofNat queryLength / 1000 in
  let estimatedCost := baseCost * complexityFactor * lengthFactor in
  let maxCost := maxCostOf cfg in
  Qmin estimatedCost maxCost.

(** Reading [.name] of the [undefined] that [selectBestProvider] gives on
    an empty array. *)
Definition undefinedProvider : exn :=
  OtherError "TypeError" "Cannot read properties of undefined (reading 'name')".

(** The type chosen in [selectModelByComplexity]. *)
Definition modelTypeFor (rs : RoutingStrategy) (complexityScore : Q) : ModelType :=
  if Qltb complexityScore (lowComplexityThreshold rs) then local
  else if Qltb complexityScore (highComplexityThreshold rs) then hybrid
  else remote.

Definition selectModelByComplexity (st : State) (complexityScore : Q)
    (complexityFactors : list string) (md : Metadata) : result ModelInfo :=
  let modelType := modelTypeFor (routingStrategy st) complexityScore in
  let availableProviders := getAvailableProviders st modelType md in
  match availableProviders with
  | [] =>
      Throw (modelUnavailable
               ("没有可用的" ++ typeName modelType ++ "类型模型提供商"))
  | _ :: _ =>
      match selectBestProvider st availableProviders complexityScore md with
      | Some selectedProvider =>
          Ok {| provider := name selectedProvider;
                modelType := modelType;
                modelConfig := config selectedProvider;
                estimatedCost :=
                  Some (estimateCost (config selectedProvider) complexityScore md);
                isBackup := false;
                costControlled := false |}
      | None => Throw undefinedProvider
      end
  end.

Definition setActiveConnections (st : State) (m : gmap string Z) : State :=
  {| routingStrategy := routingStrategy st;
     modelProviders := modelProviders st;
     activeConnections := m;
     modelStats := modelStats st |}.

Definition setModelStats (st : State) (m : gmap string ModelStats) : State :=
  {| routingStrategy := routingStrategy st;
     modelProviders := modelProviders st;
     activeConnections := activeConnections st;
     modelStats := m |}.

Definition recordModelUseStart (st : State) (providerName : string) : result State :=
  let currentCount := currentConnections st providerName in
  Ok (setActiveConnections st
        (<[providerName := (currentCount + 1)%Z]> (activeConnections st))).

(** What the dispatcher passes as [stats]. *)
Record UseStats := {
  responseTime : Q;
  success : bool;
  useCostEfficiency : Q
}.

Definition recordModelUseEnd (st : State) (providerName : string)
    (stats : option UseStats) : State :=
  let currentCount :=
    match activeConnections st !! providerName with
    | Some c => if (c =? 0)%Z then 1%Z else c
    | None => 1%Z
    end in
  let st1 := setActiveConnections st
               (<[providerName := Z.max 0 (currentCount - 1)]> (activeConnections st)) in
  match stats with
  | None => st1
  | Some stats =>
      let currentStats :=
        match modelStats st1 !! providerName with
        | Some s => s
        | None => {| avgResponseTime := 0; successRate := 1;
                     statsCostEfficiency := 1 # 2; totalCalls := 0 |}
        end in
      let totalCalls' := totalCalls currentStats + 1 in
      let newStats :=
        {| avgResponseTime :=
             (avgResponseTime currentStats * totalCalls currentStats
              + responseTime stats) / totalCalls';
           successRate :=
             (successRate currentStats * totalCalls currentStats
              + (if success stats then 1 else 0)) / totalCalls';
           statsCostEfficiency :=
             (statsCostEfficiency currentStats * totalCalls currentStats
              + useCostEfficiency stats) / totalCalls';
           totalCalls := totalCalls' |} in
      setModelStats st1 (<[providerName := newStats]> (modelStats st1))
  end.

(** The table [fallbackTypes] of [getBackupModel] and of
    [applyCostControlStrategy]. *)
Definition fallbackTypes (t : ModelType) : option ModelType :=
  match t with
  | remote => Some hybrid
  | hybrid => Some local
  | local => None
  end.

(** How many times [fallbackTypes] can be followed from [t]. *)
Definition chainLength (t : ModelType) : nat :=
  match t with
  | remote => 2
  | hybrid => 1
  | local => 0
  end.

(** [getBackupModel] calls itself on [fallbackTypes[modelType]]; [depth]
    bounds the calls and [getBackupModel] starts it at [chainLength]. *)
Fixpoint getBackupModelFrom (depth : nat) (st : State) (primaryProvider : string)
    (t : ModelType) (md : Metadata) : option ModelInfo :=
  let availableProviders :=
    List.filter (fun p => negb (String.eqb (name p) primaryProvider))
      (getAvailableProviders st t md) in
  match availableProviders with
  | [] =>
      match fallbackTypes t, depth with
      | Some fallbackType, S depth' =>
          getBackupModelFrom depth' st primaryProvider fallbackType md
      | _, _ => None
      end
  | _ :: _ =>
      match selectBestProvider st availableProviders (1 # 2) md with
      | Some backupProvider =>
          Some {| provider := name backupProvider;
                  modelType := t;
                  modelConfig := config backupProvider;
                  estimatedCost := None;
                  isBackup := true;
                  costControlled := false |}
      | None => None (* not reached: the list is not empty *)
      end
  end.

Definition getBackupModel (st : State) (primaryProvider : string)
    (t : ModelType) (md : Metadata) : option ModelInfo :=
  getBackupModelFrom (chainLength t) st primaryProvider t md.

Section CostControl.
(** The built-in [parseFloat], on a non-empty string. *)
Variable parseFloat : string -> jsnum.

(** [metadata.budget ? parseFloat(metadata.budget) : Infinity]. *)
Definition budgetOf (md : Metadata) : jsnum :=
  match budget md with
  | Some s => if String.eqb s "" then JPosInf else parseFloat s
  | None => JPosInf
  end.

Definition overBudget (mi : ModelInfo) (b : jsnum) : bool :=
  match estimatedCost mi with
  | Some c => gt_num c b
  | None => false
  end.

Definition costLimitMessage : string := "估算成本超出预算".

Definition applyCostControlStrategy (st : State) (modelInfo : ModelInfo)
    (md : Metadata) : result ModelInfo :=
  let budget := budgetOf md in
  if overBudget modelInfo budget then
    match fallbackTypes (modelType modelInfo) with
    | Some fallbackType =>
        let availableProviders := getAvailableProviders st fallbackType md in
        match availableProviders with
        | _ :: _ =>
            match selectBestProvider st availableProviders (1 # 2) md with
            | Some cheaperProvider =>
                let cheaperCost := estimateCost (config cheaperProvider) (1 # 2) md in
                if le_num cheaperCost budget then
                  Ok {| provider := name cheaperProvider;
                        modelType := fallbackType;
                        modelConfig := config cheaperProvider;
                        estimatedCost := Some cheaperCost;
                        isBackup := false;
                        costControlled := true |}
                else Throw (costLimitExceeded costLimitMessage)
            | None => Throw undefinedProvider
            end
        | [] => Throw (costLimitExceeded costLimitMessage)
        end
    | None => Throw (costLimitExceeded costLimitMessage)
    end
  else Ok modelInfo.
End CostControl.

End Router.

(** ** The cost-control chain of the specification

    The specification (section 4.4) words the strategy as a chain: when
    the estimate exceeds the budget, try the types [remote -> hybrid ->
    local] in turn, each with a fresh decision at score 0.5, and accept
    the first whose estimate is within the budget; fail with
    [COST_LIMIT_EXCEEDED] when the chain is exhausted. [downgradeAlong]
    follows these words, to be compared with
    [Router.applyCostControlStrategy]. *)

Module CostChain.
Import JS Errors Router.
#[local] Open Scope Q_scope.

Fixpoint downgradeAlong (depth : nat) (st : State) (t : ModelType) (md : Metadata)
    (budget : jsnum) : result ModelInfo :=
  match fallbackTypes t, depth with
  | Some fallbackType, S depth' =>
      match selectBestProvider st (getAvailableProviders st fallbackType md) (1 # 2) md with
      | Some cheaperProvider =>
          let cheaperCost := estimateCost (config cheaperProvider) (1 # 2) md in
          if le_num cheaperCost budget then
            Ok {| provider := name cheaperProvider;
                  modelType := fallbackType;
                  modelConfig := config cheaperProvider;
                  estimatedCost := Some cheaperCost;
                  isBackup := false;
                  costControlled := true |}
          else downgradeAlong depth' st fallbackType md budget
      | None => downgradeAlong depth' st fallbackType md budget
      end
  | _, _ => Throw (costLimitExceeded costLimitMessage)
  end.

Definition costControlChain (parseFloat : string -> jsnum) (st : State)
    (modelInfo : ModelInfo) (md : Metadata) : result ModelInfo :=
  let budget := budgetOf parseFloat md in
  if overBudget modelInfo budget
  then downgradeAlong (chainLength (modelType modelInfo)) st (modelType modelInfo) md budget
  else Ok modelInfo.

End CostChain.

(** ** Monitoring ([MetricsCollector], [AlertManager], [MonitoringService]) *)

Module Monitoring.
Import JS Errors.
#[local] Open Scope Q_scope.

(** One element of a [costs] or [history] array. *)
Record CostEntry := {
  ceTimestamp : Z;
  ceCost : Q;
  ceTokens : option Q
}.

(** The objects that reach [checkCostMetrics]. Its argument is built by
    [getMetricsSummary] or handed over as it is, so the embedding keeps
    the fields an object really has: reading an absent field gives
    [VUndefined]. *)
#[warnings="-register-all"] Inductive value :=
| VUndefined
| VNum (q : Q)
| VStr (s : string)
| VArr (items : list value)
| VObj (fields : list (string * value)).

Definition typeError (message : string) : exn := OtherError "TypeError" message.

(** [Object.entries(v)], without the keys, which the loop ignores (a
    string gives its characters). *)
Definition entryValues (v : value) : result (list value) :=
  match v with
  | VUndefined => Throw (typeError "Cannot convert undefined or null to object")
  | VNum _ => Ok []
  | VStr s => Ok (map (fun c => VStr (String c EmptyString)) (list_ascii_of_string s))
  | VArr items => Ok items
  | VObj fields => Ok (map snd fields)
  end.

Fixpoint lookupField (k : string) (fields : list (string * value)) : value :=
  match fields with
  | [] => VUndefined
  | (k', v) :: fields' => if String.eqb k k' then v else lookupField k fields'
  end.

(** [v.k] for a field name [k] that no prototype defines. *)
Definition getField (k : string) (v : value) : result value :=
  match v with
  | VUndefined => Throw (typeError "Cannot read properties of undefined")
  | VObj fields => Ok (lookupField k fields)
  | _ => Ok VUndefined
  end.

(** A [Map] iterated in insertion order. *)
Fixpoint mapGet {V} (k : string) (m : list (string * V)) : option V :=
  match m with
  | [] => None
  | (k', v) :: m' => if String.eqb k k' then Some v else mapGet k m'
  end.

Fixpoint mapSet {V} (k : string) (v : V) (m : list (string * V)) : list (string * V) :=
  match m with
  | [] => [(k, v)]
  | (k', v') :: m' =>
      if String.eqb k k' then (k, v) :: m' else (k', v') :: mapSet k v m'
  end.

(** *** MetricsCollector *)

Record Performance := {
  requestCount : Z;
  errorCount : Z;
  latencies : list Q;
  lastMinuteRequests : list (Z * Q)
}.

Record CpuSample := {
  cpuTimestamp : Z;
  cpuUser : Q;
  cpuSystem : Q
}.

Record Memory := {
  memSystem : Q;
  memProcess : Q
}.

(** [memory] is [{}] until the sampler has run once. *)
Record Resources := {
  cpu : list CpuSample;
  memory : option Memory
}.

Record ModelMetrics := {
  mRequestCount : Z;
  mErrorCount : Z;
  totalLatency : Q;
  mCosts : list CostEntry
}.

Record CostMetrics := {
  totalCost : Q;
  totalTokens : Q;
  history : list CostEntry
}.

Record Metrics := {
  performance : Performance;
  resources : Resources;
  models : list (string * ModelMetrics);
  costs : list (string * CostMetrics)
}.

Definition initialMetrics : Metrics :=
  {| performance := {| requestCount := 0; errorCount := 0;
                       latencies := []; lastMinuteRequests := [] |};
     resources := {| cpu := []; memory := None |};
     models := [];
     costs := [] |}.

(** The argument of [recordRequest]. *)
Record RequestData := {
  modelId : option string;
  duration : Q;
  success : bool;
  cost : option Q;
  tokens : option Q
}.

(** [l.slice(-n)]. *)
Definition lastN {A} (n : nat) (l : list A) : list A :=
  skipn (length l - n) l.

Definition cleanupOldMetrics (p : Performance) (now : Z) : Performance :=
  let oneMinuteAgo := (now - 60000)%Z in
  {| requestCount := requestCount p;
     errorCount := errorCount p;
     latencies := if (1000 <? length (latencies p))%nat
                  then lastN 1000 (latencies p) else latencies p;
     lastMinuteRequests :=
       List.filter (fun req => (oneMinuteAgo <? fst req)%Z) (lastMinuteRequests p) |}.

(** [if (cost)]: [undefined] and [0] are falsy. *)
Definition truthyCost (c : option Q) : option Q :=
  match c with
  | Some v => if Qeq_bool v 0 then None else Some v
  | None => None
  end.

(** The collector's part of [recordRequest], before the event. *)
Definition collectRequest (m : Metrics) (d : RequestData) (now : Z) : Metrics :=
  let p := performance m in
  let p1 := {| requestCount := requestCount p + 1;
               errorCount := if success d then errorCount p else (errorCount p + 1)%Z;
               latencies := latencies p ++ [duration d];
               lastMinuteRequests := lastMinuteRequests p ++ [(now, duration d)] |}%Z in
  let p2 := cleanupOldMetrics p1 now in
  let models' :=
    match modelId d with
    | Some id =>
        if String.eqb id "" then models m
        else
          let mm := match mapGet id (models m) with
                    | Some mm => mm
                    | None => {| mRequestCount := 0; mErrorCount := 0;
                                 totalLatency := 0; mCosts := [] |}
                    end in
          mapSet id
            {| mRequestCount := (mRequestCount mm + 1)%Z;
               mErrorCount := if success d then mErrorCount mm
                              else (mErrorCount mm + 1)%Z;
               totalLatency := totalLatency mm + duration d;
               mCosts := match truthyCost (cost d) with
                         | Some c => mCosts mm ++ [{| ceTimestamp := now; ceCost := c;
                                                      ceTokens := tokens d |}]
                         | None => mCosts mm
                         end |}
            (models m)
    | None => models m
    end in
  {| performance := p2; resources := resources m;
     models := models'; costs := costs m |}.

Definition recordCostMetrics (m : Metrics) (id : string) (c tk : Q) (now : Z) : Metrics :=
  let cm := match mapGet id (costs m) with
            | Some cm => cm
            | None => {| totalCost := 0; totalTokens := 0; history := [] |}
            end in
  {| performance := performance m; resources := resources m; models := models m;
     costs := mapSet id
                {| totalCost := totalCost cm + c;
                   totalTokens := totalTokens cm + tk;
                   history := history cm ++ [{| ceTimestamp := now; ceCost := c;
                                                ceTokens := Some tk |}] |}
                (costs m) |}.

Definition getResourceMetrics (m : Metrics) : Resources :=
  {| cpu := lastN 60 (cpu (resources m)); memory := memory (resources m) |}.

Record PerformanceSummary := {
  sRequestCount : Z;
  errorRate : Q;
  averageLatency : Q;
  requestsPerMinute : nat
}.

Record ModelSummary := {
  msModelId : string;
  msRequestCount : Z;
  msErrorRate : Q;
  msAverageLatency : Q
}.

Record Summary := {
  sPerformance : PerformanceSummary;
  sResources : Resources;
  sModels : list ModelSummary;
  sCosts : value
}.

(** [a / b || 0] on counters: with [b = 0] the quotient is [NaN] (the
    numerators here are [0] with it), which [||] turns into [0]. *)
Definition ratioOrZero (a b : Q) : Q :=
  if Qeq_bool b 0 then 0 else a / b.

Definition getMetricsSummary (m : Metrics) : Summary :=
  let ls := latencies (performance m) in
  let avgLatency := if (0 <? length ls)%nat
                    then fold_left Qplus ls 0 / ofNat (length ls) else 0 in
  {| sPerformance :=
       {| sRequestCount := requestCount (performance m);
          errorRate := ratioOrZero (inject_Z (errorCount (performance m)))
                         (inject_Z (requestCount (performance m)));
          averageLatency := avgLatency;
          requestsPerMinute := length (lastMinuteRequests (performance m)) |};
     sResources := getResourceMetrics m;
     sModels :=
       map (fun '(id, mm) =>
              {| msModelId := id;
                 msRequestCount := mRequestCount mm;
                 msErrorRate := ratioOrZero (inject_Z (mErrorCount mm))
                                  (inject_Z (mRequestCount mm));
                 msAverageLatency := ratioOrZero (totalLatency mm)
                                       (inject_Z (mRequestCount mm)) |})
           (models m);
     sCosts :=
       VArr (map (fun '(id, cm) =>
                    VObj [("modelId", VStr id);
                          ("totalCost", VNum (totalCost cm));
                          ("totalTokens", VNum (totalTokens cm))])
               (costs m)) |}.

(** *** AlertManager *)

Record ErrorThresholds := { rate : option Q; interval : option Q }.
Record LatencyThresholds := { threshold : option Q; percentile : option Q }.
Record CostThresholds := { daily : option Q; monthly : option Q }.
Record UsageThreshold := { usage : option Q }.

Record Thresholds := {
  tError : ErrorThresholds;
  tLatency : LatencyThresholds;
  tCost : CostThresholds;
  tMemory : UsageThreshold;
  tCpu : UsageThreshold
}.

Definition defaultThresholds : Thresholds :=
  {| tError := {| rate := Some (1 # 10); interval := Some (inject_Z (5 * 60 * 1000)) |};
     tLatency := {| threshold := Some 2000; percentile := Some 95 |};
     tCost := {| daily := Some 1000; monthly := Some 20000 |};
     tMemory := {| usage := Some (9 # 10) |};
     tCpu := {| usage := Some (8 # 10) |} |}.

(** The argument of [updateThresholds]: the groups it names replace the
    running ones whole ([{...this.thresholds, ...newThresholds}]). *)
Record ThresholdUpdate := {
  uError : option ErrorThresholds;
  uLatency : option LatencyThresholds;
  uCost : option CostThresholds;
  uMemory : option UsageThreshold;
  uCpu : option UsageThreshold
}.

(** An alert without its [id], which is drawn from the clock and
    [Math.random]; [data] is the one number every rule attaches. *)
Record Alert := {
  alertType : string;
  severity : string;
  message : string;
  data : jsnum;
  alertTimestamp : Z;
  alertStatus : string
}.

Record AlertManager := {
  alerts : list Alert;
  thresholds : Thresholds
}.

Definition initialAlertManager : AlertManager :=
  {| alerts := []; thresholds := defaultThresholds |}.

Definition generateAlert (am : AlertManager) (type sev msg : string) (d : jsnum)
    (now : Z) : AlertManager :=
  {| alerts := alerts am ++ [{| alertType := type; severity := sev; message := msg;
                                data := d; alertTimestamp := now;
                                alertStatus := "active" |}];
     thresholds := thresholds am |}.

(** [x > t] where [t] may be [undefined]. *)
Definition exceeds (x : jsnum) (t : option Q) : bool :=
  match x, t with
  | JNum x, Some t => Qltb t x
  | JPosInf, Some _ => true
  | _, _ => false
  end.

Definition checkPerformanceMetrics (am : AlertManager) (s : Summary) (now : Z)
  : AlertManager :=
  let p := sPerformance s in
  let am1 := if exceeds (JNum (errorRate p)) (rate (tError (thresholds am)))
             then generateAlert am "error_rate" "high" "High error rate detected"
                    (JNum (errorRate p)) now
             else am in
  if exceeds (JNum (averageLatency p)) (threshold (tLatency (thresholds am1)))
  then generateAlert am1 "latency" "medium" "High average latency detected"
         (JNum (averageLatency p)) now
  else am1.

(** [a / b] on numbers. *)
Definition divide (a b : Q) : jsnum :=
  if Qeq_bool b 0 then
    if Qeq_bool a 0 then JNaN else if Qle_bool 0 a then JPosInf else JNegInf
  else JNum (a / b).

Definition checkResourceMetrics (am : AlertManager) (r : Resources) (now : Z)
  : AlertManager :=
  let memoryUsage := match memory r with
                     | Some mem => divide (memProcess mem) (memSystem mem)
                     | None => JNaN
                     end in
  let am1 := if exceeds memoryUsage (usage (tMemory (thresholds am)))
             then generateAlert am "memory" "high" "High memory usage" memoryUsage now
             else am in
  match last (cpu r) with
  | Some lastCpuUsage =>
      let totalCpuUsage := (cpuUser lastCpuUsage + cpuSystem lastCpuUsage) / 1000000 in
      if exceeds (JNum totalCpuUsage) (usage (tCpu (thresholds am1)))
      then generateAlert am1 "cpu" "medium" "High CPU usage" (JNum totalCpuUsage) now
      else am1
  | None => am1
  end.

(** A field read as a number. The collector stores numbers there; a
    string or an object, which it never stores, is read as [NaN]. *)
Definition numberOf (v : value) : jsnum :=
  match v with
  | VNum q => JNum q
  | _ => JNaN
  end.

Definition add (a b : jsnum) : jsnum :=
  match a, b with
  | JNaN, _ | _, JNaN => JNaN
  | JNum x, JNum y => JNum (x + y)
  | JPosInf, JNegInf | JNegInf, JPosInf => JNaN
  | JPosInf, _ | _, JPosInf => JPosInf
  | JNegInf, _ | _, JNegInf => JNegInf
  end.

(** [history.filter(entry => entry.timestamp > since)]. *)
Fixpoint filterSince (since : Z) (history : list value) : result (list value) :=
  match history with
  | [] => Ok []
  | entry :: history' =>
      match getField "timestamp" entry with
      | Throw e => Throw e
      | Ok ts =>
          match filterSince since history' with
          | Throw e => Throw e
          | Ok kept =>
              Ok (if exceeds (numberOf ts) (Some (inject_Z since))
                  then entry :: kept else kept)
          end
      end
  end.

(** [.reduce((sum, entry) => sum + entry.cost, 0)]. *)
Fixpoint sumCost (entries : list value) (sum : jsnum) : result jsnum :=
  match entries with
  | [] => Ok sum
  | entry :: entries' =>
      match getField "cost" entry with
      | Throw e => Throw e
      | Ok c => sumCost entries' (add sum (numberOf c))
      end
  end.

(** [metrics.history.filter(...).reduce(...)] for one entry of the loop
    of [checkCostMetrics]: the costs recorded after [since]. *)
Definition costsSince (since : Z) (metrics : value) : result jsnum :=
  match getField "history" metrics with
  | Throw e => Throw e
  | Ok (VArr history) =>
      match filterSince since history with
      | Throw e => Throw e
      | Ok kept => sumCost kept (JNum 0)
      end
  | Ok VUndefined =>
      Throw (typeError "Cannot read properties of undefined (reading 'filter')")
  | Ok _ => Throw (typeError "metrics.history.filter is not a function")
  end.

(** The loop of [checkCostMetrics] over the entries still to visit. *)
Fixpoint sumCosts (now : Z) (entries : list value) (dailyTotal monthlyTotal : jsnum)
  : result (jsnum * jsnum) :=
  match entries with
  | [] => Ok (dailyTotal, monthlyTotal)
  | metrics :: entries' =>
      let oneDayAgo := (now - 24 * 60 * 60 * 1000)%Z in
      let oneMonthAgo := (now - 30 * 24 * 60 * 60 * 1000)%Z in
      match costsSince oneDayAgo metrics with
      | Throw e => Throw e
      | Ok dailyCosts =>
          match costsSince oneMonthAgo metrics with
          | Throw e => Throw e
          | Ok monthlyCosts =>
              sumCosts now entries' (add dailyTotal dailyCosts)
                (add monthlyTotal monthlyCosts)
          end
      end
  end.

Definition checkCostMetrics (am : AlertManager) (costs : value) (now : Z)
  : result AlertManager :=
  match entryValues costs with
  | Throw e => Throw e
  | Ok entries =>
      match sumCosts now entries (JNum 0) (JNum 0) with
      | Throw e => Throw e
      | Ok (dailyTotal, monthlyTotal) =>
          let am1 := if exceeds dailyTotal (daily (tCost (thresholds am)))
                     then generateAlert am "cost_daily" "high"
                            "Daily cost threshold exceeded" dailyTotal now
                     else am in
          Ok (if exceeds monthlyTotal (monthly (tCost (thresholds am1)))
              then generateAlert am1 "cost_monthly" "critical"
                     "Monthly cost threshold exceeded" monthlyTotal now
              else am1)
      end
  end.

Definition updateThresholds (am : AlertManager) (u : ThresholdUpdate) : AlertManager :=
  let t := thresholds am in
  {| alerts := alerts am;
     thresholds :=
       {| tError := match uError u with Some x => x | None => tError t end;
          tLatency := match uLatency u with Some x => x | None => tLatency t end;
          tCost := match uCost u with Some x => x | None => tCost t end;
          tMemory := match uMemory u with Some x => x | None => tMemory t end;
          tCpu := match uCpu u with Some x => x | None => tCpu t end |} |}.

(** The alerts of one type, resolved or not. *)
Definition ofType (type : string) (am : AlertManager) : list Alert :=
  List.filter (fun a => String.eqb (alertType a) type) (alerts am).

Definition getActiveAlerts (am : AlertManager) : list Alert :=
  List.filter (fun a => String.eqb (alertStatus a) "active") (alerts am).

(** *** MonitoringService *)

Record State := {
  collector : Metrics;
  alertManager : AlertManager
}.

Definition initialState : State :=
  {| collector := initialMetrics; alertManager := initialAlertManager |}.

(** [recordRequest]: the collector records, then emits [metrics-update]
    with type [request], which [handleMetricsUpdate] answers with the
    performance check. *)
Definition recordRequest (st : State) (d : RequestData) (now : Z) : State :=
  let m := collectRequest (collector st) d now in
  {| collector := m;
     alertManager := checkPerformanceMetrics (alertManager st) (getMetricsSummary m) now |}.

Definition recordCost (st : State) (id : string) (c tk : Q) (now : Z) : State :=
  {| collector := recordCostMetrics (collector st) id c tk now;
     alertManager := alertManager st |}.

Definition getMetrics (st : State) : Summary := getMetricsSummary (collector st).

(** [runHealthChecks]: the three checks run inside one [try]; an
    exception ends the pass, is logged and goes no further, and the
    alerts raised before it stay. *)
Definition runHealthChecks (st : State) (metrics : Summary) (now : Z) : State :=
  let am1 := checkPerformanceMetrics (alertManager st) metrics now in
  let am2 := checkResourceMetrics am1 (sResources metrics) now in
  {| collector := collector st;
     alertManager := match checkCostMetrics am2 (sCosts metrics) now with
                     | Ok am3 => am3
                     | Throw _ => am2
                     end |}.

Definition setThresholds (st : State) (t : Thresholds) : State :=
  {| collector := collector st;
     alertManager := {| alerts := alerts (alertManager st); thresholds := t |} |}.

End Monitoring.

(** ** Request pre-processing ([middleware/requestProcessor.js]) *)

Module RequestProcessor.
Import JS Errors.

(** A raw request. An absent [request_id] and an empty one are both
    falsy; [metadata] maps strings to strings. *)
Record Request := {
  request_id : option string;
  query : option jsstring;
  metadata : option (gmap string string)
}.

Section Standardize.
(** The identifier [uuidv4] draws and the text of [toISOString] at a
    clock value. *)
Variable uuidv4 : string.
Variable toISOString : Z -> string.

Definition standardizeRequest (request : Request) (now : Z) : Request :=
  {| request_id := match request_id request with
                   | Some id => if String.eqb id "" then Some uuidv4 else Some id
                   | None => Some uuidv4
                   end;
     query := query request;
     metadata := Some (<["timestamp" := toISOString now]>
                         (match metadata request with
                          | Some m => m
                          | None => ∅
                          end)) |}.
End Standardize.

(** [toLowerCase] on the letters a pattern with flag [i] can match. *)
Definition lowerAscii (c : N) : N :=
  if ((65 <=? c) && (c <=? 90))%N then (c + 32)%N else c.

(** [word] is a prefix of [s], whatever the case; gives the rest. *)
Fixpoint stripWord (word : jsstring) (s : jsstring) : option jsstring :=
  match word, s with
  | [], _ => Some s
  | w :: word', c :: s' =>
      if (lowerAscii c =? w)%N then stripWord word' s' else None
  | _ :: _, [] => None
  end.

(** [/word\s*\(/i] matches at the start of [s]. *)
Definition matchesHere (word : jsstring) (s : jsstring) : bool :=
  match stripWord word s with
  | Some rest =>
      match dropWhile isWhiteSpace rest with
      | c :: _ => (c =? 40)%N
      | [] => false
      end
  | None => false
  end.

(** [/word\s*\(/i.test(s)]. *)
Fixpoint test (word : jsstring) (s : jsstring) : bool :=
  matchesHere word s ||
  match s with
  | [] => false
  | _ :: s' => test word s'
  end.

Definition sensitivePatterns : list jsstring :=
  [of_ascii "exec"; of_ascii "eval"; of_ascii "system"].

(** What [requestSchema.validate] accepts: a query of 1 to 10000 code
    units, a non-empty [request_id] when there is one, and metadata values
    that are non-empty strings (Joi's [string()] refuses the empty one). *)
Definition schemaAccepts (request : Request) : bool :=
  match query request with
  | Some q => (1 <=? Z.of_nat (length q))%Z && (Z.of_nat (length q) <=? 10000)%Z
  | None => false
  end
  && match request_id request with
     | Some id => negb (String.eqb id "")
     | None => true
     end
  && match metadata request with
     | Some m => forallb (fun kv => negb (String.eqb (snd kv) "")) (map_to_list m)
     | None => true
     end.

Definition performSecurityCheck (request : Request) : result unit :=
  if schemaAccepts request then
    match query request with
    | Some q =>
        if existsb (fun pattern => test pattern q) sensitivePatterns
        then Throw (invalidRequest "请求包含潜在的不安全内容")
        else Ok tt
    | None => Throw (invalidRequest "请求验证失败")
    end
  else Throw (invalidRequest "请求验证失败").

(** The keys of the extracted metadata that the router and the
    dispatcher read. *)
Definition extractMetadata (request : Request) : Router.Metadata :=
  let m := match metadata request with Some m => m | None => ∅ end in
  {| Router.budget := m !! "budget";
     Router.queryLength := match query request with
                           | Some q => Some (length q)
                           | None => None
                           end;
     Router.maxTokens := m !! "maxTokens";
     Router.temperature := m !! "temperature";
     Router.systemMessage := m !! "systemMessage" |}.

Definition processRequest (uuidv4 : string) (toISOString : Z -> string)
    (request : Request) (now : Z) : result (Request * Router.Metadata) :=
  let standardizedRequest := standardizeRequest uuidv4 toISOString request now in
  match performSecurityCheck standardizedRequest with
  | Throw e => Throw e
  | Ok _ => Ok (standardizedRequest, extractMetadata standardizedRequest)
  end.

End RequestProcessor.

(** ** Dispatcher ([services/modelGatewayService.js]) *)

Module Gateway.
Import JS Errors.
#[local] Open Scope Q_scope.

Record TokenUsage := {
  input : Q;
  output : Q;
  total : Q
}.

(** What an adapter returns; [cost] and [tokenUsage] may be absent. *)
Record ModelResponse := {
  text : string;
  cost : option Q;
  tokenUsage : option TokenUsage
}.

(** One call of [adapterManager.callModel]: it resolves or rejects after
    [elapsed] milliseconds. *)
Inductive AdapterOutcome :=
| Resolves (elapsed : Z) (r : ModelResponse)
| Rejects (elapsed : Z) (e : exn).

(** The process: the two singletons, the clock that [Date.now()] reads
    (it moves while an adapter call is awaited, the dispatcher's own steps
    take no time) and the log of the adapter calls made so far, as
    (provider, model). *)
Record World := {
  router : Router.State;
  monitoring : Monitoring.State;
  now : Z;
  adapterCalls : list (string * string)
}.

Record QueryResult := {
  result_request_id : option string;
  response : string;
  complexity_score : Q;
  model_used : string;
  result_cost : option Q;
  token_usage : TokenUsage;
  processing_time : Z
}.

(** The [details] of an error reply: the JSON text of
    [error.toErrorResponse()], given by its two fields, or the message of
    an error that is no [GatewayError]. *)
Inductive Details :=
| ErrorResponse (code : ErrorCode) (message : string)
| Message (text : string).

Record ErrorReply := {
  code : Z;
  message : string;
  details : Details
}.

(** The arguments of [callback]. *)
Inductive Reply :=
| ReplyOk (r : QueryResult)
| ReplyError (e : ErrorReply).

Definition setRouter (w : World) (r : Router.State) : World :=
  {| router := r; monitoring := monitoring w; now := now w;
     adapterCalls := adapterCalls w |}.

Definition setMonitoring (w : World) (m : Monitoring.State) : World :=
  {| router := router w; monitoring := m; now := now w;
     adapterCalls := adapterCalls w |}.

(** [a || b] on optional numbers. *)
Definition orElse (a b : option Q) : option Q :=
  match a with
  | Some v => if Qeq_bool v 0 then b else Some v
  | None => b
  end.

(** [finalModelInfo] is declared with [const]; the assignment
    [finalModelInfo = backupModel] of the fallback path throws this. *)
Definition assignmentToConstant : exn :=
  OtherError "TypeError" "Assignment to constant variable.".

Definition messageOf (e : exn) : string :=
  match e with
  | GatewayError _ m => m
  | OtherError _ m => m
  end.

Section Dispatch.
Variable parseFloat : string -> jsnum.
Variable uuidv4 : string.
Variable toISOString : Z -> string.
(** The adapters: what the call number [n] (from 0) to a provider and a
    model does. *)
Variable callModel : nat -> string -> string -> AdapterOutcome.

Definition recordRequest (w : World) (d : Monitoring.RequestData) : World :=
  setMonitoring w (Monitoring.recordRequest (monitoring w) d (now w)).

(** [evaluateQueryComplexity]: the scores, and one monitoring record of
    the operation, which carries no [modelId]. *)
Definition evaluateQueryComplexity (w : World) (query : jsstring)
  : Evaluator.ComplexityResult * World :=
  let startTime := now w in
  let result := Evaluator.evaluate query in
  (result,
   recordRequest w
     {| Monitoring.modelId := None;
        Monitoring.duration := inject_Z (now w - startTime);
        Monitoring.success := true;
        Monitoring.cost := None;
        Monitoring.tokens := None |}).

(** [await adapterManager.callModel(provider, model, ...)]. *)
Definition awaitCallModel (w : World) (mi : Router.ModelInfo)
  : AdapterOutcome * World :=
  let model := match Router.defaultModel (Router.modelConfig mi) with
               | Some m => if String.eqb m "" then "default" else m
               | None => "default"
               end in
  let outcome := callModel (length (adapterCalls w)) (Router.provider mi) model in
  let elapsed := match outcome with
                 | Resolves dt _ => dt
                 | Rejects dt _ => dt
                 end in
  (outcome,
   {| router := router w; monitoring := monitoring w;
      now := (now w + elapsed)%Z;
      adapterCalls := (adapterCalls w ++ [(Router.provider mi, model)])%list |}).

(** The inner [try ... catch] of [processQuery]: the call of the chosen
    model and, when it fails, the attempt on a backup. Gives the response
    and [actualCost]. *)
Definition callWithFallback (w : World) (finalModelInfo : Router.ModelInfo)
    (md : Router.Metadata) : result (ModelResponse * option Q) * World :=
  match awaitCallModel w finalModelInfo with
  | (Resolves _ modelResponse, w1) =>
      (Ok (modelResponse,
           orElse (cost modelResponse) (Router.estimatedCost finalModelInfo)), w1)
  | (Rejects _ error, w1) =>
      match Router.getBackupModel (router w1) (Router.provider finalModelInfo)
              (Router.modelType finalModelInfo) md with
      | Some backupModel =>
          match Router.recordModelUseStart (router w1) (Router.provider backupModel) with
          | Throw e => (Throw e, w1)
          | Ok r2 =>
              match awaitCallModel (setRouter w1 r2) backupModel with
              | (Rejects _ e, w3) => (Throw e, w3)
              | (Resolves _ modelResponse, w3) =>
                  let actualCost :=
                    orElse (cost modelResponse) (Router.estimatedCost backupModel) in
                  (Throw assignmentToConstant, w3)
              end
          end
      | None =>
          (Throw (modelUnavailable "模型调用失败，且没有可用的备用模型"), w1)
      end
  end.

(** The outer [try] block. The second component is the variable
    [modelInfo], which the [catch] block reads. *)
Definition tryProcessQuery (w : World) (request : RequestProcessor.Request)
    (requestId : string) (startTime : Z)
  : result QueryResult * option Router.ModelInfo * World :=
  match RequestProcessor.processRequest uuidv4 toISOString request (now w) with
  | Throw e => (Throw e, None, w)
  | Ok (request, md) =>
      let query := match RequestProcessor.query request with
                   | Some q => q
                   | None => []
                   end in
      let '(complexityResult, w1) := evaluateQueryComplexity w query in
      let complexityScore := Evaluator.complexityScore complexityResult in
      let complexityFactors := Evaluator.complexityFactors complexityResult in
      match Router.selectModelByComplexity (router w1) complexityScore
              complexityFactors md with
      | Throw e => (Throw e, None, w1)
      | Ok modelInfo =>
          match Router.applyCostControlStrategy parseFloat (router w1) modelInfo md with
          | Throw e => (Throw e, Some modelInfo, w1)
          | Ok finalModelInfo =>
              match Router.recordModelUseStart (router w1)
                      (Router.provider finalModelInfo) with
              | Throw e => (Throw e, Some modelInfo, w1)
              | Ok r2 =>
                  let w2 := setRouter w1 r2 in
                  let modelStartTime := now w2 in
                  match callWithFallback w2 finalModelInfo md with
                  | (Throw e, w3) => (Throw e, Some modelInfo, w3)
                  | (Ok (modelResponse, actualCost), w3) =>
                      let responseTime := (now w3 - startTime)%Z in
                      let modelProcessingTime := (now w3 - modelStartTime)%Z in
                      let w4 :=
                        recordRequest w3
                          {| Monitoring.modelId := Some (Router.provider finalModelInfo);
                             Monitoring.duration := inject_Z responseTime;
                             Monitoring.success := true;
                             Monitoring.cost := actualCost;
                             Monitoring.tokens :=
                               Some (match tokenUsage modelResponse with
                                     | Some u => total u
                                     | None => 0
                                     end) |} in
                      let r5 :=
                        Router.recordModelUseEnd (router w4)
                          (Router.provider finalModelInfo)
                          (Some {| Router.responseTime := inject_Z modelProcessingTime;
                                   Router.success := true;
                                   Router.useCostEfficiency :=
                                     1 / orDefault actualCost (1 # 1000) |}) in
                      (Ok {| result_request_id := RequestProcessor.request_id request;
                             response := text modelResponse;
                             complexity_score := complexityScore;
                             model_used := Router.provider finalModelInfo;
                             result_cost := actualCost;
                             token_usage :=
                               match tokenUsage modelResponse with
                               | Some u => u
                               | None => {| input := 0; output := 0; total := 0 |}
                               end;
                             processing_time := responseTime |},
                       Some modelInfo, setRouter w4 r5)
                  end
              end
          end
      end
  end.

Definition processQuery (w : World) (request : RequestProcessor.Request)
  : Reply * World :=
  let requestId := uuidv4 in
  let startTime := now w in
  match tryProcessQuery w request requestId startTime with
  | (Ok result, _, w') => (ReplyOk result, w')
  | (Throw error, modelInfo, w') =>
      let errorTime := (now w' - startTime)%Z in
      let w'' :=
        recordRequest w'
          {| Monitoring.modelId :=
               Some (match modelInfo with
                     | Some mi => if String.eqb (Router.provider mi) "" then "unknown"
                                  else Router.provider mi
                     | None => "unknown"
                     end);
             Monitoring.duration := inject_Z errorTime;
             Monitoring.success := false;
             Monitoring.cost := None;
             Monitoring.tokens := None |} in
      (ReplyError
         match error with
         | GatewayError c m =>
             {| code := getGrpcStatus c; message := m; details := ErrorResponse c m |}
         | OtherError _ m =>
             {| code := INTERNAL; message := "内部服务器错误"; details := Message m |}
         end,
       w'')
  end.

End Dispatch.

(** The active-connection count the router holds for a provider. *)
Definition inflight (w : World) (p : string) : Z :=
  Router.currentConnections (router w) p.

Definition oneIf (b : bool) : Z := if b then 1%Z else 0%Z.

(** How many of the adapter calls in [calls] went to provider [p]. *)
Definition callsTo (p : string) (calls : list (string * string)) : Z :=
  Z.of_nat (length (List.filter (fun c => String.eqb (fst c) p) calls)).

(** The adapter calls made between the worlds [w] and [w']. *)
Definition callsBetween (w w' : World) : list (string * string) :=
  skipn (length (adapterCalls w)) (adapterCalls w').

End Gateway.


(** ** Scenarios

    The configuration of the integration tests
    ([test/integration/error.test.js], [routing.test.js]) and the inputs
    the properties below are run on. *)

Module Scenario.
Import JS.
#[local] Open Scope Q_scope.


(** A stand-in for the built-in [parseFloat] on plain decimal literals
    (digits, then optionally a point and digits); anything else is read as
    [NaN]. *)
Definition digitOf (c : ascii) : option Z :=
  let n := Z.of_N (N_of_ascii c) in
  if ((48 <=? n) && (n <=? 57))%Z then Some (n - 48)%Z else None.

Fixpoint parseDigits (s : string) (num : Z) (den : positive) (afterPoint : bool)
  : jsnum :=
  match s with
  | EmptyString => JNum (num # den)
  | String c s' =>
      match digitOf c with
      | Some d =>
          parseDigits s' (10 * num + d)%Z (if afterPoint then (10 * den)%positive else den)
            afterPoint
      | None =>
          if (Ascii.eqb c "."%char && negb afterPoint)%bool
          then parseDigits s' num den true
          else JNaN
      end
  end.

Definition parseDecimal (s : string) : jsnum :=
  match s with
  | EmptyString => JNaN
  | _ => parseDigits s 0 1 false
  end.

(** [config.modelProviders] and [config.routingStrategy] of the
    integration tests. *)
Definition openai : Router.ProviderConfig :=
  {| Router.status := Some "online";
     Router.supportedModelTypes := Some [Router.remote];
     Router.maxConcurrentQueries := Some 10%Z;
     Router.baseCostPerQuery := Some (2 # 100);
     Router.maxCostPerQuery := Some (1 # 10);
     Router.costEfficiency := None;
     Router.defaultModel := None |}.

Definition anthropic : Router.ProviderConfig :=
  {| Router.status := Some "online";
     Router.supportedModelTypes := Some [Router.hybrid; Router.remote];
     Router.maxConcurrentQueries := Some 5%Z;
     Router.baseCostPerQuery := Some (3 # 100);
     Router.maxCostPerQuery := Some (15 # 100);
     Router.costEfficiency := None;
     Router.defaultModel := None |}.

Definition localProvider : Router.ProviderConfig :=
  {| Router.status := Some "online";
     Router.supportedModelTypes := Some [Router.local];
     Router.maxConcurrentQueries := Some 20%Z;
     Router.baseCostPerQuery := Some (1 # 1000);
     Router.maxCostPerQuery := Some (1 # 100);
     Router.costEfficiency := None;
     Router.defaultModel := None |}.

Definition testStrategy : Router.RoutingStrategy :=
  {| Router.lowComplexityThreshold := 3 # 10;
     Router.highComplexityThreshold := 7 # 10 |}.

(** The router as the module is loaded: no connection, no statistics. *)
Definition testRouter : Router.State :=
  {| Router.routingStrategy := testStrategy;
     Router.modelProviders :=
       [("openai", openai); ("anthropic", anthropic); ("local", localProvider)];
     Router.activeConnections := ∅;
     Router.modelStats := ∅ |}.

(** The router with [n] connections open on [openai]. *)
Definition routerWithOpenai (n : Z) : Router.State :=
  Router.setActiveConnections testRouter {["openai" := n]}.

Definition noMetadata : Router.Metadata :=
  {| Router.budget := None; Router.queryLength := None; Router.maxTokens := None;
     Router.temperature := None; Router.systemMessage := None |}.

(** The metadata of a query of 17 code units with [budget: '0.01']. *)
Definition smallBudget : Router.Metadata :=
  {| Router.budget := Some "0.01"; Router.queryLength := Some 17%nat;
     Router.maxTokens := None; Router.temperature := None;
     Router.systemMessage := None |}.

(** The same query with [budget: '0.2']. *)
Definition ampleBudget : Router.Metadata :=
  {| Router.budget := Some "0.2"; Router.queryLength := Some 17%nat;
     Router.maxTokens := None; Router.temperature := None;
     Router.systemMessage := None |}.

(** A provider whose configuration names nothing, in a router of its
    own. *)
Definition bareProvider : Router.ProviderConfig :=
  {| Router.status := None;
     Router.supportedModelTypes := None;
     Router.maxConcurrentQueries := None;
     Router.baseCostPerQuery := None;
     Router.maxCostPerQuery := None;
     Router.costEfficiency := None;
     Router.defaultModel := None |}.

Definition bareRouter : Router.State :=
  {| Router.routingStrategy := testStrategy;
     Router.modelProviders := [("default", bareProvider)];
     Router.activeConnections := {["default" := 9%Z]};
     Router.modelStats := ∅ |}.

(** The monitoring scenario: the daily cost threshold lowered to 10
    (and the monthly one to 100), as the cost-alert test does. *)
Definition lowCostThresholds : Monitoring.Thresholds :=
  {| Monitoring.tError := Monitoring.tError Monitoring.defaultThresholds;
     Monitoring.tLatency := Monitoring.tLatency Monitoring.defaultThresholds;
     Monitoring.tCost := {| Monitoring.daily := Some 10; Monitoring.monthly := Some 100 |};
     Monitoring.tMemory := Monitoring.tMemory Monitoring.defaultThresholds;
     Monitoring.tCpu := Monitoring.tCpu Monitoring.defaultThresholds |}.

Definition monitoringStart : Monitoring.State :=
  Monitoring.setThresholds Monitoring.initialState lowCostThresholds.

(** A successful request of cost 2 on [openai]. *)
Definition costlyRequest : Monitoring.RequestData :=
  {| Monitoring.modelId := Some "openai";
     Monitoring.duration := 500;
     Monitoring.success := true;
     Monitoring.cost := Some 2;
     Monitoring.tokens := Some 1000 |}.

(** Ten such requests, one a second from time 1000 on. *)
Definition afterTenRequests : Monitoring.State :=
  fold_left (fun st i => Monitoring.recordRequest st costlyRequest (Z.of_nat i * 1000))
    (seq 1 10) monitoringStart.

(** Ten calls [recordCost('openai', 2, 1000)], as the test makes them. *)
Definition afterTenCosts : Monitoring.State :=
  fold_left (fun st i => Monitoring.recordCost st "openai" 2 1000 (Z.of_nat i * 1000))
    (seq 1 10) monitoringStart.

(** The collector's cost map as an object that keeps each [history]. *)
Definition costTable (m : Monitoring.Metrics) : Monitoring.value :=
  Monitoring.VObj
    (map (fun '(id, cm) =>
            (id, Monitoring.VObj
                   [("totalCost", Monitoring.VNum (Monitoring.totalCost cm));
                    ("totalTokens", Monitoring.VNum (Monitoring.totalTokens cm));
                    ("history",
                     Monitoring.VArr
                       (map (fun e =>
                               Monitoring.VObj
                                 [("timestamp",
                                   Monitoring.VNum (inject_Z (Monitoring.ceTimestamp e)));
                                  ("cost", Monitoring.VNum (Monitoring.ceCost e))])
                          (Monitoring.history cm)))]))
       (Monitoring.costs m)).

(** The dispatch scenarios of [error.test.js]. The query is the test's
    own, '解释一下量子计算的基本原理', as its 13 code units. *)
Definition testQuery : jsstring :=
  [35299; 37322; 19968; 19979; 37327; 23376; 35745; 31639; 30340; 22522; 26412;
   21407; 29702]%N.

Definition testRequest : RequestProcessor.Request :=
  {| RequestProcessor.request_id := Some "request-1";
     RequestProcessor.query := Some testQuery;
     RequestProcessor.metadata := Some ∅ |}.

Definition testUuid : string := "00000000-0000-4000-8000-000000000000".

Definition testISOString (now : Z) : string := "1970-01-01T00:00:00.000Z".

Definition backupResponse (provider : string) : Gateway.ModelResponse :=
  {| Gateway.text := "Backup model response from " ++ provider;
     Gateway.cost := Some (3 # 100);
     Gateway.tokenUsage :=
       Some {| Gateway.input := 10; Gateway.output := 15; Gateway.total := 25 |} |}.

(** The first call throws, every later one answers (after 100 ms). *)
Definition failOnce (n : nat) (provider model : string) : Gateway.AdapterOutcome :=
  match n with
  | O => Gateway.Rejects 100 (Errors.OtherError "Error" "模型服务暂时不可用")
  | S _ => Gateway.Resolves 100 (backupResponse provider)
  end.

(** Every call throws. *)
Definition alwaysFail (n : nat) (provider model : string) : Gateway.AdapterOutcome :=
  Gateway.Rejects 100 (Errors.OtherError "Error" "模型服务不可用").

(** Every call answers. *)
Definition alwaysAnswer (n : nat) (provider model : string) : Gateway.AdapterOutcome :=
  Gateway.Resolves 100
    {| Gateway.text := "Mock response from " ++ provider ++ " model";
       Gateway.cost := Some (5 # 100);
       Gateway.tokenUsage :=
         Some {| Gateway.input := 10; Gateway.output := 20; Gateway.total := 30 |} |}.

(** The process as the modules are loaded. *)
Definition testWorld : Gateway.World :=
  {| Gateway.router := testRouter;
     Gateway.monitoring := Monitoring.initialState;
     Gateway.now := 0;
     Gateway.adapterCalls := [] |}.

Definition dispatch (callModel : nat -> string -> string -> Gateway.AdapterOutcome)
  : Gateway.Reply * Gateway.World :=
  Gateway.processQuery parseDecimal testUuid testISOString callModel testWorld testRequest.

End Scenario.

(** ** The chain of model types

    The types [fallbackTypes] leads through from a type, that type first. *)

Module Chain.
Import Router.

Definition fallbackChain (t : ModelType) : list ModelType :=
  match t with
  | remote => [remote; hybrid; local]
  | hybrid => [hybrid; local]
  | local => [local]
  end.

(** The candidates of a type other than the provider that failed. *)
Definition others (st : State) (primaryProvider : string) (t : ModelType)
    (md : Metadata) : list Provider :=
  List.filter (fun p => negb (String.eqb (name p) primaryProvider))
    (getAvailableProviders st t md).

(** What a backup is, by the type the search starts from. *)
Definition backupSpec (st : State) (primaryProvider : string) (md : Metadata)
    (t : ModelType) : Prop :=
  (forall b, getBackupModel st primaryProvider t md = Some b ->
             In (modelType b) (fallbackChain t)
             /\ provider b <> primaryProvider
             /\ In {| name := provider b; config := modelConfig b |}
                  (getAvailableProviders st (modelType b) md)
             /\ isBackup b = true
             /\ estimatedCost b = None)
  /\ (getBackupModel st primaryProvider t md = None <->
      forall t' q, In t' (fallbackChain t) ->
                   In q (getAvailableProviders st t' md) -> name q = primaryProvider).

End Chain.

(** ** More scenarios *)

Module Scenario2.
Import JS.
#[local] Open Scope Q_scope.

(** One call of 800 ms that failed, at cost efficiency 20. *)
Definition failedSample : Router.UseStats :=
  {| Router.responseTime := 800; Router.success := false;
     Router.useCostEfficiency := 20 |}.

(** Statistics after four calls, three of which succeeded. *)
Definition fourCalls : Router.ModelStats :=
  {| Router.avgResponseTime := 400; Router.successRate := 3 # 4;
     Router.statsCostEfficiency := 25; Router.totalCalls := 4 |}.

Definition routerWithStats : Router.State :=
  Router.setModelStats Scenario.testRouter {["openai" := fourCalls]}.


Definition anthropicProvider : Router.Provider :=
  {| Router.name := "anthropic"; Router.config := Scenario.anthropic |}.

(** A request whose query calls [exec], in capitals and with a blank
    before the bracket. *)
Definition unsafeRequest : RequestProcessor.Request :=
  {| RequestProcessor.request_id := Some "request-2";
     RequestProcessor.query := Some (of_ascii "please EXEC (rm)");
     RequestProcessor.metadata := Some ∅ |}.

(** The test process with all five connections of [anthropic] open: no
    candidate is left for the hybrid type. *)
Definition busyWorld : Gateway.World :=
  {| Gateway.router :=
       Router.setActiveConnections Scenario.testRouter {["anthropic" := 5%Z]};
     Gateway.monitoring := Monitoring.initialState;
     Gateway.now := 0;
     Gateway.adapterCalls := [] |}.

(** The test request as pre-processing returns it, and its metadata. *)
Definition standardRequest : RequestProcessor.Request :=
  RequestProcessor.standardizeRequest Scenario.testUuid Scenario.testISOString
    Scenario.testRequest 0.

Definition standardMetadata : Router.Metadata :=
  RequestProcessor.extractMetadata standardRequest.

End Scenario2.

(** ** Counters of the dispatcher's world *)

Module Counters.
Import Gateway.

(** [metrics.performance.requestCount] and [errorCount] of the collector. *)
Definition requestCount (w : World) : Z :=
  Monitoring.requestCount (Monitoring.performance (Monitoring.collector (monitoring w))).

Definition errorCount (w : World) : Z :=
  Monitoring.errorCount (Monitoring.performance (Monitoring.collector (monitoring w))).

(** The record the [catch] block of [processQuery] writes for a request
    that no model was chosen for. *)
Definition unknownFailure : Monitoring.RequestData :=
  {| Monitoring.modelId := Some "unknown";
     Monitoring.duration := 0;
     Monitoring.success := false;
     Monitoring.cost := None;
     Monitoring.tokens := None |}.

End Counters.

(** ** The [evaluateComplexity] call of the gateway service

    The RPC repeats the heuristics of [evaluateQueryComplexity] but
    divides by the number of sentences as it is, so its numbers need not
    be finite. *)

Module Rpc.
Import JS Evaluator.
#[local] Open Scope Q_scope.

(** [x / 20]. *)
Definition over20 (x : jsnum) : jsnum :=
  match x with
  | JNum a => JNum (a / 20)
  | JPosInf => JPosInf
  | JNegInf => JNegInf
  | JNaN => JNaN
  end.

(** [Math.min(x, 1)]. *)
Definition minOne (x : jsnum) : jsnum :=
  match x with
  | JNum a => JNum (Qmin a 1)
  | JPosInf => JNum 1
  | JNegInf => JNegInf
  | JNaN => JNaN
  end.

(** [x * k] for a finite [k]. *)
Definition times (x : jsnum) (k : Q) : jsnum :=
  match x with
  | JNum a => JNum (a * k)
  | JPosInf => if Qltb 0 k then JPosInf else if Qltb k 0 then JNegInf else JNaN
  | JNegInf => if Qltb 0 k then JNegInf else if Qltb k 0 then JPosInf else JNaN
  | JNaN => JNaN
  end.

Definition sentenceCount (query : jsstring) : nat := length (sentences query).

Definition avgSentenceLength (query : jsstring) : jsnum :=
  Monitoring.divide (ofNat (wordCount query)) (ofNat (sentenceCount query)).

Definition grammarComplexity (query : jsstring) : jsnum :=
  minOne (over20 (avgSentenceLength query)).

Definition complexityScore (query : jsstring) : jsnum :=
  Monitoring.add (JNum (vocabularyComplexity query * (6 # 10)))
    (times (grammarComplexity query) (4 # 10)).

Definition complexityFactors (query : jsstring) : list string :=
  let f0 : list string := [] in
  let f1 := if Qltb (6 # 10) (vocabularyComplexity query)
            then (f0 ++ [tagVocabulary])%list else f0 in
  let f2 := if Monitoring.exceeds (grammarComplexity query) (Some (6 # 10))
            then (f1 ++ [tagGrammar])%list else f1 in
  if (100 <? wordCount query)%nat then (f2 ++ [tagLength])%list else f2.

(** The response handed to [callback]. *)
Record Response := {
  complexity_score : jsnum;
  complexity_factors : list string
}.

(** [evaluateComplexity]: the response, and the record of the operation
    that follows the callback. *)
Definition evaluateComplexity (w : Gateway.World) (query : jsstring)
  : Response * Gateway.World :=
  let startTime := Gateway.now w in
  ({| complexity_score := complexityScore query;
      complexity_factors := complexityFactors query |},
   Gateway.recordRequest w
     {| Monitoring.modelId := None;
        Monitoring.duration := inject_Z (Gateway.now w - startTime);
        Monitoring.success := true;
        Monitoring.cost := None;
        Monitoring.tokens := None |}).

End Rpc.

(** ** What the patterns of the security check match *)

Module Patterns.
Import JS RequestProcessor.

(** The text [q] holds [word], in whatever case, then white space or
    none, then an opening bracket. *)
Definition callOf (word : jsstring) (q : jsstring) : Prop :=
  exists before letters blanks rest,
    q = (before ++ letters ++ blanks ++ 40%N :: rest)%list
    /\ map lowerAscii letters = word
    /\ Forall (fun c => isWhiteSpace c = true) blanks.

End Patterns.

(** ** The monitor as the process drives it

    The resource sampler of [MetricsCollector], the health report of
    [MonitoringService], the health tick of [initializeMonitoring], and
    the calls that reach the monitor, in the order they happen. *)

Module Service.
Import JS Monitoring.
#[local] Open Scope Q_scope.

(** One run of the sampler of [startResourceMonitoring], before its
    event. *)
Definition sampleResources (m : Metrics) (user system systemMemory rss : Q) (now : Z)
  : Metrics :=
  let cpu1 := (cpu (resources m)
               ++ [{| cpuTimestamp := now; cpuUser := user; cpuSystem := system |}])%list in
  {| performance := performance m;
     resources := {| cpu := if (3600 <? length cpu1)%nat then tl cpu1 else cpu1;
                     memory := Some {| memSystem := systemMemory; memProcess := rss |} |};
     models := models m;
     costs := costs m |}.

(** The sampler, and the resource check that answers its event. *)
Definition recordResources (st : State) (user system systemMemory rss : Q) (now : Z)
  : State :=
  let m := sampleResources (collector st) user system systemMemory rss now in
  {| collector := m;
     alertManager := checkResourceMetrics (alertManager st) (getResourceMetrics m) now |}.

(** The report of [getHealthStatus], without its time stamp. *)
Record HealthStatus := {
  status : string;
  hRequestCount : Z;
  hErrorRate : Q;
  hAverageLatency : Q;
  activeAlerts : nat;
  criticalAlerts : nat;
  highAlerts : nat
}.

Definition getHealthStatus (st : State) : HealthStatus :=
  let metrics := getMetrics st in
  let active := getActiveAlerts (alertManager st) in
  let critical := List.filter (fun alert => String.eqb (severity alert) "critical") active in
  let high := List.filter (fun alert => String.eqb (severity alert) "high") active in
  {| status := if (0 <? length critical)%nat then "critical"
               else if (0 <? length high)%nat then "degraded"
               else "healthy";
     hRequestCount := sRequestCount (sPerformance metrics);
     hErrorRate := errorRate (sPerformance metrics);
     hAverageLatency := averageLatency (sPerformance metrics);
     activeAlerts := length active;
     criticalAlerts := length critical;
     highAlerts := length high |}.

(** The status code of the [/health] route. *)
Definition healthStatusCode (st : State) : Z :=
  let health := getHealthStatus st in
  if String.eqb (status health) "healthy" then 200
  else if String.eqb (status health) "degraded" then 200 else 503.

(** The tick of [initializeMonitoring]. Its alert attaches the whole
    report; of it the alert's [data] keeps the number of active alerts. *)
Definition healthTick (st : State) (now : Z) : State :=
  let health := getHealthStatus st in
  if negb (String.eqb (status health) "healthy") then
    {| collector := collector st;
       alertManager :=
         generateAlert (alertManager st) "system_health"
           (if String.eqb (status health) "critical" then "critical" else "high")
           "System health check failed" (JNum (ofNat (activeAlerts health))) now |}
  else st.

(** What reaches the monitor. *)
Inductive Event :=
| Request (d : RequestData)
| Cost (id : string) (c tk : Q)
| Sample (user system systemMemory rss : Q)
| HealthCheck
| Tick
| Update (u : ThresholdUpdate).

Definition step (st : State) (ev : Event) (now : Z) : State :=
  match ev with
  | Request d => recordRequest st d now
  | Cost id c tk => recordCost st id c tk now
  | Sample user system systemMemory rss =>
      recordResources st user system systemMemory rss now
  | HealthCheck => runHealthChecks st (getMetrics st) now
  | Tick => healthTick st now
  | Update u =>
      {| collector := collector st;
         alertManager := updateThresholds (alertManager st) u |}
  end.

(** The events with the clock value each one happens at. *)
Definition replay (st : State) (events : list (Event * Z)) : State :=
  fold_left (fun st e => step st (fst e) (snd e)) events st.

(** The request records among the events. *)
Definition requests (events : list (Event * Z)) : list RequestData :=
  flat_map (fun e => match fst e with Request d => [d] | _ => [] end) events.

Definition failures (ds : list RequestData) : list RequestData :=
  List.filter (fun d => negb (success d)) ds.

Definition isCost (e : Event * Z) : bool :=
  match fst e with Cost _ _ _ => true | _ => false end.

Definition isFailedRequest (e : Event * Z) : bool :=
  match fst e with Request d => negb (success d) | _ => false end.

(** A threshold update that leaves the monthly cost threshold absent or
    not negative. *)
Definition keepsMonthly (e : Event * Z) : Prop :=
  match fst e with
  | Update u =>
      match uCost u with
      | Some c => match monthly c with Some x => 0 <= x | None => True end
      | None => True
      end
  | _ => True
  end.

(** The sums over a history. *)
Definition historyCost (h : list CostEntry) : Q :=
  fold_right (fun e s => ceCost e + s) 0 h.

Definition historyTokens (h : list CostEntry) : Q :=
  fold_right (fun e s => match ceTokens e with Some t => t | None => 0 end + s) 0 h.

(** An entry of the cost map whose totals are the sums of its history. *)
Definition consistent (cm : CostMetrics) : Prop :=
  totalCost cm == historyCost (history cm)
  /\ totalTokens cm == historyTokens (history cm).


(** The monthly cost threshold is absent or not negative. *)
Definition monthlyOk (t : Thresholds) : Prop :=
  match monthly (tCost t) with Some x => 0 <= x | None => True end.

Definition notCritical (a : Alert) : Prop := severity a <> "critical".


Definition newAlert (type sev msg : string) (d : jsnum) (now : Z) : Alert :=
  {| alertType := type; severity := sev; message := msg; data := d;
     alertTimestamp := now; alertStatus := "active" |}.

End Service.

Module Scenario3.
Import Monitoring Service.
#[local] Open Scope Q_scope.

Definition failedRequest : RequestData :=
  {| modelId := Some "openai"; duration := 120; success := false;
     cost := None; tokens := None |}.

(** Three failed requests, a second apart. *)
Definition threeFailures : list (Event * Z) :=
  [(Request failedRequest, 1000%Z); (Request failedRequest, 2000%Z);
   (Request failedRequest, 3000%Z)].

(** An update that names the daily cost threshold only. *)
Definition dailyOnly : ThresholdUpdate :=
  {| uError := None; uLatency := None;
     uCost := Some {| daily := Some 10; monthly := None |};
     uMemory := None; uCpu := None |}.

(** A day in the life of the monitor. *)
Definition busyDay : list (Event * Z) :=
  [(Request failedRequest, 1000%Z); (Cost "openai" 2 1000, 1500%Z);
   (Sample 900000 50000 1000 950, 2000%Z); (HealthCheck, 60000%Z);
   (Tick, 60000%Z); (Update dailyOnly, 61000%Z); (HealthCheck, 120000%Z)].

End Scenario3.

(** ** The adapters ([adapters/baseAdapter.js], [remoteAdapter.js],
    [adapterManager.js]) *)

Module Adapter.
Import JS Errors.

(** The fields of a [BaseModelAdapter] that its connection tracker
    reads. *)
Record Adapter := {
  providerName : string;
  config : Router.ProviderConfig;
  activeConnections : Z;
  maxConcurrentQueries : Z
}.

(** The constructor. *)
Definition create (providerName : string) (config : Router.ProviderConfig) : Adapter :=
  {| providerName := providerName;
     config := config;
     activeConnections := 0;
     maxConcurrentQueries :=
       match Router.maxConcurrentQueries config with
       | Some m => if (m =? 0)%Z then 10%Z else m
       | None => 10%Z
       end |}.

Definition isAvailable (a : Adapter) : bool :=
  (activeConnections a <? maxConcurrentQueries a)%Z
  && match Router.status (config a) with
     | Some s => negb (String.eqb s "offline")
     | None => true
     end.

Definition _recordConnectionStart (a : Adapter) : Adapter :=
  {| providerName := providerName a; config := config a;
     activeConnections := (activeConnections a + 1)%Z;
     maxConcurrentQueries := maxConcurrentQueries a |}.

Definition _recordConnectionEnd (a : Adapter) : Adapter :=
  {| providerName := providerName a; config := config a;
     activeConnections := Z.max 0 (activeConnections a - 1);
     maxConcurrentQueries := maxConcurrentQueries a |}.

Definition _checkConcurrencyLimit (a : Adapter) : result unit :=
  if (maxConcurrentQueries a <=? activeConnections a)%Z
  then Throw (modelUnavailable (providerName a ++ " 超出并发限制"))
  else Ok tt.

(** [callModel] of the local and the remote adapter up to its request:
    the check and the count, both before the [try]. *)
Definition callModelStart (a : Adapter) : result Adapter :=
  match _checkConcurrencyLimit a with
  | Throw e => Throw e
  | Ok _ => Ok (_recordConnectionStart a)
  end.

(** The [finally] block of [callModel]. *)
Definition callModelEnd (a : Adapter) : Adapter := _recordConnectionEnd a.

(** What happens to one adapter: a call starts (a refused one leaves the
    adapter as it was) or a call that had started ends. *)
Inductive Step :=
| Start
| Finish.

Definition step (a : Adapter) (s : Step) : Adapter :=
  match s with
  | Start => match callModelStart a with
             | Ok a' => a'
             | Throw _ => a
             end
  | Finish => callModelEnd a
  end.

Definition run (a : Adapter) (steps : list Step) : Adapter := fold_left step steps a.

End Adapter.

Module AdapterManager.
Import JS Errors Adapter.

(** The [adapters] map of the manager. *)
Definition Manager := gmap string Adapter.

Definition getAdapter (m : Manager) (providerName : string) : result Adapter :=
  match m !! providerName with
  | Some adapter => Ok adapter
  | None => Throw (modelUnavailable ("提供商 " ++ providerName ++ " 的适配器不存在"))
  end.

(** [callModel] up to the adapter's request: the look-up, the
    availability check, and the adapter's own check and count, which run
    in the same synchronous step. *)
Definition callModelStart (m : Manager) (providerName : string) : result Manager :=
  match getAdapter m providerName with
  | Throw e => Throw e
  | Ok adapter =>
      if negb (isAvailable adapter)
      then Throw (modelUnavailable ("提供商 " ++ providerName ++ " 当前不可用"))
      else
        match Adapter.callModelStart adapter with
        | Throw e => Throw e
        | Ok adapter' => Ok (<[providerName := adapter']> m)
        end
  end.

End AdapterManager.

Module Remote.
Import JS.

(** The [response] of a failed request: its status, the [error] field of
    its body and its status text. *)
Record Response := {
  status : Z;
  dataError : option string;
  statusText : string
}.

(** An error object: what the HTTP client rejects with, and what
    [new Error(message)] makes, which carries no response and no
    request. *)
Record RequestError := {
  message : string;
  response : option Response;
  request : bool
}.

Definition newError (message : string) : RequestError :=
  {| message := message; response := None; request := false |}.

(** [error.response.data.error || error.response.statusText]. *)
Definition errorMessageOf (r : Response) : string :=
  match dataError r with
  | Some s => if String.eqb s "" then statusText r else s
  | None => statusText r
  end.

(** The error that [_handleRequestError] throws; the status is printed
    by [showStatus]. *)
Definition _handleRequestError (showStatus : Z -> string) (error : RequestError)
  : RequestError :=
  match response error with
  | Some r =>
      let statusCode := status r in
      let errorMessage := errorMessageOf r in
      if ((statusCode =? 401) || (statusCode =? 403))%Z
      then newError ("认证错误: " ++ errorMessage)
      else if (statusCode =? 429)%Z then newError ("速率限制: " ++ errorMessage)
      else if (500 <=? statusCode)%Z then newError ("服务器错误: " ++ errorMessage)
      else newError ("API错误 (" ++ showStatus statusCode ++ "): " ++ errorMessage)
  | None =>
      if request error then newError ("请求超时或无响应: " ++ message error)
      else newError ("请求错误: " ++ message error)
  end.

Definition _shouldRetry (error : RequestError) : bool :=
  match response error with
  | None => true
  | Some r => ((500 <=? status r) || (status r =? 429))%Z
  end.

(** One attempt of [_makeRequest]: the client answers with data or
    rejects. *)
Inductive Attempt :=
| Answers (data : string)
| RejectsWith (error : RequestError).

(** [_makeRequest]: the data, or the error it throws. *)
Definition _makeRequest (showStatus : Z -> string) (a : Attempt) : string + RequestError :=
  match a with
  | Answers data => inl data
  | RejectsWith error => inr (_handleRequestError showStatus error)
  end.

(** The [retry] callback that [callModel] hands to [backOff]. *)
Definition retry (error : RequestError) : bool := _shouldRetry error.

End Remote.

Module Scenario4.
Import Adapter.

(** An adapter for the test configuration's [anthropic], limit 5. *)
Definition anthropicAdapter : Adapter :=
  create "anthropic" (Router.config Scenario2.anthropicProvider).

(** A rejected log-in. *)
Definition unauthorized : Remote.RequestError :=
  {| Remote.message := "Request failed with status code 401";
     Remote.response := Some {| Remote.status := 401;
                                Remote.dataError := Some "invalid api key";
                                Remote.statusText := "Unauthorized" |};
     Remote.request := true |}.

End Scenario4.

(** * Properties *)

(** ** Numbers *)

Module NumFacts.
Import JS.
#[local] Open Scope Q_scope.

Lemma Qltb_lt (x y : Q) : Qltb x y = true <-> x < y.
Proof.
  unfold Qltb. rewrite negb_true_iff. split.
  - intros H. apply Qnot_le_lt. intros Hle.
    apply Qle_bool_iff in Hle. congruence.
  - intros H. destruct (Qle_bool y x) eqn:E; [|reflexivity].
    apply Qle_bool_iff in E. exfalso. eapply Qlt_not_le; eauto.
Qed.

Lemma Qltb_ge (x y : Q) : Qltb x y = false <-> y <= x.
Proof.
  unfold Qltb. rewrite negb_false_iff. apply Qle_bool_iff.
Qed.

Lemma ofNat_nonneg (n : nat) : 0 <= ofNat n.
Proof. unfold ofNat, Qle. simpl. lia. Qed.

Lemma ofNat_pos (n : nat) : (0 < n)%nat -> 0 < ofNat n.
Proof. intros H. unfold ofNat, Qlt. simpl. lia. Qed.

Lemma Qdiv_nonneg (a b : Q) : 0 <= a -> 0 <= b -> 0 <= a / b.
Proof.
  intros Ha Hb. unfold Qdiv. apply Qmult_le_0_compat; [assumption|].
  apply Qinv_le_0_compat. assumption.
Qed.


End NumFacts.

(** ** The evaluator *)

Module EvaluatorFacts.
Import JS Evaluator NumFacts.
#[local] Open Scope Q_scope.

(** *** What [split] returns *)

Lemma splitRuns_length_pos sep s b : (0 < length (splitRuns sep s b))%nat.
Proof.
  revert b. induction s as [|c s IH]; intros b; simpl; [lia|].
  destruct (sep c).
  - destruct b; [apply IH | simpl; lia].
  - specialize (IH false). destruct (splitRuns sep s false); simpl in *; lia.
Qed.

(** No piece holds a separator. *)
Lemma splitRuns_pieces_clean sep s b :
  Forall (Forall (fun c => sep c = false)) (splitRuns sep s b).
Proof.
  revert b. induction s as [|c s IH]; intros b; simpl.
  - repeat constructor.
  - destruct (sep c) eqn:E.
    + destruct b; [apply IH | constructor; [constructor | apply IH]].
    + specialize (IH false). destruct (splitRuns sep s false) as [|p rest].
      * repeat constructor. assumption.
      * inversion IH; subst. constructor; [constructor; assumption | assumption].
Qed.

(** The pieces hold the code units that are no separators, all of them. *)
Lemma splitRuns_concat sep s b :
  concat (splitRuns sep s b) = List.filter (fun c => negb (sep c)) s.
Proof.
  revert b. induction s as [|c s IH]; intros b; simpl; [reflexivity|].
  destruct (sep c) eqn:E; simpl.
  - destruct b; simpl; apply IH.
  - specialize (IH false). destruct (splitRuns sep s false) as [|p rest]; simpl in *.
    + rewrite <- IH. reflexivity.
    + rewrite <- IH. reflexivity.
Qed.

(** One piece more than there are runs of separators. *)
Lemma splitRuns_length sep s b :
  length (splitRuns sep s b) = S (separatorRuns sep s b).
Proof.
  revert b. induction s as [|c s IH]; intros b; simpl; [reflexivity|].
  destruct (sep c).
  - destruct b; simpl; rewrite IH; reflexivity.
  - specialize (IH false). destruct (splitRuns sep s false); simpl in *; lia.
Qed.

(** Every piece but the first is non-empty when [s] does not end with a
    separator, and the first is empty only when [s] starts with one. *)
Lemma splitRuns_pieces_shape sep s b :
  s <> [] ->
  sep (List.last s 0%N) = false ->
  match splitRuns sep s b with
  | [] => False
  | p :: rest =>
      Forall (fun q => q <> []) rest
      /\ (p = [] -> b = false /\ exists c s', s = c :: s' /\ sep c = true)
  end.
Proof.
  revert b. induction s as [|c s IH]; intros b Hne Hlast; [contradiction|].
  assert (Htail : s <> [] -> sep (List.last s 0%N) = false).
  { intros Hs. destruct s; [contradiction | exact Hlast]. }
  simpl. destruct (sep c) eqn:Ec.
  - assert (Hs : s <> []).
    { intros ->. simpl in Hlast. congruence. }
    specialize (IH true Hs (Htail Hs)).
    destruct (splitRuns sep s true) as [|p rest] eqn:E; [contradiction|].
    destruct IH as [Hrest Hp].
    assert (Hpne : p <> []) by (intros Hnil; destruct (Hp Hnil); discriminate).
    destruct b.
    + split; [exact Hrest | intros Hnil; contradiction].
    + split; [constructor; assumption | intros _; split; eauto].
  - destruct s as [|c' s'].
    + simpl. split; [constructor | discriminate].
    + assert (Hs : c' :: s' <> []) by discriminate.
      specialize (IH false Hs (Htail Hs)).
      destruct (splitRuns sep (c' :: s') false) as [|p rest]; [contradiction|].
      destruct IH as [Hrest _]. split; [exact Hrest | discriminate].
Qed.

(** A query that neither starts nor ends with white space splits into
    non-empty words only. *)
Lemma words_nonempty_when_trimmed (c : N) (query : jsstring) :
  isWhiteSpace c = false ->
  isWhiteSpace (List.last (c :: query) 0%N) = false ->
  Forall (fun w => w <> []) (words (c :: query)).
Proof.
  intros Hc Hlast. unfold words, split.
  pose proof (splitRuns_pieces_shape isWhiteSpace (c :: query) false) as H.
  destruct (splitRuns isWhiteSpace (c :: query) false) as [|p rest].
  - exfalso. apply H; [discriminate | exact Hlast].
  - destruct H as [Hrest Hp]; [discriminate | exact Hlast |].
    constructor; [|exact Hrest].
    intros Hnil. destruct (Hp Hnil) as (_ & c0 & s0 & [= <- _] & Hsep). congruence.
Qed.

Lemma wordCount_pos query : (0 < wordCount query)%nat.
Proof. apply splitRuns_length_pos. Qed.

(** *** The sum of the word lengths *)






Example split_keeps_empty_ends :
  split isWhiteSpace (of_ascii " a  b ") = [[]; of_ascii "a"; of_ascii "b"; []].
Proof. reflexivity. Qed.

Example split_of_empty_string : split isWhiteSpace [] = [[]].
Proof. reflexivity. Qed.

Example sentences_of_two :
  sentences (of_ascii "Hello world. How are you?")
  = [of_ascii "Hello world"; of_ascii " How are you"].
Proof. reflexivity. Qed.

(** *** The score *)

(** What the dispatcher's [evaluateQueryComplexity] returns. *)
Lemma evaluateQueryComplexity_value (w : Gateway.World) (query : jsstring) :
  fst (Gateway.evaluateQueryComplexity w query) = evaluate query.
Proof. reflexivity. Qed.

Example score_of_test_query :
  complexityScore (evaluate Scenario.testQuery) == 323 # 1000.
Proof. vm_compute. reflexivity. Qed.


(** *** The factor tags *)

Lemma complexityFactorsOf_unfold query :
  complexityFactorsOf query =
  ((if Qltb (6 # 10) (vocabularyComplexity query) then [tagVocabulary] else [])
   ++ (if Qltb (6 # 10) (grammarComplexity query) then [tagGrammar] else [])
   ++ (if (100 <? wordCount query)%nat then [tagLength] else []))%list.
Proof.
  unfold complexityFactorsOf.
  destruct (Qltb (6 # 10) (vocabularyComplexity query)),
    (Qltb (6 # 10) (grammarComplexity query)),
    (100 <? wordCount query)%nat; reflexivity.
Qed.



End EvaluatorFacts.

(** ** The router *)

Module RouterFacts.
Import JS Errors Router NumFacts.
#[local] Open Scope Q_scope.

(** *** Type choice *)

(** C5. With thresholds lo <= hi the type chosen for a score is local iff
    score < lo, hybrid iff lo <= score < hi and remote iff score >= hi; a
    score equal to hi gives remote, a score equal to lo gives hybrid (when
    lo < hi, so that the hybrid band is not empty); and every decision
    [selectModelByComplexity] returns carries this type. *)
Theorem model_type_by_thresholds (rs : RoutingStrategy) (score : Q) :
  lowComplexityThreshold rs <= highComplexityThreshold rs ->
  let lo := lowComplexityThreshold rs in
  let hi := highComplexityThreshold rs in
  (modelTypeFor rs score = local <-> score < lo)
  /\ (modelTypeFor rs score = hybrid <-> lo <= score /\ score < hi)
  /\ (modelTypeFor rs score = remote <-> hi <= score)
  /\ (lo < hi -> modelTypeFor rs lo = hybrid)
  /\ modelTypeFor rs hi = remote
  /\ (forall st factors md mi,
        routingStrategy st = rs ->
        selectModelByComplexity st score factors md = Ok mi ->
        modelType mi = modelTypeFor rs score).
Proof.
  intros Hle lo hi. subst lo hi.
  assert (Hcases : forall s,
             (modelTypeFor rs s = local /\ s < lowComplexityThreshold rs)
             \/ (modelTypeFor rs s = hybrid /\ lowComplexityThreshold rs <= s
                 /\ s < highComplexityThreshold rs)
             \/ (modelTypeFor rs s = remote /\ lowComplexityThreshold rs <= s
                 /\ highComplexityThreshold rs <= s)).
  { intros s. unfold modelTypeFor.
    destruct (Qltb s (lowComplexityThreshold rs)) eqn:E1.
    - left. split; [reflexivity | apply Qltb_lt; exact E1].
    - apply Qltb_ge in E1.
      destruct (Qltb s (highComplexityThreshold rs)) eqn:E2.
      + right; left. apply Qltb_lt in E2. auto.
      + right; right. apply Qltb_ge in E2. auto. }
  split; [|split; [|split; [|split; [|split]]]].
  - destruct (Hcases score) as [[-> H]|[[-> [H1 H2]]|[-> [H1 H2]]]];
      split; intros; first [assumption | reflexivity | discriminate | exfalso; lra].
  - destruct (Hcases score) as [[-> H]|[[-> [H1 H2]]|[-> [H1 H2]]]];
      split; intros H'; first [reflexivity | discriminate | split; assumption
                              | destruct H'; exfalso; lra].
  - destruct (Hcases score) as [[-> H]|[[-> [H1 H2]]|[-> [H1 H2]]]];
      split; intros; first [assumption | reflexivity | discriminate | exfalso; lra].
  - intros Hlt.
    destruct (Hcases (lowComplexityThreshold rs)) as [[_ H]|[[E _]|[_ [H1 H2]]]];
      first [exact E | exfalso; lra].
  - destruct (Hcases (highComplexityThreshold rs)) as [[_ H]|[[_ [H1 H2]]|[E _]]];
      first [exact E | exfalso; lra].
  - intros st factors md mi Hrs Hsel. unfold selectModelByComplexity in Hsel.
    rewrite Hrs in Hsel.
    destruct (getAvailableProviders st (modelTypeFor rs score) md); [discriminate|].
    destruct (selectBestProvider _ _ _ _); [|discriminate].
    injection Hsel as <-. reflexivity.
Qed.

(** The default thresholds 0.3 and 0.7: a score of 0.3 gives hybrid, a
    score of 0.7 gives remote. *)
Lemma model_type_by_thresholds_defaults :
  lowComplexityThreshold Scenario.testStrategy
  <= highComplexityThreshold Scenario.testStrategy
  /\ modelTypeFor Scenario.testStrategy (3 # 10) = hybrid
  /\ modelTypeFor Scenario.testStrategy (7 # 10) = remote.
Proof.
  assert (Hle : lowComplexityThreshold Scenario.testStrategy
                <= highComplexityThreshold Scenario.testStrategy)
    by (simpl; discriminate).
  split; [exact Hle|].
  destruct (model_type_by_thresholds Scenario.testStrategy (3 # 10) Hle)
    as (_ & _ & _ & Hlo & Hhi & _).
  split; [apply Hlo; reflexivity | exact Hhi].
Defined.

(** *** The candidate filter *)

Lemma getAvailableProviders_In (st : State) (t : ModelType) (md : Metadata) (p : Provider) :
  In p (getAvailableProviders st t md) <->
  In (name p, config p) (modelProviders st)
  /\ supportsModelType (config p) t = true
  /\ isOnline (config p) = true
  /\ withinConnectionLimit st (name p) (config p) = true.
Proof.
  unfold getAvailableProviders. rewrite in_map_iff. split.
  - intros [[n cfg] [<- Hin]]. apply filter_In in Hin as [Hin Hb]. simpl.
    apply andb_prop in Hb as [Hb H3]. apply andb_prop in Hb as [H1 H2]. auto.
  - intros (Hin & H1 & H2 & H3). exists (name p, config p). split.
    + destruct p; reflexivity.
    + apply filter_In. split; [assumption|]. rewrite H1, H2, H3. reflexivity.
Qed.

Lemma isOnline_true (cfg : ProviderConfig) :
  isOnline cfg = true <-> status cfg <> Some "offline".
Proof.
  unfold isOnline. destruct (status cfg) as [s|]; [|split; [discriminate | reflexivity]].
  rewrite negb_true_iff. split.
  - intros H [= ->]. discriminate.
  - intros H. apply String.eqb_neq. congruence.
Qed.

(** C10. A provider whose configuration omits [supportedModelTypes] is
    kept by the candidate filter for every model type exactly when its
    status is not 'offline' and its active-connection count is below its
    cap, and the cap is 10 when [maxConcurrentQueries] is absent. *)
Theorem omitted_types_support_every_type (st : State) (t : ModelType) (md : Metadata)
    (n : string) (cfg : ProviderConfig) :
  In (n, cfg) (modelProviders st) ->
  supportedModelTypes cfg = None ->
  supportsModelType cfg t = true
  /\ (In {| name := n; config := cfg |} (getAvailableProviders st t md) <->
      status cfg <> Some "offline"
      /\ (currentConnections st n < connectionLimit cfg)%Z)
  /\ (maxConcurrentQueries cfg = None -> connectionLimit cfg = 10%Z).
Proof.
  intros Hin Hnone.
  assert (Hs : supportsModelType cfg t = true).
  { unfold supportsModelType. rewrite Hnone. reflexivity. }
  split; [exact Hs|]. split.
  - rewrite getAvailableProviders_In. simpl. rewrite isOnline_true.
    unfold withinConnectionLimit. rewrite Z.ltb_lt. tauto.
  - intros H. unfold connectionLimit. rewrite H. reflexivity.
Qed.

(** A provider that names nothing, with 9 connections open, is a
    candidate for the remote type, and its cap is 10. *)
Lemma omitted_types_support_every_type_bare :
  In ("default", Scenario.bareProvider) (modelProviders Scenario.bareRouter)
  /\ supportedModelTypes Scenario.bareProvider = None
  /\ In {| name := "default"; config := Scenario.bareProvider |}
       (getAvailableProviders Scenario.bareRouter remote Scenario.noMetadata)
  /\ connectionLimit Scenario.bareProvider = 10%Z.
Proof.
  assert (Hin : In ("default", Scenario.bareProvider)
                  (modelProviders Scenario.bareRouter))
    by (simpl; left; reflexivity).
  assert (Hnone : supportedModelTypes Scenario.bareProvider = None) by reflexivity.
  split; [exact Hin|]. split; [exact Hnone|].
  destruct (omitted_types_support_every_type Scenario.bareRouter remote
              Scenario.noMetadata "default" Scenario.bareProvider Hin Hnone)
    as (_ & Hiff & Hcap).
  split.
  - apply Hiff. split; [discriminate | reflexivity].
  - apply Hcap. reflexivity.
Defined.

(** *** Choosing among candidates *)

Lemma insertByScore_In (x y : Provider * Q) (l : list (Provider * Q)) :
  In y (insertByScore x l) <-> y = x \/ In y l.
Proof.
  induction l as [|z l IH]; simpl.
  - intuition.
  - destruct (Qle_bool (snd z) (snd x)); simpl; [intuition|].
    rewrite IH. intuition.
Qed.

Lemma sortByScore_In (y : Provider * Q) (l : list (Provider * Q)) :
  In y (sortByScore l) <-> In y l.
Proof.
  induction l as [|x l IH]; simpl; [reflexivity|].
  rewrite insertByScore_In, IH. intuition.
Qed.

Lemma selectBestProvider_In (st : State) (ps : list Provider) (s : Q) (md : Metadata)
    (p : Provider) :
  selectBestProvider st ps s md = Some p -> In p ps.
Proof.
  unfold selectBestProvider. intros H.
  assert (Hsort : match sortByScore (map (fun p => (p, providerScore st p)) ps) with
                  | (p', _) :: _ => Some p'
                  | [] => None
                  end = Some p -> In p ps).
  { destruct (sortByScore _) as [|[p' q] rest] eqn:E; [discriminate|].
    intros [= ->].
    assert (Hin : In (p, q) (sortByScore (map (fun p => (p, providerScore st p)) ps))).
    { rewrite E. left. reflexivity. }
    apply sortByScore_In, in_map_iff in Hin as [p0 [[= -> _] Hin]]. exact Hin. }
  destruct ps as [|p1 [|p2 ps]]; [discriminate | | apply Hsort; exact H].
  injection H as <-. left. reflexivity.
Qed.

Lemma selectBestProvider_Some (st : State) (ps : list Provider) (s : Q) (md : Metadata) :
  ps <> [] -> exists p, selectBestProvider st ps s md = Some p.
Proof.
  intros Hne. unfold selectBestProvider.
  assert (Hsort : exists p, match sortByScore (map (fun p => (p, providerScore st p)) ps) with
                            | (p', _) :: _ => Some p'
                            | [] => None
                            end = Some p).
  { destruct (sortByScore _) as [|[p' q] rest] eqn:E; [|eauto].
    destruct ps as [|p1 ps]; [contradiction|].
    assert (Hin : In (p1, providerScore st p1)
                    (sortByScore (map (fun p => (p, providerScore st p)) (p1 :: ps)))).
    { apply sortByScore_In. left. reflexivity. }
    rewrite E in Hin. destruct Hin. }
  destruct ps as [|p1 [|p2 ps]]; [contradiction | eauto | exact Hsort].
Qed.

(** *** Cost *)

Lemma estimateCost_le_max (cfg : ProviderConfig) (s : Q) (md : Metadata) :
  estimateCost cfg s md <= maxCostOf cfg.
Proof. unfold estimateCost. apply Q.le_min_r. Qed.

(** A decision of [selectModelByComplexity] names an available provider
    of its type and carries that provider's clamped estimate. *)
Lemma selectModelByComplexity_Ok (st : State) (score : Q) (factors : list string)
    (md : Metadata) (mi : ModelInfo) :
  selectModelByComplexity st score factors md = Ok mi ->
  In {| name := provider mi; config := modelConfig mi |}
    (getAvailableProviders st (modelType mi) md)
  /\ estimatedCost mi = Some (estimateCost (modelConfig mi) score md).
Proof.
  unfold selectModelByComplexity. intros H.
  destruct (getAvailableProviders st _ md) as [|p0 ps] eqn:E; [discriminate|].
  destruct (selectBestProvider _ _ _ _) as [p|] eqn:Eb; [|discriminate].
  injection H as <-. simpl. apply selectBestProvider_In in Eb.
  rewrite E. destruct p. auto.
Qed.

(** C8. When [metadata.budget] parses to a number B that is at least the
    maximum per-query cost of every available provider, the cost-control
    strategy returns every decision of [selectModelByComplexity] as it is:
    no downgrade, no [COST_LIMIT_EXCEEDED]. *)
Theorem ample_budget_keeps_decision (parseFloat : string -> jsnum) (st : State)
    (score : Q) (factors : list string) (md : Metadata) (mi : ModelInfo)
    (s : string) (B : Q) :
  selectModelByComplexity st score factors md = Ok mi ->
  budget md = Some s ->
  parseFloat s = JNum B ->
  (forall t p, In p (getAvailableProviders st t md) -> maxCostOf (config p) <= B) ->
  applyCostControlStrategy parseFloat st mi md = Ok mi.
Proof.
  intros Hsel Hb Hparse Hmax.
  apply selectModelByComplexity_Ok in Hsel as [Hin Hcost].
  specialize (Hmax _ _ Hin). simpl in Hmax.
  unfold applyCostControlStrategy, overBudget, budgetOf. rewrite Hb, Hcost.
  assert (Hle : estimateCost (modelConfig mi) score md <= B).
  { eapply Qle_trans; [apply estimateCost_le_max | exact Hmax]. }
  assert (Hgt : forall b, b = JNum B \/ b = JPosInf ->
                          gt_num (estimateCost (modelConfig mi) score md) b = false).
  { intros b [-> | ->]; simpl; [apply Qltb_ge; exact Hle | reflexivity]. }
  destruct (String.eqb s ""); rewrite Hgt; auto.
Qed.

(** The budget '0.2' is at least the largest [maxCostPerQuery] of the
    test configuration (0.15), and the remote decision for a score of 0.9
    comes back unchanged. *)
Lemma ample_budget_keeps_decision_test :
  budget Scenario.ampleBudget = Some "0.2"
  /\ Scenario.parseDecimal "0.2" = JNum (2 # 10)
  /\ (forall t p, In p (getAvailableProviders Scenario.testRouter t Scenario.ampleBudget) ->
                  maxCostOf (config p) <= 2 # 10)
  /\ exists mi,
       selectModelByComplexity Scenario.testRouter (9 # 10) [] Scenario.ampleBudget = Ok mi
       /\ provider mi = "openai"
       /\ applyCostControlStrategy Scenario.parseDecimal Scenario.testRouter mi
            Scenario.ampleBudget = Ok mi.
Proof.
  assert (Hmax : forall t p,
             In p (getAvailableProviders Scenario.testRouter t Scenario.ampleBudget) ->
             maxCostOf (config p) <= 2 # 10).
  { intros t p Hin. destruct t; vm_compute in Hin;
      repeat (destruct Hin as [<-|Hin]); try contradiction; vm_compute; discriminate. }
  split; [reflexivity|]. split; [reflexivity|]. split; [exact Hmax|].
  destruct (selectModelByComplexity Scenario.testRouter (9 # 10) [] Scenario.ampleBudget)
    as [mi|e] eqn:E; [|vm_compute in E; discriminate].
  exists mi. split; [reflexivity|]. split.
  - vm_compute in E. injection E as <-. reflexivity.
  - exact (ample_budget_keeps_decision Scenario.parseDecimal Scenario.testRouter
             (9 # 10) [] Scenario.ampleBudget mi "0.2" (2 # 10) E
             eq_refl eq_refl Hmax).
Defined.

(** *** Admission *)

Lemma currentConnections_set (st : State) (m : gmap string Z) (n : string) :
  currentConnections (setActiveConnections st m) n
  = match m !! n with Some c => c | None => 0%Z end.
Proof. reflexivity. Qed.

(** C3, as amended. [recordModelUseStart] checks nothing and never
    raises: it adds one to the provider's active-connection count, leaves
    the other counts and the configuration alone, whatever the count was.
    The limit is enforced by the candidate filter: a provider whose count
    has reached its cap is not among the candidates of any type. *)
Theorem begin_always_increments (st : State) (p : string) :
  exists st',
    recordModelUseStart st p = Ok st'
    /\ currentConnections st' p = (currentConnections st p + 1)%Z
    /\ (forall q, q <> p -> currentConnections st' q = currentConnections st q)
    /\ modelProviders st' = modelProviders st
    /\ (forall t md cfg,
          (connectionLimit cfg <= currentConnections st p)%Z ->
          ~ In {| name := p; config := cfg |} (getAvailableProviders st t md)).
Proof.
  eexists. split; [reflexivity|]. repeat split.
  - rewrite currentConnections_set, lookup_insert_eq. reflexivity.
  - intros q Hq. rewrite currentConnections_set, lookup_insert_ne by congruence.
    reflexivity.
  - intros t md cfg Hle Hin. apply getAvailableProviders_In in Hin as (_ & _ & _ & H).
    unfold withinConnectionLimit in H. simpl in H. apply Z.ltb_lt in H. lia.
Qed.

(** C3, as stated, fails: with 9 of the 10 connections of [openai] open,
    a begin succeeds, and the next one succeeds too and takes the count to
    11; no begin raises. *)
Lemma begin_at_limit_not_refused :
  currentConnections (Scenario.routerWithOpenai 9) "openai"
  = (connectionLimit Scenario.openai - 1)%Z
  /\ exists st10 st11,
       recordModelUseStart (Scenario.routerWithOpenai 9) "openai" = Ok st10
       /\ currentConnections st10 "openai" = connectionLimit Scenario.openai
       /\ recordModelUseStart st10 "openai" = Ok st11
       /\ currentConnections st11 "openai" = 11%Z
       /\ (forall e, recordModelUseStart st10 "openai" <> Throw e).
Proof.
  split; [reflexivity|]. eexists. eexists.
  split; [reflexivity|]. split; [reflexivity|]. split; [reflexivity|].
  split; [reflexivity|]. intros e. discriminate.
Qed.

(** *** Backup selection *)

(** [getBackupModel] satisfies the equation of the source: with no other
    candidate of the type it is the backup of the next type of
    [fallbackTypes], if there is one. *)
Lemma getBackupModel_eq (st : State) (primaryProvider : string) (t : ModelType)
    (md : Metadata) :
  getBackupModel st primaryProvider t md =
  match List.filter (fun p => negb (String.eqb (name p) primaryProvider))
          (getAvailableProviders st t md) with
  | [] =>
      match fallbackTypes t with
      | Some fallbackType => getBackupModel st primaryProvider fallbackType md
      | None => None
      end
  | p :: ps =>
      match selectBestProvider st (p :: ps) (1 # 2) md with
      | Some backupProvider =>
          Some {| provider := name backupProvider;
                  modelType := t;
                  modelConfig := config backupProvider;
                  estimatedCost := None;
                  isBackup := true;
                  costControlled := false |}
      | None => None
      end
  end.
Proof.
  destruct t; unfold getBackupModel; simpl;
    destruct (List.filter _ (getAvailableProviders st _ md)); reflexivity.
Qed.

(** The backup is never the provider that failed. *)
Lemma getBackupModel_other (st : State) (primaryProvider : string) (t : ModelType)
    (md : Metadata) (b : ModelInfo) :
  getBackupModel st primaryProvider t md = Some b -> provider b <> primaryProvider.
Proof.
  assert (H : forall n t, getBackupModelFrom n st primaryProvider t md = Some b ->
                          provider b <> primaryProvider).
  { induction n as [|n IH]; intros t'; simpl;
      destruct (List.filter _ (getAvailableProviders st t' md)) as [|p ps] eqn:E.
    - destruct (fallbackTypes t'); discriminate.
    - destruct (selectBestProvider st (p :: ps) (1 # 2) md) as [bp|] eqn:Eb;
        [|discriminate].
      intros [= <-]. simpl. apply selectBestProvider_In in Eb. rewrite <- E in Eb.
      apply filter_In in Eb as [_ Hb]. apply negb_true_iff, String.eqb_neq in Hb.
      exact Hb.
    - destruct (fallbackTypes t'); [apply IH | discriminate].
    - destruct (selectBestProvider st (p :: ps) (1 # 2) md) as [bp|] eqn:Eb;
        [|discriminate].
      intros [= <-]. simpl. apply selectBestProvider_In in Eb. rewrite <- E in Eb.
      apply filter_In in Eb as [_ Hb]. apply negb_true_iff, String.eqb_neq in Hb.
      exact Hb. }
  apply H.
Qed.

(** *** Cost control *)

(** Whatever decision the code accepts, the chain of the specification
    accepts too: the two differ only where the code gives up. *)
Lemma cost_control_agrees_when_accepting (parseFloat : string -> jsnum) (st : State)
    (mi mi' : ModelInfo) (md : Metadata) :
  applyCostControlStrategy parseFloat st mi md = Ok mi' ->
  CostChain.costControlChain parseFloat st mi md = Ok mi'.
Proof.
  unfold applyCostControlStrategy, CostChain.costControlChain.
  destruct (overBudget mi (budgetOf parseFloat md)); [|auto].
  destruct (modelType mi); simpl; try discriminate.
  - destruct (getAvailableProviders st local md) as [|p0 ps]; [discriminate|].
    destruct (selectBestProvider st (p0 :: ps) (1 # 2) md) as [p|]; [|discriminate].
    destruct (le_num _ _); [auto | discriminate].
  - destruct (getAvailableProviders st hybrid md) as [|p0 ps]; [discriminate|].
    destruct (selectBestProvider st (p0 :: ps) (1 # 2) md) as [p|]; [|discriminate].
    destruct (le_num _ _); [auto | discriminate].
Qed.

(** C4 on the test configuration, a score of 0.9 and [budget: '0.01']:
    the remote decision (openai, estimate 0.038646) is over budget, the one
    downgrade the code tries (hybrid: anthropic, 0.045765) is over budget
    too, and the code raises COST_LIMIT_EXCEEDED; the chain of the
    specification goes on to local (0.0015255) and accepts it. *)
Theorem cost_control_stops_after_one_step :
  exists mi,
    selectModelByComplexity Scenario.testRouter (9 # 10) [] Scenario.smallBudget = Ok mi
    /\ modelType mi = remote
    /\ applyCostControlStrategy Scenario.parseDecimal Scenario.testRouter mi
         Scenario.smallBudget
       = Throw (costLimitExceeded costLimitMessage)
    /\ exists mi',
         CostChain.costControlChain Scenario.parseDecimal Scenario.testRouter mi
           Scenario.smallBudget = Ok mi'
         /\ provider mi' = "local"
         /\ modelType mi' = local
         /\ costControlled mi' = true.
Proof.
  eexists. split; [vm_compute; reflexivity|].
  split; [reflexivity|]. split; [vm_compute; reflexivity|].
  eexists. split; [vm_compute; reflexivity|]. repeat split.
Qed.

End RouterFacts.

(** ** Monitoring *)

Module MonitoringFacts.
Import JS Errors Monitoring NumFacts.
#[local] Open Scope Q_scope.

Lemma ofType_generateAlert (type : string) (am : AlertManager) (ty sev msg : string)
    (d : jsnum) (now : Z) :
  String.eqb ty type = false ->
  ofType type (generateAlert am ty sev msg d now) = ofType type am.
Proof.
  intros H. unfold ofType, generateAlert. simpl.
  rewrite List.filter_app. simpl. rewrite H. apply app_nil_r.
Qed.

Lemma checkPerformanceMetrics_cost (am : AlertManager) (s : Summary) (now : Z) :
  ofType "cost_daily" (checkPerformanceMetrics am s now) = ofType "cost_daily" am
  /\ thresholds (checkPerformanceMetrics am s now) = thresholds am.
Proof.
  unfold checkPerformanceMetrics.
  destruct (exceeds (JNum (errorRate (sPerformance s))) _);
    destruct (exceeds (JNum (averageLatency (sPerformance s))) _);
    rewrite ?ofType_generateAlert by reflexivity; auto.
Qed.

Lemma checkResourceMetrics_cost (am : AlertManager) (r : Resources) (now : Z) :
  ofType "cost_daily" (checkResourceMetrics am r now) = ofType "cost_daily" am
  /\ thresholds (checkResourceMetrics am r now) = thresholds am.
Proof.
  unfold checkResourceMetrics.
  destruct (exceeds _ (usage (tMemory (thresholds am))));
    destruct (last (cpu r)) as [c|];
    try destruct (exceeds (JNum _) _);
    rewrite ?ofType_generateAlert by reflexivity; auto.
Qed.

(** The summary's cost entries have the fields [modelId], [totalCost] and
    [totalTokens] and no [history]: the cost check throws on the first of
    them. *)
Lemma checkCostMetrics_summary (am : AlertManager) (m : Metrics) (now : Z) :
  costs m <> [] ->
  checkCostMetrics am (sCosts (getMetricsSummary m)) now
  = Throw (typeError "Cannot read properties of undefined (reading 'filter')").
Proof.
  intros Hne. unfold checkCostMetrics. simpl.
  destruct (costs m) as [|[id cm] rest]; [contradiction|]. reflexivity.
Qed.

(** With no cost recorded the totals are 0. *)
Lemma checkCostMetrics_empty (am : AlertManager) (m : Metrics) (now : Z) (d : Q) :
  costs m = [] ->
  daily (tCost (thresholds am)) = Some d ->
  0 <= d ->
  exists am', checkCostMetrics am (sCosts (getMetricsSummary m)) now = Ok am'
              /\ ofType "cost_daily" am' = ofType "cost_daily" am.
Proof.
  intros He Hd Hpos. unfold checkCostMetrics. simpl. rewrite He. simpl.
  rewrite Hd. simpl.
  assert (H0 : Qltb d 0 = false) by (apply Qltb_ge; exact Hpos).
  rewrite H0. eexists. split; [reflexivity|].
  match goal with
  | |- context [if ?b then _ else _] => destruct b
  end; rewrite ?ofType_generateAlert by reflexivity; reflexivity.
Qed.

(** Whatever the collector holds, a health check over its summary raises
    no [cost_daily] alert when the daily threshold is not negative. *)
Lemma health_check_raises_no_cost_alert (st : State) (now : Z) (d : Q) :
  daily (tCost (thresholds (alertManager st))) = Some d ->
  0 <= d ->
  ofType "cost_daily" (alertManager (runHealthChecks st (getMetrics st) now))
  = ofType "cost_daily" (alertManager st).
Proof.
  intros Hd Hpos. unfold runHealthChecks, getMetrics. cbn [alertManager].
  set (s := getMetricsSummary (collector st)).
  destruct (checkPerformanceMetrics_cost (alertManager st) s now) as [H1 T1].
  destruct (checkResourceMetrics_cost
              (checkPerformanceMetrics (alertManager st) s now) (sResources s) now)
    as [H2 T2].
  set (am2 := checkResourceMetrics _ _ _) in *.
  destruct (costs (collector st)) as [|c cs] eqn:Ec.
  - destruct (checkCostMetrics_empty am2 (collector st) now d Ec) as (am3 & E3 & H3).
    + rewrite T2, T1. exact Hd.
    + exact Hpos.
    + subst s. rewrite E3, H3, H2, H1. reflexivity.
  - subst s. rewrite checkCostMetrics_summary by congruence.
    rewrite H2, H1. reflexivity.
Qed.

(** C9 on the code. With the daily threshold at 10, ten successful
    requests of cost 2 are recorded (their costs, 20 in all, are kept
    under the model's metrics) and the health check runs over the current
    summary: no [cost_daily] alert is raised. Nor is one raised after ten
    [recordCost] calls of cost 2, the form the test uses: the summary's
    cost entries carry no [history], and the cost check throws on reading
    it. Handed the cost map with its histories, the same check raises the
    [cost_daily] alert of severity high. *)
Theorem daily_cost_alert_not_raised :
  let st := Scenario.afterTenRequests in
  let st' := Scenario.afterTenCosts in
  (exists mm, mapGet "openai" (models (collector st)) = Some mm
              /\ fold_left Qplus (map ceCost (mCosts mm)) 0 == 20)
  /\ ofType "cost_daily" (alertManager (runHealthChecks st (getMetrics st) 11000)) = []
  /\ (exists cm, mapGet "openai" (costs (collector st')) = Some cm
                 /\ totalCost cm == 20)
  /\ ofType "cost_daily" (alertManager (runHealthChecks st' (getMetrics st') 11000)) = []
  /\ (exists am,
        checkCostMetrics (alertManager st') (Scenario.costTable (collector st')) 11000
        = Ok am
        /\ map (fun a => (alertType a, severity a)) (alerts am)
           = [("cost_daily", "high")]).
Proof.
  cbv zeta. split.
  { eexists. split; [vm_compute; reflexivity|]. vm_compute. reflexivity. }
  split; [vm_compute; reflexivity|]. split.
  { eexists. split; [vm_compute; reflexivity|]. vm_compute. reflexivity. }
  split; [vm_compute; reflexivity|].
  eexists. split; vm_compute; reflexivity.
Qed.

End MonitoringFacts.

(** ** The request pre-processor *)

Module RequestFacts.
Import JS Errors RequestProcessor.

Example unsafe_query_rejected :
  performSecurityCheck
    {| request_id := Some "request-1";
       query := Some (of_ascii "exec(" ++ [34%N] ++ of_ascii "rm -rf /"
                      ++ [34%N] ++ of_ascii ")")%list;
       metadata := Some ∅ |}
  = Throw (invalidRequest "请求包含潜在的不安全内容").
Proof. reflexivity. Qed.

Example spaced_call_rejected :
  existsb (fun pattern => test pattern (of_ascii "please EVAL  (x)")) sensitivePatterns
  = true.
Proof. reflexivity. Qed.

Example empty_query_rejected :
  performSecurityCheck
    {| request_id := Some "request-1"; query := Some []; metadata := Some ∅ |}
  = Throw (invalidRequest "请求验证失败").
Proof. reflexivity. Qed.

Example test_request_accepted :
  exists request,
    processRequest Scenario.testUuid Scenario.testISOString Scenario.testRequest 0
    = Ok (request,
          {| Router.budget := None; Router.queryLength := Some 13%nat;
             Router.maxTokens := None; Router.temperature := None;
             Router.systemMessage := None |}).
Proof. eexists. vm_compute. reflexivity. Qed.

End RequestFacts.

(** ** The dispatcher *)

Module GatewayFacts.
Import JS Errors Gateway NumFacts.

Lemma callsTo_app (q : string) (l l' : list (string * string)) :
  callsTo q (l ++ l') = (callsTo q l + callsTo q l')%Z.
Proof.
  unfold callsTo. rewrite List.filter_app, length_app. lia.
Qed.

Lemma callsTo_one (q p m : string) :
  callsTo q [(p, m)] = oneIf (String.eqb p q).
Proof. unfold callsTo. simpl. destruct (String.eqb p q); reflexivity. Qed.

Lemma callsBetween_app (w w' : World) (new : list (string * string)) :
  adapterCalls w' = (adapterCalls w ++ new)%list -> callsBetween w w' = new.
Proof.
  intros H. unfold callsBetween. rewrite H.
  rewrite skipn_app, skipn_all, Nat.sub_diag. reflexivity.
Qed.

Lemma start_inflight (r r' : Router.State) (p q : string) :
  Router.recordModelUseStart r p = Ok r' ->
  Router.currentConnections r' q
  = (Router.currentConnections r q + oneIf (String.eqb p q))%Z.
Proof.
  intros [= <-]. rewrite RouterFacts.currentConnections_set.
  destruct (String.eqb p q) eqn:E.
  - apply String.eqb_eq in E as ->. rewrite lookup_insert_eq. reflexivity.
  - apply String.eqb_neq in E. rewrite lookup_insert_ne by exact E.
    unfold Router.currentConnections, oneIf.
    destruct (Router.activeConnections r !! q); lia.
Qed.

Lemma end_inflight (r : Router.State) (p q : string) (stats : option Router.UseStats) :
  (1 <= Router.currentConnections r p)%Z ->
  Router.currentConnections (Router.recordModelUseEnd r p stats) q
  = (Router.currentConnections r q - oneIf (String.eqb p q))%Z.
Proof.
  intros Hpos.
  assert (Hc : Router.currentConnections (Router.recordModelUseEnd r p stats) q
               = match <[p := Z.max 0
                                (match Router.activeConnections r !! p with
                                 | Some c => if (c =? 0)%Z then 1%Z else c
                                 | None => 1%Z
                                 end - 1)]> (Router.activeConnections r) !! q with
                 | Some c => c
                 | None => 0%Z
                 end).
  { unfold Router.recordModelUseEnd. destruct stats; reflexivity. }
  rewrite Hc. unfold Router.currentConnections in *.
  destruct (String.eqb p q) eqn:E.
  - apply String.eqb_eq in E as ->. rewrite lookup_insert_eq.
    destruct (Router.activeConnections r !! q) as [c|]; simpl; [|lia].
    destruct (c =? 0)%Z eqn:E0; [apply Z.eqb_eq in E0; lia | simpl; lia].
  - apply String.eqb_neq in E. rewrite lookup_insert_ne by exact E.
    simpl. destruct (Router.activeConnections r !! q); lia.
Qed.

Section Dispatch.
Variable parseFloat : string -> jsnum.
Variable uuidv4 : string.
Variable toISOString : Z -> string.
Variable callModel : nat -> string -> string -> AdapterOutcome.

Lemma awaitCallModel_world (w : World) (mi : Router.ModelInfo) :
  exists model,
    fst (awaitCallModel callModel w mi)
    = callModel (length (adapterCalls w)) (Router.provider mi) model
    /\ router (snd (awaitCallModel callModel w mi)) = router w
    /\ adapterCalls (snd (awaitCallModel callModel w mi))
       = (adapterCalls w ++ [(Router.provider mi, model)])%list.
Proof. unfold awaitCallModel. eexists. simpl. repeat split. Qed.

(** The inner block gives a response only when the call of the chosen
    model itself resolves: after a failed call no path leads to one. *)
Lemma callWithFallback_Ok (w w' : World) (mi : Router.ModelInfo) (md : Router.Metadata)
    (resp : ModelResponse) (c : option Q) :
  callWithFallback callModel w mi md = (Ok (resp, c), w') ->
  router w' = router w
  /\ exists model dt,
       callModel (length (adapterCalls w)) (Router.provider mi) model = Resolves dt resp
       /\ adapterCalls w' = (adapterCalls w ++ [(Router.provider mi, model)])%list.
Proof.
  unfold callWithFallback.
  destruct (awaitCallModel_world w mi) as (model & Hfst & Hr & Hc).
  destruct (awaitCallModel callModel w mi) as [o w1]. cbn [fst snd] in *.
  destruct o as [dt r|dt e].
  - intros [= <- _ <-]. split; [exact Hr|]. exists model, dt. auto.
  - destruct (Router.getBackupModel _ _ _ _) as [b|]; [|discriminate].
    unfold Router.recordModelUseStart. cbv beta iota zeta.
    match goal with
    | |- context [awaitCallModel callModel ?x b] =>
        destruct (awaitCallModel callModel x b) as [[? ?|? ?] ?]
    end; discriminate.
Qed.

(** When the inner block throws, every admission made so far stands:
    the counts have grown by the calls made, the first of which was
    admitted by the caller. *)
Lemma callWithFallback_Throw (w w' : World) (mi : Router.ModelInfo) (md : Router.Metadata)
    (e : exn) :
  callWithFallback callModel w mi md = (Throw e, w') ->
  exists new,
    adapterCalls w' = (adapterCalls w ++ new)%list
    /\ forall q, (inflight w' q + oneIf (String.eqb (Router.provider mi) q)
                 = inflight w q + callsTo q new)%Z.
Proof.
  unfold callWithFallback.
  destruct (awaitCallModel_world w mi) as (model & Hfst & Hr & Hc).
  destruct (awaitCallModel callModel w mi) as [o w1]. cbn [fst snd] in *.
  destruct o as [dt r|dt e0]; [discriminate|].
  destruct (Router.getBackupModel _ _ _ _) as [b|].
  - unfold Router.recordModelUseStart at 1. cbv beta iota zeta.
    set (r2 := Router.setActiveConnections (router w1) _).
    assert (Hstart : Router.recordModelUseStart (router w1) (Router.provider b) = Ok r2)
      by reflexivity.
    destruct (awaitCallModel_world (setRouter w1 r2) b) as (model' & _ & Hr' & Hc').
    destruct (awaitCallModel callModel (setRouter w1 r2) b) as [o' w3].
    cbn [fst snd router adapterCalls setRouter] in *.
    assert (Hgoal : exists new,
               adapterCalls w3 = (adapterCalls w ++ new)%list
               /\ forall q, (inflight w3 q + oneIf (String.eqb (Router.provider mi) q)
                             = inflight w q + callsTo q new)%Z).
    { exists [(Router.provider mi, model); (Router.provider b, model')]. split.
      - rewrite Hc', Hc, <- app_assoc. reflexivity.
      - intros q. unfold inflight. rewrite Hr'.
        rewrite (start_inflight _ _ _ q Hstart), Hr.
        change [(Router.provider mi, model); (Router.provider b, model')]
          with ([(Router.provider mi, model)] ++ [(Router.provider b, model')])%list.
        rewrite callsTo_app, !callsTo_one. lia. }
    destruct o'; intros [= _ <-]; exact Hgoal.
  - intros [= _ <-]. exists [(Router.provider mi, model)]. split; [exact Hc|].
    intros q. unfold inflight. rewrite Hr, callsTo_one. lia.
Qed.

Lemma recordRequest_router (w : World) (d : Monitoring.RequestData) :
  router (recordRequest w d) = router w
  /\ adapterCalls (recordRequest w d) = adapterCalls w.
Proof. split; reflexivity. Qed.

Lemma callsBetween_refl (w w' : World) :
  adapterCalls w' = adapterCalls w -> callsBetween w w' = [].
Proof.
  intros H. apply callsBetween_app. rewrite H, app_nil_r. reflexivity.
Qed.

(** An exception out of the [try] block leaves every admission in place. *)
Lemma tryProcessQuery_Throw (w w' : World) (request : RequestProcessor.Request)
    (requestId : string) (startTime : Z) (e : exn) (slot : option Router.ModelInfo) :
  tryProcessQuery parseFloat uuidv4 toISOString callModel w request requestId startTime
  = (Throw e, slot, w') ->
  forall q, inflight w' q = (inflight w q + callsTo q (callsBetween w w'))%Z.
Proof.
  unfold tryProcessQuery.
  destruct (RequestProcessor.processRequest _ _ _ _) as [[request' md]|e0].
  2: { intros [= _ _ <-] q. rewrite callsBetween_refl by reflexivity.
       unfold callsTo. simpl. lia. }
  unfold evaluateQueryComplexity. cbv beta iota zeta.
  set (w1 := recordRequest w _).
  assert (Hw1 : router w1 = router w /\ adapterCalls w1 = adapterCalls w)
    by apply recordRequest_router.
  destruct Hw1 as [Hr1 Hc1].
  assert (Hsame : forall q, inflight w1 q
                            = (inflight w q + callsTo q (callsBetween w w1))%Z).
  { intros q. rewrite callsBetween_refl by exact Hc1. unfold inflight, callsTo.
    rewrite Hr1. simpl. lia. }
  destruct (Router.selectModelByComplexity _ _ _ _) as [modelInfo|e1].
  2: { intros [= _ _ <-]. exact Hsame. }
  destruct (Router.applyCostControlStrategy _ _ _ _) as [finalModelInfo|e2].
  2: { intros [= _ _ <-]. exact Hsame. }
  unfold Router.recordModelUseStart at 1. cbv beta iota zeta.
  set (r2 := Router.setActiveConnections (router w1) _).
  assert (Hstart : Router.recordModelUseStart (router w1) (Router.provider finalModelInfo)
                   = Ok r2) by reflexivity.
  destruct (callWithFallback callModel (setRouter w1 r2) finalModelInfo md)
    as [[[resp c]|e3] w3] eqn:E; [discriminate|].
  intros [= _ _ <-] q.
  apply callWithFallback_Throw in E as (new & Hnew & Hq).
  specialize (Hq q). cbn [adapterCalls setRouter] in Hnew.
  rewrite Hc1 in Hnew. rewrite (callsBetween_app _ _ _ Hnew).
  unfold inflight in *. cbn [router setRouter] in Hq.
  rewrite (start_inflight _ _ _ q Hstart), Hr1 in Hq. lia.
Qed.

(** A result out of the [try] block comes from one adapter call, the one
    to the chosen model, which resolved; its admission is released. *)
Lemma tryProcessQuery_Ok (w w' : World) (request : RequestProcessor.Request)
    (requestId : string) (startTime : Z) (res : QueryResult)
    (slot : option Router.ModelInfo) :
  tryProcessQuery parseFloat uuidv4 toISOString callModel w request requestId startTime
  = (Ok res, slot, w') ->
  (exists model dt resp,
      adapterCalls w' = (adapterCalls w ++ [(model_used res, model)])%list
      /\ callModel (length (adapterCalls w)) (model_used res) model = Resolves dt resp
      /\ response res = text resp)
  /\ ((0 <= inflight w (model_used res))%Z ->
      forall q, inflight w' q = inflight w q).
Proof.
  unfold tryProcessQuery.
  destruct (RequestProcessor.processRequest _ _ _ _) as [[request' md]|e0];
    [|discriminate].
  unfold evaluateQueryComplexity. cbv beta iota zeta.
  set (w1 := recordRequest w _).
  assert (Hw1 : router w1 = router w /\ adapterCalls w1 = adapterCalls w)
    by apply recordRequest_router.
  destruct Hw1 as [Hr1 Hc1].
  destruct (Router.selectModelByComplexity _ _ _ _) as [modelInfo|e1]; [|discriminate].
  destruct (Router.applyCostControlStrategy _ _ _ _) as [finalModelInfo|e2];
    [|discriminate].
  unfold Router.recordModelUseStart at 1. cbv beta iota zeta.
  set (r2 := Router.setActiveConnections (router w1) _).
  assert (Hstart : Router.recordModelUseStart (router w1) (Router.provider finalModelInfo)
                   = Ok r2) by reflexivity.
  destruct (callWithFallback callModel (setRouter w1 r2) finalModelInfo md)
    as [[[resp c]|e3] w3] eqn:E; [|discriminate].
  apply callWithFallback_Ok in E as (Hr3 & model & dt & Hcall & Hc3).
  cbn [adapterCalls router setRouter] in Hr3, Hc3, Hcall.
  match goal with
  | |- context [Router.recordModelUseEnd ?r ?p ?s] =>
      pose proof (fun q H => end_inflight r p q s H) as Hend;
      set (r5 := Router.recordModelUseEnd r p s) in *
  end.
  cbn [router recordRequest setMonitoring] in Hend.
  intros [= <- _ <-]. cbn [model_used response]. split.
  - exists model, dt, resp. cbn [adapterCalls setRouter recordRequest setMonitoring].
    rewrite Hc3, Hc1. rewrite Hc1 in Hcall. auto.
  - intros Hpos q. unfold inflight in *. cbn [router setRouter].
    rewrite Hend.
    + rewrite Hr3, (start_inflight _ _ _ q Hstart), Hr1. lia.
    + rewrite Hr3, (start_inflight _ _ _ _ Hstart), Hr1, String.eqb_refl.
      unfold oneIf. lia.
Qed.

(** A successful reply follows exactly one adapter call, which resolved
    and whose text it carries: a dispatch whose first call fails never
    ends in a successful reply. *)
Lemma success_needs_first_call (w w' : World) (request : RequestProcessor.Request)
    (res : QueryResult) :
  processQuery parseFloat uuidv4 toISOString callModel w request = (ReplyOk res, w') ->
  exists model dt resp,
    adapterCalls w' = (adapterCalls w ++ [(model_used res, model)])%list
    /\ callModel (length (adapterCalls w)) (model_used res) model = Resolves dt resp
    /\ response res = text resp.
Proof.
  unfold processQuery. cbv zeta.
  destruct (tryProcessQuery _ _ _ _ _ _ _ _) as [[[res'|e] slot] w1] eqn:E;
    [|discriminate].
  intros [= <- <-]. apply tryProcessQuery_Ok in E as [H _]. exact H.
Qed.

(** On a successful reply the admission is released: every count is as
    before the dispatch. *)
Lemma success_releases_admission (w w' : World) (request : RequestProcessor.Request)
    (res : QueryResult) :
  processQuery parseFloat uuidv4 toISOString callModel w request = (ReplyOk res, w') ->
  (0 <= inflight w (model_used res))%Z ->
  forall q, inflight w' q = inflight w q.
Proof.
  unfold processQuery. cbv zeta.
  destruct (tryProcessQuery _ _ _ _ _ _ _ _) as [[[res'|e] slot] w1] eqn:E;
    [|discriminate].
  intros [= <- <-]. apply tryProcessQuery_Ok in E as [_ H]. exact H.
Qed.

(** On an error reply no admission is released: every provider's count
    has grown by the number of adapter calls the dispatch made to it. *)
Lemma error_reply_keeps_admissions (w w' : World) (request : RequestProcessor.Request)
    (er : ErrorReply) :
  processQuery parseFloat uuidv4 toISOString callModel w request = (ReplyError er, w') ->
  forall q, inflight w' q = (inflight w q + callsTo q (callsBetween w w'))%Z.
Proof.
  unfold processQuery. cbv zeta.
  destruct (tryProcessQuery _ _ _ _ _ _ _ _) as [[[res'|e] slot] w1] eqn:E;
    [discriminate|].
  intros [= _ <-] q.
  pose proof (tryProcessQuery_Throw _ _ _ _ _ _ _ E q) as H.
  unfold inflight, callsBetween in *.
  cbn [router adapterCalls recordRequest setMonitoring]. exact H.
Qed.

End Dispatch.

(** C1 on the code, in the run of the fallback test: the call of the
    chosen model (anthropic) throws once, the router's backup selection
    gives local, the backup is admitted and its adapter called, which
    answers: the adapter has been invoked exactly two times. The dispatch
    then ends in an error reply (INTERNAL), not in a successful one with
    the backup's text: assigning the backup to [finalModelInfo], a
    constant, throws. *)
Theorem fallback_ends_in_internal_error :
  let run := Scenario.dispatch Scenario.failOnce in
  fst run = ReplyError {| code := INTERNAL;
                          message := "内部服务器错误";
                          details := Message "Assignment to constant variable." |}
  /\ adapterCalls (snd run) = [("anthropic", "default"); ("local", "default")]
  /\ Scenario.failOnce 1 "local" "default"
     = Resolves 100 (Scenario.backupResponse "local")
  /\ inflight (snd run) "local" = 1%Z
  /\ (forall res, fst run <> ReplyOk res).
Proof.
  cbv zeta.
  assert (H : fst (Scenario.dispatch Scenario.failOnce)
              = ReplyError {| code := INTERNAL;
                              message := "内部服务器错误";
                              details := Message "Assignment to constant variable." |})
    by (vm_compute; reflexivity).
  split; [exact H|]. split; [vm_compute; reflexivity|].
  split; [reflexivity|]. split; [vm_compute; reflexivity|].
  intros res. rewrite H. discriminate.
Qed.

(** C2 on the code. When every adapter call fails, the dispatch admits
    the chosen provider (anthropic) and the backup (local) and replies
    with an error: both counts, 0 before, are 1 after, no release was
    made. The same holds in the fallback run, where the backup answers.
    Only a dispatch whose first call answers releases its admission. *)
Theorem failed_dispatch_keeps_admissions :
  let failed := Scenario.dispatch Scenario.alwaysFail in
  let fallback := Scenario.dispatch Scenario.failOnce in
  let answered := Scenario.dispatch Scenario.alwaysAnswer in
  inflight Scenario.testWorld "anthropic" = 0%Z
  /\ inflight Scenario.testWorld "local" = 0%Z
  /\ (exists er, fst failed = ReplyError er)
  /\ adapterCalls (snd failed) = [("anthropic", "default"); ("local", "default")]
  /\ inflight (snd failed) "anthropic" = 1%Z
  /\ inflight (snd failed) "local" = 1%Z
  /\ inflight (snd fallback) "anthropic" = 1%Z
  /\ inflight (snd fallback) "local" = 1%Z
  /\ (exists res, fst answered = ReplyOk res /\ model_used res = "anthropic")
  /\ inflight (snd answered) "anthropic" = 0%Z.
Proof.
  cbv zeta. repeat split; try (vm_compute; reflexivity).
  - eexists. vm_compute. reflexivity.
  - eexists. split; vm_compute; reflexivity.
Qed.

End GatewayFacts.

(** ** More on numbers *)

Module NumMore.
Import JS NumFacts.
#[local] Open Scope Q_scope.

Lemma ofNat_eq_bool_pos (n : nat) : (0 < n)%nat -> Qeq_bool (ofNat n) 0 = false.
Proof.
  intros H. destruct (Qeq_bool (ofNat n) 0) eqn:E; [|reflexivity].
  apply Qeq_bool_iff in E. pose proof (ofNat_pos n H). lra.
Qed.

End NumMore.

(** ** More on the router *)

Module RouterMore.
Import JS Errors Router Chain NumFacts RouterFacts.
#[local] Open Scope Q_scope.

(** *** The best candidate *)



(** *** Backup selection *)

Lemma fallbackChain_step (t : ModelType) :
  fallbackChain t
  = t :: match fallbackTypes t with
         | Some t' => fallbackChain t'
         | None => []
         end.
Proof. destruct t; reflexivity. Qed.

Lemma others_nil (st : State) (primaryProvider : string) (t : ModelType) (md : Metadata) :
  others st primaryProvider t md = [] <->
  forall q, In q (getAvailableProviders st t md) -> name q = primaryProvider.
Proof.
  unfold others. split.
  - intros H q Hq. destruct (String.eqb (name q) primaryProvider) eqn:E.
    + apply String.eqb_eq. exact E.
    + assert (Hin : In q (List.filter (fun p => negb (String.eqb (name p) primaryProvider))
                           (getAvailableProviders st t md))).
      { apply filter_In. rewrite E. auto. }
      rewrite H in Hin. destruct Hin.
  - intros H. destruct (List.filter _ _) as [|q l] eqn:E; [reflexivity|].
    assert (Hin : In q (List.filter (fun p => negb (String.eqb (name p) primaryProvider))
                          (getAvailableProviders st t md))) by (rewrite E; left; reflexivity).
    apply filter_In in Hin as [Hin Hb]. apply H in Hin.
    apply String.eqb_eq in Hin. rewrite Hin in Hb. discriminate.
Qed.

Lemma backupSpec_step (st : State) (primaryProvider : string) (md : Metadata)
    (t : ModelType) :
  match fallbackTypes t with
  | Some t' => backupSpec st primaryProvider md t'
  | None => True
  end ->
  backupSpec st primaryProvider md t.
Proof.
  intros Hnext. unfold backupSpec.
  rewrite getBackupModel_eq, fallbackChain_step.
  fold (others st primaryProvider t md).
  pose proof (others_nil st primaryProvider t md) as Hnil.
  destruct (others st primaryProvider t md) as [|q0 qs] eqn:Eo.
  - assert (Hall : forall q, In q (getAvailableProviders st t md) -> name q = primaryProvider)
      by (apply Hnil; reflexivity).
    destruct (fallbackTypes t) as [t'|].
    + destruct Hnext as [Hsome Hnone]. split.
      * intros b Hb. destruct (Hsome b Hb) as (H1 & H2). split; [right; exact H1 | exact H2].
      * rewrite Hnone. split.
        -- intros H t'' q [<-|Hin] Hq; [apply Hall; exact Hq | eapply H; eauto].
        -- intros H t'' q Hin Hq. eapply H; [right; exact Hin | exact Hq].
    + split; [discriminate|]. split; [|reflexivity].
      intros _ t'' q [<-|[]] Hq. apply Hall. exact Hq.
  - destruct (selectBestProvider_Some st (q0 :: qs) (1 # 2) md) as [bp Hbp];
      [discriminate|].
    rewrite Hbp. pose proof (selectBestProvider_In _ _ _ _ _ Hbp) as Hin.
    rewrite <- Eo in Hin. unfold others in Hin. apply filter_In in Hin as [Hav Hne].
    apply negb_true_iff, String.eqb_neq in Hne. split.
    + intros b [= <-]. simpl. split; [left; reflexivity|]. split; [exact Hne|].
      split; [destruct bp; exact Hav | auto].
    + split; [discriminate|]. intros H. exfalso. apply Hne.
      apply (H t bp); [left; reflexivity | exact Hav].
Qed.

(** X2. A backup, when [getBackupModel] gives one, is never the provider
    that failed; it is an available provider of its own type, which is
    the requested type or one further down [remote -> hybrid -> local];
    it is marked as backup and carries no estimated cost. There is no
    backup exactly when, along that chain, every available provider is
    the one that failed. *)
Theorem backup_is_another_available_provider (st : State) (primaryProvider : string)
    (t : ModelType) (md : Metadata) :
  (forall b, getBackupModel st primaryProvider t md = Some b ->
             In (modelType b) (fallbackChain t)
             /\ provider b <> primaryProvider
             /\ In {| name := provider b; config := modelConfig b |}
                  (getAvailableProviders st (modelType b) md)
             /\ isBackup b = true
             /\ estimatedCost b = None)
  /\ (getBackupModel st primaryProvider t md = None <->
      forall t' q, In t' (fallbackChain t) ->
                   In q (getAvailableProviders st t' md) -> name q = primaryProvider).
Proof.
  assert (Hl : backupSpec st primaryProvider md local)
    by (apply backupSpec_step; exact I).
  assert (Hh : backupSpec st primaryProvider md hybrid)
    by (apply backupSpec_step; exact Hl).
  assert (Hr : backupSpec st primaryProvider md remote)
    by (apply backupSpec_step; exact Hh).
  destruct t; assumption.
Qed.

(** *** Cost control *)

Lemma le_num_JNum (c B : Q) : le_num c (JNum B) = true <-> c <= B.
Proof. simpl. apply Qle_bool_iff. Qed.

(** X3. Whatever decision [applyCostControlStrategy] returns, it is the
    decision it was given, unchanged and not over budget, or a decision on
    the next type of [fallbackTypes], marked as cost-controlled, for an
    available provider of that type; with a budget that parses to a
    number B the estimate of the returned decision is at most B. *)
Theorem cost_control_result_fits_budget (parseFloat : string -> jsnum) (st : State)
    (mi mi' : ModelInfo) (md : Metadata) :
  applyCostControlStrategy parseFloat st mi md = Ok mi' ->
  ((mi' = mi /\ overBudget mi (budgetOf parseFloat md) = false)
   \/ (costControlled mi' = true
       /\ isBackup mi' = false
       /\ fallbackTypes (modelType mi) = Some (modelType mi')
       /\ In {| name := provider mi'; config := modelConfig mi' |}
            (getAvailableProviders st (modelType mi') md)
       /\ estimatedCost mi' = Some (estimateCost (modelConfig mi') (1 # 2) md)))
  /\ (forall B c, budgetOf parseFloat md = JNum B ->
                  estimatedCost mi' = Some c -> c <= B).
Proof.
  unfold applyCostControlStrategy. intros H.
  destruct (overBudget mi (budgetOf parseFloat md)) eqn:Eo.
  - destruct (fallbackTypes (modelType mi)) as [ft|] eqn:Ef; [|discriminate].
    destruct (getAvailableProviders st ft md) as [|p0 ps] eqn:Ea; [discriminate|].
    destruct (selectBestProvider st (p0 :: ps) (1 # 2) md) as [cp|] eqn:Eb;
      [|discriminate].
    destruct (le_num (estimateCost (config cp) (1 # 2) md) (budgetOf parseFloat md))
      eqn:El; [|discriminate].
    injection H as <-. simpl. split.
    + right. repeat split; try reflexivity.
      apply selectBestProvider_In in Eb. rewrite <- Ea in Eb. destruct cp. exact Eb.
    + intros B c HB [= <-]. rewrite HB in El. apply le_num_JNum in El. exact El.
  - injection H as <-. split; [left; auto|].
    intros B c HB Hc. unfold overBudget in Eo. rewrite Hc, HB in Eo.
    simpl in Eo. apply Qltb_ge in Eo. exact Eo.
Qed.

Lemma applyCostControlStrategy_Throw (parseFloat : string -> jsnum) (st : State)
    (mi : ModelInfo) (md : Metadata) (e : exn) :
  applyCostControlStrategy parseFloat st mi md = Throw e ->
  e = costLimitExceeded costLimitMessage
  /\ overBudget mi (budgetOf parseFloat md) = true.
Proof.
  unfold applyCostControlStrategy. intros H.
  destruct (overBudget mi (budgetOf parseFloat md)); [|discriminate].
  split; [|reflexivity].
  destruct (fallbackTypes (modelType mi)) as [ft|]; [|congruence].
  destruct (getAvailableProviders st ft md) as [|p0 ps] eqn:Ea; [congruence|].
  destruct (selectBestProvider_Some st (p0 :: ps) (1 # 2) md) as [cp Hcp];
    [discriminate|].
  rewrite Hcp in H. destruct (le_num _ _); congruence.
Qed.

(** X4. [applyCostControlStrategy] fails with COST_LIMIT_EXCEEDED and
    with nothing else, and only on a decision that is over budget; a
    [local] decision that is over budget always fails. Without a budget,
    with an empty one or with one that [parseFloat] reads as NaN, every
    decision is returned as it is. *)
Theorem cost_control_failure (parseFloat : string -> jsnum) (st : State)
    (mi : ModelInfo) (md : Metadata) :
  (forall e, applyCostControlStrategy parseFloat st mi md = Throw e ->
             e = costLimitExceeded costLimitMessage
             /\ overBudget mi (budgetOf parseFloat md) = true)
  /\ (modelType mi = local -> overBudget mi (budgetOf parseFloat md) = true ->
      applyCostControlStrategy parseFloat st mi md
      = Throw (costLimitExceeded costLimitMessage))
  /\ (budgetOf parseFloat md = JPosInf \/ budgetOf parseFloat md = JNaN ->
      applyCostControlStrategy parseFloat st mi md = Ok mi)
  /\ (budget md = None \/ budget md = Some "" -> budgetOf parseFloat md = JPosInf).
Proof.
  split; [|split; [|split]].
  - intros e H. apply applyCostControlStrategy_Throw in H. exact H.
  - intros Ht Ho. unfold applyCostControlStrategy. rewrite Ho, Ht. reflexivity.
  - intros Hb. unfold applyCostControlStrategy, overBudget.
    destruct (estimatedCost mi); [|reflexivity].
    destruct Hb as [-> | ->]; reflexivity.
  - unfold budgetOf. intros [-> | ->]; reflexivity.
Qed.

(** *** The estimate *)

(** X5. For a provider whose base cost and maximum cost
    ([maxCostPerQuery], 0.1 when absent or 0) are not negative and for
    complexity scores from -1 on, the estimated cost is not negative,
    never exceeds the maximum, and does not decrease when the score
    grows. *)
Theorem estimate_is_clamped_and_monotone (cfg : ProviderConfig) (s1 s2 : Q)
    (md : Metadata) :
  0 <= orDefault (baseCostPerQuery cfg) (1 # 1000) ->
  0 <= maxCostOf cfg ->
  -1 <= s1 -> s1 <= s2 ->
  estimateCost cfg s1 md <= estimateCost cfg s2 md
  /\ estimateCost cfg s2 md <= maxCostOf cfg
  /\ 0 <= estimateCost cfg s1 md.
Proof.
  intros Hb Hm H1 H12. unfold estimateCost.
  set (base := orDefault (baseCostPerQuery cfg) (1 # 1000)) in *.
  set (len := 1 + ofNat match queryLength md with Some n => n | None => 0%nat end / 1000).
  assert (Hlen : 0 <= len).
  { subst len.
    assert (0 <= ofNat match queryLength md with Some n => n | None => 0%nat end / 1000)
      by (apply Qdiv_nonneg; [apply ofNat_nonneg | discriminate]).
    lra. }
  assert (Hbl : 0 <= base * len) by (apply Qmult_le_0_compat; assumption).
  assert (Hmono : base * (1 + s1) * len <= base * (1 + s2) * len).
  { assert (E1 : base * (1 + s1) * len == (1 + s1) * (base * len)) by ring.
    assert (E2 : base * (1 + s2) * len == (1 + s2) * (base * len)) by ring.
    rewrite E1, E2. apply Qmult_le_compat_r; [lra | exact Hbl]. }
  assert (Hpos : 0 <= base * (1 + s1) * len).
  { apply Qmult_le_0_compat; [|exact Hlen].
    apply Qmult_le_0_compat; [exact Hb | lra]. }
  split; [|split].
  - apply Q.min_le_compat_r. exact Hmono.
  - apply Q.le_min_r.
  - apply Q.min_glb; assumption.
Qed.

(** *** Selection *)

(** X6. [selectModelByComplexity] fails exactly when the type chosen
    for the score has no candidate, and then with MODEL_UNAVAILABLE;
    otherwise it returns a decision of that type for one of the
    candidates, with that provider's clamped estimate, marked neither as
    backup nor as cost-controlled. *)
Theorem selection_fails_only_without_candidates (st : State) (score : Q)
    (factors : list string) (md : Metadata) :
  let t := modelTypeFor (routingStrategy st) score in
  (getAvailableProviders st t md = [] ->
   selectModelByComplexity st score factors md
   = Throw (modelUnavailable ("没有可用的" ++ typeName t ++ "类型模型提供商")))
  /\ (getAvailableProviders st t md <> [] ->
      exists mi,
        selectModelByComplexity st score factors md = Ok mi
        /\ modelType mi = t
        /\ In {| name := provider mi; config := modelConfig mi |}
             (getAvailableProviders st t md)
        /\ estimatedCost mi = Some (estimateCost (modelConfig mi) score md)
        /\ isBackup mi = false /\ costControlled mi = false).
Proof.
  cbv zeta. unfold selectModelByComplexity. split.
  - intros ->. reflexivity.
  - intros Hne.
    destruct (getAvailableProviders st (modelTypeFor (routingStrategy st) score) md)
      as [|p0 ps] eqn:Ea; [contradiction|].
    destruct (selectBestProvider_Some st (p0 :: ps) score md) as [bp Hbp];
      [discriminate|].
    rewrite Hbp. eexists. split; [reflexivity|]. simpl.
    apply selectBestProvider_In in Hbp. destruct bp. auto.
Qed.

(** *** Release and statistics *)

Lemma recordModelUseEnd_connections (st : State) (p : string) (stats : option UseStats) :
  activeConnections (recordModelUseEnd st p stats)
  = <[p := Z.max 0 (match activeConnections st !! p with
                    | Some c => if (c =? 0)%Z then 1%Z else c
                    | None => 1%Z
                    end - 1)]> (activeConnections st).
Proof. unfold recordModelUseEnd. destruct stats; reflexivity. Qed.

(** X7. [recordModelUseEnd] takes one off the provider's
    active-connection count and stops at 0: the count is never negative
    afterwards, also for a provider that was never admitted. The other
    counts and the configuration are untouched, without a sample the
    statistics too, and a release after an admission restores a count
    that was not negative. *)
Theorem release_floors_at_zero (st : State) (p : string) (stats : option UseStats) :
  let st' := recordModelUseEnd st p stats in
  currentConnections st' p = Z.max 0 (currentConnections st p - 1)
  /\ (0 <= currentConnections st' p)%Z
  /\ (forall q, q <> p -> currentConnections st' q = currentConnections st q)
  /\ modelProviders st' = modelProviders st
  /\ (stats = None -> modelStats st' = modelStats st)
  /\ (forall st1, recordModelUseStart st p = Ok st1 ->
                  (0 <= currentConnections st p)%Z ->
                  currentConnections (recordModelUseEnd st1 p stats) p
                  = currentConnections st p).
Proof.
  cbv zeta.
  assert (Hp : forall s : State,
             currentConnections (recordModelUseEnd s p stats) p
             = Z.max 0 (currentConnections s p - 1)).
  { intros s. unfold currentConnections.
    rewrite recordModelUseEnd_connections, lookup_insert_eq.
    destruct (activeConnections s !! p) as [c|]; [|reflexivity].
    destruct (c =? 0)%Z eqn:E; [apply Z.eqb_eq in E; subst; reflexivity | reflexivity]. }
  split; [apply Hp|]. split; [rewrite Hp; lia|]. split; [|split; [|split]].
  - intros q Hq. unfold currentConnections.
    rewrite recordModelUseEnd_connections, lookup_insert_ne by congruence. reflexivity.
  - unfold recordModelUseEnd. destruct stats; reflexivity.
  - intros ->. reflexivity.
  - intros st1 [= <-] Hpos. rewrite Hp, currentConnections_set, lookup_insert_eq. lia.
Qed.

Lemma recordModelUseEnd_stats (st : State) (p : string) (s : UseStats) :
  modelStats (recordModelUseEnd st p (Some s)) !! p
  = Some
      (let currentStats :=
         match modelStats st !! p with
         | Some cs => cs
         | None => {| avgResponseTime := 0; successRate := 1;
                      statsCostEfficiency := 1 # 2; totalCalls := 0 |}
         end in
       {| avgResponseTime :=
            (avgResponseTime currentStats * totalCalls currentStats + responseTime s)
            / (totalCalls currentStats + 1);
          successRate :=
            (successRate currentStats * totalCalls currentStats
             + (if success s then 1 else 0)) / (totalCalls currentStats + 1);
          statsCostEfficiency :=
            (statsCostEfficiency currentStats * totalCalls currentStats
             + useCostEfficiency s) / (totalCalls currentStats + 1);
          totalCalls := totalCalls currentStats + 1 |}).
Proof.
  unfold recordModelUseEnd. cbn [modelStats setModelStats setActiveConnections].
  rewrite lookup_insert_eq. reflexivity.
Qed.

(** X8. The first sample recorded for a provider becomes its
    statistics as it is: the mean response time is the sample's, the
    success rate is 1 or 0 as the call succeeded or failed, the cost
    efficiency is the sample's, and one call is counted; the placeholder
    values (0, 1, 0.5) leave no trace. *)
Theorem first_sample_becomes_statistics (st : State) (p : string) (s : UseStats) :
  modelStats st !! p = None ->
  exists stats,
    modelStats (recordModelUseEnd st p (Some s)) !! p = Some stats
    /\ avgResponseTime stats == responseTime s
    /\ successRate stats == (if success s then 1 else 0)
    /\ statsCostEfficiency stats == useCostEfficiency s
    /\ totalCalls stats == 1.
Proof.
  intros Hnone. eexists. split; [apply recordModelUseEnd_stats|].
  rewrite Hnone. cbv zeta. cbn [avgResponseTime successRate statsCostEfficiency totalCalls].
  split; [field|]. split; [destruct (success s); field|]. split; [field|].
  ring.
Qed.

(** X9. Recording a sample counts one call more and keeps the success
    rate a rate: from statistics with a success rate between 0 and 1 over
    a number of calls that is not negative, the new success rate is again
    between 0 and 1, and the new mean response time lies between the old
    mean and the sample (for a sample at least the old mean). *)
Theorem sample_keeps_success_rate_in_range (st : State) (p : string) (s : UseStats)
    (old : ModelStats) :
  modelStats st !! p = Some old ->
  0 <= totalCalls old ->
  0 <= successRate old -> successRate old <= 1 ->
  exists stats,
    modelStats (recordModelUseEnd st p (Some s)) !! p = Some stats
    /\ totalCalls stats == totalCalls old + 1
    /\ 0 <= successRate stats /\ successRate stats <= 1
    /\ (avgResponseTime old <= responseTime s ->
        avgResponseTime old <= avgResponseTime stats
        /\ avgResponseTime stats <= responseTime s).
Proof.
  intros Hold Hn H0 H1. eexists. split; [apply recordModelUseEnd_stats|].
  rewrite Hold. cbv zeta. cbn [avgResponseTime successRate statsCostEfficiency totalCalls].
  set (n := totalCalls old) in *.
  assert (Hpos : 0 < n + 1) by lra.
  assert (Hsn : 0 <= successRate old * n) by (apply Qmult_le_0_compat; assumption).
  assert (Hsn1 : successRate old * n <= n).
  { assert (E : n == 1 * n) by ring. rewrite E at 2.
    apply Qmult_le_compat_r; assumption. }
  split; [reflexivity|]. split; [|split].
  - apply Qle_shift_div_l; [exact Hpos|]. destruct (success s); lra.
  - apply Qle_shift_div_r; [exact Hpos|]. destruct (success s); lra.
  - intros Hle.
    assert (Hmul : avgResponseTime old * n <= responseTime s * n)
      by (apply Qmult_le_compat_r; assumption).
    split.
    + apply Qle_shift_div_l; [exact Hpos|]. lra.
    + apply Qle_shift_div_r; [exact Hpos|]. lra.
Qed.

(** *** The properties above on the test configuration *)


(** The hybrid decision (anthropic, 0.045765) under [budget: '0.01'] is
    replaced by the local one, whose estimate fits. *)
Lemma cost_control_result_fits_budget_test :
  exists mi mi',
    selectModelByComplexity Scenario.testRouter (5 # 10) [] Scenario.smallBudget = Ok mi
    /\ applyCostControlStrategy Scenario.parseDecimal Scenario.testRouter mi
         Scenario.smallBudget = Ok mi'
    /\ provider mi' = "local"
    /\ (forall c, estimatedCost mi' = Some c -> c <= 1 # 100).
Proof.
  eexists. eexists. split; [vm_compute; reflexivity|].
  match goal with
  | |- ?A = Ok ?m /\ _ =>
      assert (H : A = Ok m) by (vm_compute; reflexivity)
  end.
  split; [exact H|]. split; [reflexivity|].
  intros c Hc.
  destruct (cost_control_result_fits_budget _ _ _ _ _ H) as [_ Hfit].
  apply (Hfit (1 # 100) c); [reflexivity | exact Hc].
Defined.

(** The estimate for openai at scores 0 and 0.5. *)
Lemma estimate_is_clamped_and_monotone_test :
  estimateCost Scenario.openai 0 Scenario.smallBudget
  <= estimateCost Scenario.openai (1 # 2) Scenario.smallBudget
  /\ estimateCost Scenario.openai (1 # 2) Scenario.smallBudget <= 1 # 10.
Proof.
  destruct (estimate_is_clamped_and_monotone Scenario.openai 0 (1 # 2)
              Scenario.smallBudget) as (H1 & H2 & _);
    try (vm_compute; discriminate).
  split; [exact H1 | exact H2].
Defined.

(** A first call that failed leaves a success rate of 0. *)
Lemma first_sample_becomes_statistics_test :
  modelStats Scenario.testRouter !! "openai" = None
  /\ exists stats,
       modelStats (recordModelUseEnd Scenario.testRouter "openai"
                     (Some Scenario2.failedSample)) !! "openai" = Some stats
       /\ successRate stats == 0
       /\ avgResponseTime stats == 800.
Proof.
  assert (Hnone : modelStats Scenario.testRouter !! "openai" = None) by reflexivity.
  split; [exact Hnone|].
  destruct (first_sample_becomes_statistics Scenario.testRouter "openai"
              Scenario2.failedSample Hnone) as (stats & Hs & Ha & Hr & _).
  exists stats. split; [exact Hs|]. split; [exact Hr | exact Ha].
Defined.

(** A failed call after three successes out of four. *)
Lemma sample_keeps_success_rate_in_range_test :
  modelStats Scenario2.routerWithStats !! "openai" = Some Scenario2.fourCalls
  /\ exists stats,
       modelStats (recordModelUseEnd Scenario2.routerWithStats "openai"
                     (Some Scenario2.failedSample)) !! "openai" = Some stats
       /\ totalCalls stats == 5
       /\ 0 <= successRate stats /\ successRate stats <= 1.
Proof.
  assert (Hold : modelStats Scenario2.routerWithStats !! "openai"
                 = Some Scenario2.fourCalls) by reflexivity.
  split; [exact Hold|].
  destruct (sample_keeps_success_rate_in_range Scenario2.routerWithStats "openai"
              Scenario2.failedSample Scenario2.fourCalls Hold)
    as (stats & Hs & Hn & H0 & H1 & _); try (vm_compute; discriminate).
  exists stats. split; [exact Hs|]. split; [|split; assumption].
  rewrite Hn. reflexivity.
Defined.

End RouterMore.

(** ** More on the dispatcher *)

Module GatewayMore.
Import JS Errors Gateway Counters NumFacts GatewayFacts.

Lemma processRequest_Throw (uuidv4 : string) (toISOString : Z -> string)
    (request : RequestProcessor.Request) (now : Z) (e : exn) :
  RequestProcessor.processRequest uuidv4 toISOString request now = Throw e ->
  exists m, e = invalidRequest m.
Proof.
  unfold RequestProcessor.processRequest, RequestProcessor.performSecurityCheck.
  destruct (RequestProcessor.schemaAccepts _); [|intros [= <-]; eauto].
  destruct (RequestProcessor.query _); [|intros [= <-]; eauto].
  destruct (existsb _ _); [intros [= <-]; eauto | discriminate].
Qed.

Lemma recordRequest_counts (w : World) (d : Monitoring.RequestData) :
  requestCount (recordRequest w d) = (requestCount w + 1)%Z
  /\ errorCount (recordRequest w d)
     = (errorCount w + if Monitoring.success d then 0 else 1)%Z
  /\ router (recordRequest w d) = router w
  /\ adapterCalls (recordRequest w d) = adapterCalls w
  /\ now (recordRequest w d) = now w.
Proof.
  unfold requestCount, errorCount, recordRequest. simpl.
  destruct (Monitoring.success d); repeat split; lia.
Qed.

Section Dispatch.
Variable parseFloat : string -> jsnum.
Variable uuidv4 : string.
Variable toISOString : Z -> string.
Variable callModel : nat -> string -> string -> AdapterOutcome.

(** X10. A request that pre-processing refuses (schema or unsafe
    content) is answered with gRPC status 3 (INVALID_ARGUMENT) and the
    message of the INVALID_REQUEST error; no adapter is called, the
    router's state and the clock are untouched, and the monitor receives
    one record, a failure. *)
Theorem refused_request_reaches_no_model (w : World)
    (request : RequestProcessor.Request) (e : exn) :
  RequestProcessor.processRequest uuidv4 toISOString request (now w) = Throw e ->
  exists m,
    e = invalidRequest m
    /\ processQuery parseFloat uuidv4 toISOString callModel w request
       = (ReplyError {| code := 3; message := m;
                        details := ErrorResponse INVALID_REQUEST m |},
          recordRequest w unknownFailure)
    /\ adapterCalls (recordRequest w unknownFailure) = adapterCalls w
    /\ router (recordRequest w unknownFailure) = router w
    /\ requestCount (recordRequest w unknownFailure) = (requestCount w + 1)%Z
    /\ errorCount (recordRequest w unknownFailure) = (errorCount w + 1)%Z.
Proof.
  intros H. destruct (processRequest_Throw _ _ _ _ _ H) as [m ->].
  exists m. split; [reflexivity|]. split.
  - unfold processQuery, tryProcessQuery. cbv zeta. rewrite H.
    cbv beta iota. unfold unknownFailure. rewrite Z.sub_diag. reflexivity.
  - destruct (recordRequest_counts w unknownFailure) as (H1 & H2 & H3 & H4 & _).
    auto.
Qed.

(** The try block up to the admission, for a request that passed
    pre-processing: the world after the evaluation record. *)
Lemma evaluated_world (w : World) (query : jsstring) :
  router (snd (evaluateQueryComplexity w query)) = router w
  /\ adapterCalls (snd (evaluateQueryComplexity w query)) = adapterCalls w
  /\ now (snd (evaluateQueryComplexity w query)) = now w
  /\ requestCount (snd (evaluateQueryComplexity w query)) = (requestCount w + 1)%Z
  /\ errorCount (snd (evaluateQueryComplexity w query)) = errorCount w.
Proof.
  unfold evaluateQueryComplexity. cbn [snd].
  match goal with
  | |- context [recordRequest w ?d] =>
      destruct (recordRequest_counts w d) as (H1 & H2 & H3 & H4 & H5)
  end.
  cbn [Monitoring.success] in H2. rewrite Z.add_0_r in H2.
  repeat split; assumption.
Qed.

(** X11. When routing fails for a request that passed pre-processing,
    because the type chosen for its score has no candidate or because
    cost control gives up, the reply carries the error's gRPC status (14
    UNAVAILABLE for MODEL_UNAVAILABLE, 8 RESOURCE_EXHAUSTED for
    COST_LIMIT_EXCEEDED) and its message; no adapter is called and no
    provider is admitted. *)
Theorem routing_failure_reaches_no_model (w : World)
    (request request' : RequestProcessor.Request) (md : Router.Metadata)
    (query : jsstring) :
  RequestProcessor.processRequest uuidv4 toISOString request (now w)
  = Ok (request', md) ->
  RequestProcessor.query request' = Some query ->
  let score := Evaluator.complexityScore (Evaluator.evaluate query) in
  let factors := Evaluator.complexityFactors (Evaluator.evaluate query) in
  let run := processQuery parseFloat uuidv4 toISOString callModel w request in
  (forall c m,
      Router.selectModelByComplexity (router w) score factors md
      = Throw (GatewayError c m) ->
      fst run = ReplyError {| code := getGrpcStatus c; message := m;
                              details := ErrorResponse c m |}
      /\ c = MODEL_UNAVAILABLE
      /\ adapterCalls (snd run) = adapterCalls w
      /\ router (snd run) = router w)
  /\ (forall mi c m,
        Router.selectModelByComplexity (router w) score factors md = Ok mi ->
        Router.applyCostControlStrategy parseFloat (router w) mi md
        = Throw (GatewayError c m) ->
        fst run = ReplyError {| code := getGrpcStatus c; message := m;
                                details := ErrorResponse c m |}
        /\ c = COST_LIMIT_EXCEEDED
        /\ adapterCalls (snd run) = adapterCalls w
        /\ router (snd run) = router w).
Proof.
  intros Hreq Hq. cbv zeta.
  destruct (evaluated_world w query) as (Hr & Hc & _).
  split.
  - intros c m Hsel.
    assert (Hc' : c = MODEL_UNAVAILABLE).
    { unfold Router.selectModelByComplexity in Hsel.
      destruct (Router.getAvailableProviders _ _ _) as [|p0 ps];
        [unfold modelUnavailable in Hsel; congruence|].
      destruct (RouterFacts.selectBestProvider_Some (router w) (p0 :: ps)
                  (Evaluator.complexityScore (Evaluator.evaluate query)) md)
        as [bp Hbp]; [discriminate|].
      rewrite Hbp in Hsel. discriminate. }
    unfold processQuery, tryProcessQuery. cbv zeta. rewrite Hreq. cbv beta iota.
    rewrite Hq.
    destruct (evaluateQueryComplexity w query) as [cr w1] eqn:E.
    assert (Hcr : cr = Evaluator.evaluate query)
      by (unfold evaluateQueryComplexity in E; congruence).
    cbn [snd] in Hr, Hc. subst cr. rewrite Hr, Hsel. cbn [fst snd].
    repeat split; auto.
  - intros mi c m Hsel Hcost.
    assert (Hc' : c = COST_LIMIT_EXCEEDED).
    { destruct (RouterMore.applyCostControlStrategy_Throw _ _ _ _ _ Hcost) as [He _].
      unfold costLimitExceeded in He. congruence. }
    unfold processQuery, tryProcessQuery. cbv zeta. rewrite Hreq. cbv beta iota.
    rewrite Hq.
    destruct (evaluateQueryComplexity w query) as [cr w1] eqn:E.
    assert (Hcr : cr = Evaluator.evaluate query)
      by (unfold evaluateQueryComplexity in E; congruence).
    cbn [snd] in Hr, Hc. subst cr. rewrite Hr, Hsel, Hcost. cbn [fst snd].
    repeat split; auto.
Qed.

(** The calls the inner block makes: one, or two to different providers
    and then no response. The monitor is not touched. *)
Lemma callWithFallback_shape (w w' : World) (mi : Router.ModelInfo) (md : Router.Metadata)
    (r : result (ModelResponse * option Q)) :
  callWithFallback callModel w mi md = (r, w') ->
  monitoring w' = monitoring w
  /\ exists m,
       adapterCalls w' = (adapterCalls w ++ [(Router.provider mi, m)])%list
       \/ exists b m',
            adapterCalls w' = (adapterCalls w ++ [(Router.provider mi, m); (b, m')])%list
            /\ b <> Router.provider mi
            /\ exists e, r = Throw e.
Proof.
  unfold callWithFallback.
  assert (Hm : forall w0 mi0, monitoring (snd (awaitCallModel callModel w0 mi0))
                              = monitoring w0) by reflexivity.
  pose proof (Hm w mi) as Hm1.
  destruct (awaitCallModel_world callModel w mi) as (model & _ & _ & Hc).
  destruct (awaitCallModel callModel w mi) as [o w1]. cbn [fst snd] in *.
  destruct o as [dt resp|dt e0].
  - intros [= <- <-]. split; [exact Hm1|]. exists model. left. exact Hc.
  - destruct (Router.getBackupModel _ _ _ _) as [b|] eqn:Eb.
    + unfold Router.recordModelUseStart at 1. cbv beta iota zeta.
      set (r2 := Router.setActiveConnections (router w1) _).
      pose proof (Hm (setRouter w1 r2) b) as Hm2.
      destruct (awaitCallModel_world callModel (setRouter w1 r2) b)
        as (model' & _ & _ & Hc').
      destruct (awaitCallModel callModel (setRouter w1 r2) b) as [o' w3].
      cbn [fst snd monitoring adapterCalls setRouter] in *.
      apply RouterFacts.getBackupModel_other in Eb.
      assert (Hgoal : forall r0 e, r0 = @Throw (ModelResponse * option Q) e ->
                 monitoring w3 = monitoring w
                 /\ exists m,
                      adapterCalls w3 = (adapterCalls w ++ [(Router.provider mi, m)])%list
                      \/ exists b0 m',
                           adapterCalls w3
                           = (adapterCalls w ++ [(Router.provider mi, m); (b0, m')])%list
                           /\ b0 <> Router.provider mi
                           /\ exists e', r0 = Throw e').
      { intros r0 e ->. split; [congruence|]. exists model. right.
        exists (Router.provider b), model'. split; [|split; [exact Eb | eauto]].
        rewrite Hc', Hc, <- app_assoc. reflexivity. }
      destruct o'; intros [= <- <-]; eapply Hgoal; reflexivity.
    + intros [= <- <-]. split; [exact Hm1|]. exists model. left. exact Hc.
Qed.

(** What a dispatch does to the adapters and to the monitor's counters,
    by its outcome. *)
Lemma tryProcessQuery_effects (w w' : World) (request : RequestProcessor.Request)
    (requestId : string) (startTime : Z) (r : result QueryResult)
    (slot : option Router.ModelInfo) :
  tryProcessQuery parseFloat uuidv4 toISOString callModel w request requestId startTime
  = (r, slot, w') ->
  errorCount w' = errorCount w
  /\ requestCount w'
     = (requestCount w
        + match RequestProcessor.processRequest uuidv4 toISOString request (now w), r with
          | Throw _, _ => 0
          | Ok _, Throw _ => 1
          | Ok _, Ok _ => 2
          end)%Z
  /\ (forall e, RequestProcessor.processRequest uuidv4 toISOString request (now w)
                = Throw e -> r = Throw e)
  /\ (adapterCalls w' = adapterCalls w /\ (exists e, r = Throw e)
      \/ (exists p m, adapterCalls w' = (adapterCalls w ++ [(p, m)])%list)
      \/ (exists p m b m',
            adapterCalls w' = (adapterCalls w ++ [(p, m); (b, m')])%list
            /\ b <> p /\ exists e, r = Throw e)).
Proof.
  unfold tryProcessQuery.
  destruct (RequestProcessor.processRequest _ _ _ _) as [[request' md]|e0].
  2: { intros [= <- _ <-]. split; [reflexivity|]. split; [lia|].
       split; [congruence|]. left. eauto. }
  match goal with
  | |- context [evaluateQueryComplexity w ?q] =>
      destruct (evaluated_world w q) as (Hr1 & Hc1 & _ & Hn1 & He1);
      destruct (evaluateQueryComplexity w q) as [cr w1]
  end.
  cbn [snd] in *.
  destruct (Router.selectModelByComplexity _ _ _ _) as [modelInfo|e1].
  2: { intros [= <- _ <-]. split; [exact He1|]. split; [exact Hn1|].
       split; [discriminate|]. left. eauto. }
  destruct (Router.applyCostControlStrategy _ _ _ _) as [finalModelInfo|e2].
  2: { intros [= <- _ <-]. split; [exact He1|]. split; [exact Hn1|].
       split; [discriminate|]. left. eauto. }
  unfold Router.recordModelUseStart at 1. cbv beta iota zeta.
  set (r2 := Router.setActiveConnections (router w1) _).
  destruct (callWithFallback callModel (setRouter w1 r2) finalModelInfo md)
    as [cr' w3] eqn:E.
  apply callWithFallback_shape in E as (Hm3 & model & Hcalls).
  cbn [monitoring adapterCalls setRouter] in Hm3, Hcalls.
  assert (Hn3 : requestCount w3 = requestCount w1 /\ errorCount w3 = errorCount w1)
    by (unfold requestCount, errorCount; rewrite Hm3; auto).
  destruct Hn3 as [Hn3 He3]. rewrite Hc1 in Hcalls.
  destruct cr' as [[resp c]|e3].
  - match goal with
    | |- context [recordRequest w3 ?d] =>
        destruct (recordRequest_counts w3 d) as (Hn4 & He4 & _ & Hc4 & _)
    end.
    cbn [Monitoring.success] in He4.
    intros [= <- _ <-]. unfold requestCount, errorCount in *.
    cbn [monitoring adapterCalls setRouter]. split; [lia|]. split; [lia|].
    split; [discriminate|]. right; left. rewrite Hc4.
    destruct Hcalls as [Hcalls|(b & m' & _ & _ & e & He)]; [eauto | discriminate].
  - intros [= <- _ <-]. split; [lia|]. split; [lia|]. split; [discriminate|].
    destruct Hcalls as [Hcalls|(b & m' & Hcalls & Hne & _)].
    + right; left. eauto.
    + right; right. exists (Router.provider finalModelInfo), model, b, m'. eauto.
Qed.

(** X12. A dispatch calls the adapters at most twice, and never the
    same provider twice: it makes no call, one call, or two calls to
    different providers; after two calls the reply is an error, and a
    successful reply follows exactly one call. *)
Theorem at_most_two_calls_to_different_providers (w : World)
    (request : RequestProcessor.Request) :
  let run := processQuery parseFloat uuidv4 toISOString callModel w request in
  (callsBetween w (snd run) = [] /\ exists er, fst run = ReplyError er)
  \/ (exists p m, callsBetween w (snd run) = [(p, m)])
  \/ (exists p m b m',
        callsBetween w (snd run) = [(p, m); (b, m')]
        /\ b <> p /\ exists er, fst run = ReplyError er).
Proof.
  cbv zeta. unfold processQuery. cbv zeta.
  destruct (tryProcessQuery _ _ _ _ _ _ _ _) as [[r slot] w1] eqn:E.
  apply tryProcessQuery_effects in E as (_ & _ & _ & Hcalls).
  destruct r as [res|e].
  - cbn [fst snd].
    destruct Hcalls as [[_ [e He]]|[(p & m & Hc)|(p & m & b & m' & _ & _ & e & He)]];
      try discriminate.
    right; left. exists p, m. apply callsBetween_app. exact Hc.
  - cbn [fst snd].
    match goal with
    | |- context [recordRequest w1 ?d] =>
        destruct (recordRequest_counts w1 d) as (_ & _ & _ & Hc4 & _)
    end.
    destruct Hcalls as [[Hc _]|[(p & m & Hc)|(p & m & b & m' & Hc & Hne & _)]].
    + left. split; [|eauto]. apply callsBetween_refl. congruence.
    + right; left. exists p, m. apply callsBetween_app. congruence.
    + right; right. exists p, m, b, m'. split; [|split; [exact Hne | eauto]].
      apply callsBetween_app. congruence.
Qed.

(** X13. Every dispatch adds to the monitor's request counter one
    record for its outcome and, when the request passed pre-processing,
    one more for the complexity evaluation: the counter grows by 2, or by
    1 for a refused request, while the error counter grows by 1 on an
    error reply and not at all on a successful one. *)
Theorem dispatch_is_counted_twice (w : World) (request : RequestProcessor.Request) :
  let run := processQuery parseFloat uuidv4 toISOString callModel w request in
  requestCount (snd run)
  = (requestCount w
     + match RequestProcessor.processRequest uuidv4 toISOString request (now w) with
       | Ok _ => 2
       | Throw _ => 1
       end)%Z
  /\ errorCount (snd run)
     = (errorCount w + match fst run with
                       | ReplyOk _ => 0
                       | ReplyError _ => 1
                       end)%Z.
Proof.
  cbv zeta. unfold processQuery. cbv zeta.
  destruct (tryProcessQuery _ _ _ _ _ _ _ _) as [[r slot] w1] eqn:E.
  apply tryProcessQuery_effects in E as (He & Hn & Hthrow & _).
  destruct r as [res|e]; cbn [fst snd].
  - destruct (RequestProcessor.processRequest _ _ _ _) as [?|e0];
      [lia | specialize (Hthrow e0 eq_refl); discriminate].
  - match goal with
    | |- context [recordRequest w1 ?d] =>
        destruct (recordRequest_counts w1 d) as (Hn4 & He4 & _)
    end.
    cbn [Monitoring.success] in He4.
    destruct (RequestProcessor.processRequest _ _ _ _); lia.
Qed.

Lemma callWithFallback_Ok_cost (w w' : World) (mi : Router.ModelInfo)
    (md : Router.Metadata) (resp : ModelResponse) (c : option Q) :
  callWithFallback callModel w mi md = (Ok (resp, c), w') ->
  c = orElse (cost resp) (Router.estimatedCost mi)
  /\ exists model dt,
       callModel (length (adapterCalls w)) (Router.provider mi) model = Resolves dt resp
       /\ now w' = (now w + dt)%Z.
Proof.
  unfold callWithFallback, awaitCallModel.
  set (model := match Router.defaultModel (Router.modelConfig mi) with
                | Some m => if String.eqb m "" then "default" else m
                | None => "default"
                end).
  destruct (callModel (length (adapterCalls w)) (Router.provider mi) model)
    as [dt r|dt e] eqn:E.
  - intros [= <- <- <-]. split; [reflexivity|]. exists model, dt. auto.
  - destruct (Router.getBackupModel _ _ _ _) as [b|]; [|discriminate].
    unfold Router.recordModelUseStart. cbv beta iota zeta.
    match goal with
    | |- context [callModel ?n ?p ?m] =>
        lazymatch p with
        | Router.provider b => destruct (callModel n p m)
        end
    end; discriminate.
Qed.

(** X14. A successful reply reports the one call that was made: its
    [model_used] is the provider of the decision that cost control
    returned, which is the provider the adapter was called for; its
    response is the text the adapter returned; its cost is the cost the
    adapter reported, or the router's estimate when the adapter reported
    none or 0; its score is the evaluator's score of the query; its
    processing time is the time the adapter call took. *)
Theorem successful_reply_reports_the_call (w w' : World)
    (request : RequestProcessor.Request) (res : QueryResult) :
  processQuery parseFloat uuidv4 toISOString callModel w request = (ReplyOk res, w') ->
  exists request' md query mi finalModelInfo model dt resp,
    RequestProcessor.processRequest uuidv4 toISOString request (now w)
    = Ok (request', md)
    /\ RequestProcessor.query request' = Some query
    /\ Router.selectModelByComplexity (router w)
         (Evaluator.complexityScore (Evaluator.evaluate query))
         (Evaluator.complexityFactors (Evaluator.evaluate query)) md = Ok mi
    /\ Router.applyCostControlStrategy parseFloat (router w) mi md = Ok finalModelInfo
    /\ callModel (length (adapterCalls w)) (Router.provider finalModelInfo) model
       = Resolves dt resp
    /\ model_used res = Router.provider finalModelInfo
    /\ response res = text resp
    /\ result_cost res = orElse (cost resp) (Router.estimatedCost finalModelInfo)
    /\ complexity_score res = Evaluator.complexityScore (Evaluator.evaluate query)
    /\ result_request_id res = RequestProcessor.request_id request'
    /\ processing_time res = dt.
Proof.
  unfold processQuery. cbv zeta.
  destruct (tryProcessQuery _ _ _ _ _ _ _ _) as [[[res'|e] slot] w1] eqn:E;
    [|discriminate].
  intros [= <- <-]. revert E. unfold tryProcessQuery.
  destruct (RequestProcessor.processRequest uuidv4 toISOString request (now w))
    as [[request' md]|e0] eqn:Ereq; [|discriminate].
  assert (Hquery : exists query, RequestProcessor.query request' = Some query).
  { unfold RequestProcessor.processRequest in Ereq.
    destruct (RequestProcessor.performSecurityCheck _) eqn:Es; [|discriminate].
    injection Ereq as <- _.
    unfold RequestProcessor.performSecurityCheck in Es.
    destruct (RequestProcessor.schemaAccepts _); [|discriminate].
    destruct (RequestProcessor.query _); [eauto | discriminate]. }
  destruct Hquery as [query Hq]. rewrite Hq.
  destruct (evaluated_world w query) as (Hr1 & Hc1 & Hnow1 & _).
  destruct (evaluateQueryComplexity w query) as [cr w1'] eqn:Ee.
  assert (Hcr : cr = Evaluator.evaluate query)
    by (unfold evaluateQueryComplexity in Ee; congruence).
  cbn [snd] in *. subst cr. rewrite Hr1.
  destruct (Router.selectModelByComplexity _ _ _ _) as [mi|e1] eqn:Esel; [|discriminate].
  destruct (Router.applyCostControlStrategy _ _ _ _) as [fmi|e2] eqn:Ecost;
    [|discriminate].
  unfold Router.recordModelUseStart at 1. cbv beta iota zeta.
  match goal with
  | |- context [callWithFallback callModel ?x fmi md] =>
      destruct (callWithFallback callModel x fmi md) as [[[resp c]|e3] w3] eqn:Ecall;
      [|discriminate]
  end.
  apply callWithFallback_Ok_cost in Ecall as (-> & model & dt & Hcall & Hnow3).
  cbn [adapterCalls now setRouter] in Hcall, Hnow3. rewrite Hc1 in Hcall.
  intros [= <- _ _].
  exists request', md, query, mi, fmi, model, dt, resp.
  cbn [model_used response result_cost complexity_score result_request_id processing_time].
  repeat split; try reflexivity; try assumption.
  rewrite Hnow3, Hnow1. lia.
Qed.

End Dispatch.

(** *** The properties above on the test configuration *)

(** A query with unsafe content is refused. *)
Lemma refused_request_reaches_no_model_test :
  RequestProcessor.processRequest Scenario.testUuid Scenario.testISOString
    Scenario2.unsafeRequest (now Scenario.testWorld)
  = Throw (invalidRequest "请求包含潜在的不安全内容")
  /\ exists w',
       processQuery Scenario.parseDecimal Scenario.testUuid Scenario.testISOString
         Scenario.alwaysAnswer Scenario.testWorld Scenario2.unsafeRequest
       = (ReplyError {| code := 3; message := "请求包含潜在的不安全内容";
                        details := ErrorResponse INVALID_REQUEST "请求包含潜在的不安全内容" |}, w')
       /\ adapterCalls w' = [].
Proof.
  assert (H : RequestProcessor.processRequest Scenario.testUuid Scenario.testISOString
                Scenario2.unsafeRequest (now Scenario.testWorld)
              = Throw (invalidRequest "请求包含潜在的不安全内容")) by reflexivity.
  split; [exact H|].
  destruct (refused_request_reaches_no_model Scenario.parseDecimal Scenario.testUuid
              Scenario.testISOString Scenario.alwaysAnswer Scenario.testWorld
              Scenario2.unsafeRequest _ H) as (m & Hm & Hrun & Hcalls & _).
  injection Hm as <-. eexists. split; [exact Hrun | exact Hcalls].
Defined.

(** With [anthropic] at its limit the test query, whose type is hybrid,
    finds no candidate. *)
Lemma routing_failure_reaches_no_model_test :
  RequestProcessor.processRequest Scenario.testUuid Scenario.testISOString
    Scenario.testRequest (now Scenario2.busyWorld)
  = Ok (Scenario2.standardRequest, Scenario2.standardMetadata)
  /\ RequestProcessor.query Scenario2.standardRequest = Some Scenario.testQuery
  /\ fst (processQuery Scenario.parseDecimal Scenario.testUuid Scenario.testISOString
            Scenario.alwaysAnswer Scenario2.busyWorld Scenario.testRequest)
     = ReplyError {| code := 14; message := "没有可用的hybrid类型模型提供商";
                     details := ErrorResponse MODEL_UNAVAILABLE
                                  "没有可用的hybrid类型模型提供商" |}.
Proof.
  assert (Hreq : RequestProcessor.processRequest Scenario.testUuid Scenario.testISOString
                   Scenario.testRequest (now Scenario2.busyWorld)
                 = Ok (Scenario2.standardRequest, Scenario2.standardMetadata))
    by (vm_compute; reflexivity).
  assert (Hq : RequestProcessor.query Scenario2.standardRequest = Some Scenario.testQuery)
    by reflexivity.
  split; [exact Hreq|]. split; [exact Hq|].
  destruct (routing_failure_reaches_no_model Scenario.parseDecimal Scenario.testUuid
              Scenario.testISOString Scenario.alwaysAnswer Scenario2.busyWorld
              Scenario.testRequest _ _ _ Hreq Hq) as [Hsel _].
  destruct (Hsel MODEL_UNAVAILABLE "没有可用的hybrid类型模型提供商") as [Hrun _].
  - vm_compute. reflexivity.
  - exact Hrun.
Defined.

(** The dispatch whose adapter answers at once. *)
Lemma successful_reply_reports_the_call_test :
  exists res w' dt resp,
    processQuery Scenario.parseDecimal Scenario.testUuid Scenario.testISOString
      Scenario.alwaysAnswer Scenario.testWorld Scenario.testRequest = (ReplyOk res, w')
    /\ Scenario.alwaysAnswer 0 (model_used res) "default" = Resolves dt resp
    /\ response res = text resp
    /\ processing_time res = dt.
Proof.
  destruct (processQuery Scenario.parseDecimal Scenario.testUuid Scenario.testISOString
              Scenario.alwaysAnswer Scenario.testWorld Scenario.testRequest)
    as [[res|er] w'] eqn:E; [|vm_compute in E; discriminate].
  destruct (successful_reply_reports_the_call _ _ _ _ _ _ _ _ E)
    as (request' & md & query & mi & fmi & model & dt & resp
        & _ & _ & _ & _ & Hcall & Hused & Hresp & _ & _ & _ & Htime).
  exists res, w', 100%Z, resp. split; [reflexivity|].
  assert (Hdt : Scenario.alwaysAnswer (length (adapterCalls Scenario.testWorld))
                  (Router.provider fmi) model = Resolves 100 resp -> dt = 100%Z).
  { intros H. rewrite Hcall in H. congruence. }
  unfold Scenario.alwaysAnswer in Hcall. injection Hcall as <- Hr.
  split; [|split; [exact Hresp | exact Htime]].
  unfold Scenario.alwaysAnswer. rewrite Hused, Hr. reflexivity.
Defined.

End GatewayMore.

(** ** More on the complexity evaluator *)

Module EvaluatorMore.
Import JS Evaluator NumFacts NumMore EvaluatorFacts.
#[local] Open Scope Q_scope.

(** *** Queries without white space *)

Lemma splitRuns_without_separator (sep : N -> bool) (s : jsstring) :
  Forall (fun c => sep c = false) s -> splitRuns sep s false = [s].
Proof.
  induction 1 as [|c s Hc _ IH]; [reflexivity|].
  simpl. rewrite Hc, IH. reflexivity.
Qed.

Lemma Qmin_le_l (a b : Q) : Qmin a b <= a.
Proof. apply Q.le_min_l. Qed.

(** X15. A query without white space is one word whatever its length:
    its score is at most 0.323, it gets no factor tag, and under every
    strategy whose upper threshold is above 0.323 (the default is 0.7) it
    is never routed to the remote type. *)
Theorem unspaced_query_is_one_word (query : jsstring) (rs : Router.RoutingStrategy) :
  Forall (fun c => isWhiteSpace c = false) query ->
  323 # 1000 < Router.highComplexityThreshold rs ->
  words query = [query]
  /\ complexityScore (evaluate query) <= 323 # 1000
  /\ complexityFactors (evaluate query) = []
  /\ Router.modelTypeFor rs (complexityScore (evaluate query)) <> Router.remote.
Proof.
  intros Hq Hrs.
  assert (Hw : words query = [query]) by (apply splitRuns_without_separator; exact Hq).
  assert (Hc : wordCount query = 1%nat) by (unfold wordCount; rewrite Hw; reflexivity).
  assert (Hv : vocabularyComplexity query <= 505 # 1000).
  { unfold vocabularyComplexity. rewrite Hc.
    assert (H1 : Qmin (ofNat 1 / 100) 1 <= 1 # 100).
    { eapply Qle_trans; [apply Qmin_le_l|]. unfold ofNat. simpl. unfold Qle. simpl. lia. }
    assert (H2 : Qmin (avgWordLength query / 10) 1 <= 1) by apply Q.le_min_r.
    lra. }
  assert (Hg : grammarComplexity query <= 5 # 100).
  { unfold grammarComplexity. eapply Qle_trans; [apply Qmin_le_l|].
    unfold avgSentenceLength. rewrite Hc.
    assert (Hs : 1 <= ofNat (sentenceCount query)).
    { unfold sentenceCount, ofNat, Qle. simpl. lia. }
    assert (Hinv : ofNat 1 / ofNat (sentenceCount query) <= 1).
    { apply Qle_shift_div_r; [lra|]. change (ofNat 1) with 1. lra. }
    set (x := ofNat 1 / ofNat (sentenceCount query)) in *.
    apply Qle_shift_div_r; [reflexivity|]. lra. }
  assert (Hscore : complexityScore (evaluate query) <= 323 # 1000).
  { cbn [complexityScore evaluate]. unfold complexityScoreOf. lra. }
  split; [exact Hw|]. split; [exact Hscore|]. split.
  - cbn [complexityFactors evaluate]. rewrite complexityFactorsOf_unfold.
    assert (E1 : Qltb (6 # 10) (vocabularyComplexity query) = false)
      by (apply Qltb_ge; lra).
    assert (E2 : Qltb (6 # 10) (grammarComplexity query) = false)
      by (apply Qltb_ge; lra).
    rewrite E1, E2, Hc. reflexivity.
  - unfold Router.modelTypeFor.
    destruct (Qltb _ (Router.lowComplexityThreshold rs)); [discriminate|].
    assert (E : Qltb (complexityScore (evaluate query)) (Router.highComplexityThreshold rs)
                = true) by (apply Qltb_lt; lra).
    rewrite E. discriminate.
Qed.

(** The query of the dispatch tests, thirteen CJK code units, reaches
    the bound. *)
Lemma unspaced_query_is_one_word_test :
  words Scenario.testQuery = [Scenario.testQuery]
  /\ complexityScore (evaluate Scenario.testQuery) <= 323 # 1000
  /\ complexityFactors (evaluate Scenario.testQuery) = []
  /\ Router.modelTypeFor Scenario.testStrategy
       (complexityScore (evaluate Scenario.testQuery)) <> Router.remote.
Proof.
  apply (unspaced_query_is_one_word Scenario.testQuery Scenario.testStrategy).
  - unfold Scenario.testQuery. repeat constructor.
  - reflexivity.
Defined.

(** *** The RPC beside the dispatcher's evaluator *)

(** X16. The [evaluateComplexity] RPC and the dispatcher's evaluator
    return the same score and the same tags for every query that has a
    sentence that is not blank. For the others (the empty query, blanks,
    punctuation only) the RPC divides by 0 sentences: its grammar
    complexity is 1, its score is 0.6 * vocabulary complexity + 0.4 and it
    tags the query with complex grammar, while the dispatcher's evaluator
    counts one sentence. The score is a finite number in both cases. *)
Theorem rpc_agrees_unless_no_sentence (w : Gateway.World) (query : jsstring) :
  let r := fst (Rpc.evaluateComplexity w query) in
  (sentences query <> [] ->
   Rpc.complexity_score r = JNum (complexityScore (evaluate query))
   /\ Rpc.complexity_factors r = complexityFactors (evaluate query))
  /\ (sentences query = [] ->
      Rpc.grammarComplexity query = JNum 1
      /\ Rpc.complexity_score r
         = JNum (vocabularyComplexity query * (6 # 10) + 1 * (4 # 10))
      /\ In tagGrammar (Rpc.complexity_factors r)
      /\ grammarComplexity query = Qmin (ofNat (wordCount query) / ofNat 1 / 20) 1).
Proof.
  cbn [fst Rpc.evaluateComplexity Rpc.complexity_score Rpc.complexity_factors].
  split.
  - intros Hs.
    assert (Hlen : (0 < length (sentences query))%nat)
      by (destruct (sentences query); [congruence | simpl; lia]).
    assert (Hmax : sentenceCount query = length (sentences query))
      by (unfold sentenceCount; lia).
    assert (Hg : Rpc.grammarComplexity query = JNum (grammarComplexity query)).
    { unfold Rpc.grammarComplexity, Rpc.avgSentenceLength, Rpc.sentenceCount,
        Monitoring.divide.
      rewrite (ofNat_eq_bool_pos _ Hlen). cbn [Rpc.over20 Rpc.minOne].
      unfold grammarComplexity, avgSentenceLength. rewrite Hmax. reflexivity. }
    split.
    + unfold Rpc.complexityScore. rewrite Hg. reflexivity.
    + unfold Rpc.complexityFactors. rewrite Hg. reflexivity.
  - intros Hs.
    assert (Hg : Rpc.grammarComplexity query = JNum 1).
    { unfold Rpc.grammarComplexity, Rpc.avgSentenceLength, Rpc.sentenceCount,
        Monitoring.divide.
      rewrite Hs. cbn [length]. change (Qeq_bool (ofNat 0) 0) with true.
      cbv beta iota.
      rewrite (ofNat_eq_bool_pos _ (wordCount_pos query)).
      assert (Hle : Qle_bool 0 (ofNat (wordCount query)) = true)
        by (apply Qle_bool_iff, ofNat_nonneg).
      rewrite Hle. reflexivity. }
    split; [exact Hg|]. split; [|split].
    + unfold Rpc.complexityScore. rewrite Hg. reflexivity.
    + unfold Rpc.complexityFactors. rewrite Hg.
      change (Monitoring.exceeds (JNum 1) (Some (6 # 10))) with true.
      cbv beta iota zeta.
      destruct (100 <? wordCount query)%nat;
        destruct (Qltb (6 # 10) (vocabularyComplexity query)); simpl; tauto.
    + unfold grammarComplexity, avgSentenceLength, sentenceCount. rewrite Hs.
      reflexivity.
Qed.

End EvaluatorMore.

(** ** More on request pre-processing *)

Module RequestMore.
Import JS Errors RequestProcessor Patterns.

Lemma stripWord_Some (word s rest : jsstring) :
  stripWord word s = Some rest <->
  exists letters, s = (letters ++ rest)%list /\ map lowerAscii letters = word.
Proof.
  revert s. induction word as [|w word IH]; intros s.
  - simpl. split.
    + intros H. injection H as <-. exists []. split; reflexivity.
    + intros (letters & -> & H). destruct letters; [reflexivity | discriminate].
  - destruct s as [|c s].
    + simpl. split; [discriminate|].
      intros (letters & H & Hm). destruct letters; [discriminate|].
      destruct rest; discriminate.
    + simpl. destruct (lowerAscii c =? w)%N eqn:E.
      * apply N.eqb_eq in E. rewrite IH. split.
        -- intros (letters & -> & <-). exists (c :: letters). subst w.
           split; reflexivity.
        -- intros (letters & H & Hm). destruct letters as [|c' letters]; [discriminate|].
           simpl in H, Hm. injection H as <- ->. injection Hm as _ Hm.
           exists letters. split; [reflexivity | exact Hm].
      * apply N.eqb_neq in E. split; [discriminate|].
        intros (letters & H & Hm). destruct letters as [|c' letters]; [discriminate|].
        simpl in H, Hm. injection H as <- _. injection Hm as Hc _. congruence.
Qed.

Lemma dropWhile_cons {A} (p : A -> bool) (l : list A) (c : A) (rest : list A) :
  dropWhile p l = c :: rest ->
  exists blanks, l = (blanks ++ c :: rest)%list /\ Forall (fun x => p x = true) blanks.
Proof.
  induction l as [|x l IH]; [discriminate|].
  simpl. destruct (p x) eqn:E.
  - intros H. destruct (IH H) as (blanks & -> & Hb).
    exists (x :: blanks). split; [reflexivity | constructor; assumption].
  - intros H. exists []. split; [exact H | constructor].
Qed.

Lemma dropWhile_app {A} (p : A -> bool) (blanks : list A) (c : A) (rest : list A) :
  Forall (fun x => p x = true) blanks -> p c = false ->
  dropWhile p (blanks ++ c :: rest)%list = c :: rest.
Proof.
  induction 1 as [|x blanks Hx _ IH]; intros Hc; simpl.
  - rewrite Hc. reflexivity.
  - rewrite Hx. apply IH. exact Hc.
Qed.

Lemma matchesHere_true (word s : jsstring) :
  matchesHere word s = true <->
  exists letters blanks rest,
    s = (letters ++ blanks ++ 40%N :: rest)%list
    /\ map lowerAscii letters = word
    /\ Forall (fun c => isWhiteSpace c = true) blanks.
Proof.
  unfold matchesHere. split.
  - destruct (stripWord word s) as [after|] eqn:E; [|discriminate].
    apply stripWord_Some in E as (letters & -> & Hm).
    destruct (dropWhile isWhiteSpace after) as [|c rest] eqn:Ed; [discriminate|].
    intros Hc. apply N.eqb_eq in Hc. subst c.
    apply dropWhile_cons in Ed as (blanks & -> & Hb).
    exists letters, blanks, rest. repeat split; assumption.
  - intros (letters & blanks & rest & -> & Hm & Hb).
    assert (E : stripWord word (letters ++ blanks ++ 40%N :: rest)%list
                = Some (blanks ++ 40%N :: rest)%list)
      by (apply stripWord_Some; exists letters; split; [reflexivity | exact Hm]).
    rewrite E, (dropWhile_app isWhiteSpace blanks 40%N rest Hb eq_refl).
    reflexivity.
Qed.

Lemma test_true (word s : jsstring) : test word s = true <-> callOf word s.
Proof.
  unfold callOf. induction s as [|c s IH].
  - simpl. rewrite orb_false_r, matchesHere_true. split.
    + intros (letters & blanks & rest & H). exists [], letters, blanks, rest. exact H.
    + intros (before & letters & blanks & rest & H & Hm & Hb).
      destruct before; [|discriminate]. exists letters, blanks, rest. auto.
  - simpl. rewrite orb_true_iff, IH, matchesHere_true. split.
    + intros [(letters & blanks & rest & H)|(before & letters & blanks & rest & -> & H)].
      * exists [], letters, blanks, rest. exact H.
      * exists (c :: before), letters, blanks, rest. split; [reflexivity | exact H].
    + intros (before & letters & blanks & rest & H & Hm & Hb).
      destruct before as [|c' before].
      * left. exists letters, blanks, rest. auto.
      * right. simpl in H. injection H as <- ->.
        exists before, letters, blanks, rest. auto.
Qed.

(** X17. The security check refuses a request for unsafe content
    exactly when the request passes the schema and its query holds one of
    the words exec, eval and system, in whatever case and wherever it
    stands (also inside a longer word), followed by white space or none
    and an opening bracket. *)
Theorem unsafe_content_is_a_bracketed_word (request : Request) :
  performSecurityCheck request = Throw (invalidRequest "请求包含潜在的不安全内容")
  <-> schemaAccepts request = true
      /\ exists q word,
           query request = Some q /\ In word sensitivePatterns /\ callOf word q.
Proof.
  unfold performSecurityCheck. split.
  - destruct (schemaAccepts request); [|intros H; discriminate H].
    destruct (query request) as [q|]; [|intros H; discriminate H].
    destruct (existsb (fun pattern => test pattern q) sensitivePatterns) eqn:E;
      [|discriminate].
    intros _. split; [reflexivity|].
    apply existsb_exists in E as (word & Hin & Ht).
    exists q, word. split; [reflexivity|]. split; [exact Hin|].
    apply test_true. exact Ht.
  - intros (-> & q & word & -> & Hin & Hc).
    assert (E : existsb (fun pattern => test pattern q) sensitivePatterns = true).
    { apply existsb_exists. exists word. split; [exact Hin | apply test_true, Hc]. }
    rewrite E. reflexivity.
Qed.



End RequestMore.

(** ** More on the monitor *)

Module MonitoringMore.
Import JS Errors Monitoring Service NumFacts NumMore MonitoringFacts.
#[local] Open Scope Q_scope.

(** *** The windows of the collector *)

(** X19. After every recorded request the collector holds at most the
    1000 most recent latencies, the one just recorded last, and the
    requests of the last minute only, the one just recorded among them:
    the older ones are dropped and nothing else is. *)
Theorem collector_keeps_recent_window (m : Metrics) (d : RequestData) (now : Z) :
  let before := performance m in
  let after := performance (collectRequest m d now) in
  length (latencies after) = Nat.min 1000 (S (length (latencies before)))
  /\ (exists dropped,
        (latencies before ++ [duration d])%list = (dropped ++ latencies after)%list)
  /\ last (latencies after) = Some (duration d)
  /\ (forall req, In req (lastMinuteRequests after) <->
                  (now - 60000 < fst req)%Z
                  /\ (req = (now, duration d) \/ In req (lastMinuteRequests before))).
Proof.
  cbv zeta. cbn [performance collectRequest latencies lastMinuteRequests
                 cleanupOldMetrics].
  set (l := latencies (performance m)).
  split; [|split; [|split]].
  - destruct (1000 <? length (l ++ [duration d]))%nat eqn:E.
    + apply Nat.ltb_lt in E. unfold lastN. rewrite length_skipn.
      rewrite length_app in *. cbn [length] in *. lia.
    + apply Nat.ltb_ge in E. rewrite length_app in *. cbn [length] in *. lia.
  - destruct (1000 <? length (l ++ [duration d]))%nat.
    + exists (firstn (length (l ++ [duration d]) - 1000) (l ++ [duration d])).
      unfold lastN. symmetry. apply firstn_skipn.
    + exists []. reflexivity.
  - destruct (1000 <? length (l ++ [duration d]))%nat eqn:E.
    + apply Nat.ltb_lt in E. unfold lastN. rewrite length_app in *. cbn [length] in *.
      rewrite drop_app_le by lia. apply last_snoc.
    + apply last_snoc.
  - intros req. rewrite filter_In, in_app_iff. simpl.
    rewrite Z.ltb_lt. intuition.
Qed.

(** *** The counters over a run *)

Lemma step_requestCount (st : State) (ev : Event) (now : Z) :
  requestCount (performance (collector (step st ev now)))
  = (requestCount (performance (collector st))
     + match ev with Request _ => 1 | _ => 0 end)%Z.
Proof.
  destruct ev; cbn [step]; try (cbn; lia).
  unfold healthTick. destruct (negb _); cbn [collector]; lia.
Qed.

Lemma step_errorCount (st : State) (ev : Event) (now : Z) :
  errorCount (performance (collector (step st ev now)))
  = (errorCount (performance (collector st))
     + match ev with Request d => if success d then 0 else 1 | _ => 0 end)%Z.
Proof.
  destruct ev; cbn [step]; try (cbn; lia).
  - cbn. destruct (success d); lia.
  - unfold healthTick. destruct (negb _); cbn [collector]; lia.
Qed.

Lemma replay_cons (st : State) (e : Event * Z) (events : list (Event * Z)) :
  replay st (e :: events) = replay (step st (fst e) (snd e)) events.
Proof. reflexivity. Qed.

Lemma replay_counts (events : list (Event * Z)) (st : State) :
  requestCount (performance (collector (replay st events)))
  = (requestCount (performance (collector st)) + Z.of_nat (length (requests events)))%Z
  /\ errorCount (performance (collector (replay st events)))
     = (errorCount (performance (collector st))
        + Z.of_nat (length (failures (requests events))))%Z.
Proof.
  revert st. induction events as [|[ev now] events IH]; intros st.
  - simpl. lia.
  - rewrite replay_cons. cbn [fst snd]. destruct (IH (step st ev now)) as [H1 H2].
    rewrite H1, H2, step_requestCount, step_errorCount.
    unfold requests, failures in *. cbn [flat_map fst].
    rewrite List.filter_app, !length_app.
    destruct ev; cbn [length List.filter]; try lia.
    destruct (success d); cbn [negb length]; lia.
Qed.

Lemma failures_le (ds : list RequestData) : (length (failures ds) <= length ds)%nat.
Proof. apply List.filter_length_le. Qed.

(** X20. Whatever reaches the monitor, in whatever order, its request
    counter grows by the number of requests recorded and its error counter
    by the number of those that failed; nothing else moves them. On a
    monitor that starts empty the reported error rate is therefore the
    share of failed requests (0 before the first request), between 0 and
    1. *)
Theorem counters_follow_the_requests (st : State) (events : list (Event * Z)) :
  let recorded := requests events in
  let rate := errorRate (sPerformance (getMetrics (replay initialState events))) in
  requestCount (performance (collector (replay st events)))
  = (requestCount (performance (collector st)) + Z.of_nat (length recorded))%Z
  /\ errorCount (performance (collector (replay st events)))
     = (errorCount (performance (collector st))
        + Z.of_nat (length (failures recorded)))%Z
  /\ rate == match recorded with
             | [] => 0
             | _ :: _ => ofNat (length (failures recorded)) / ofNat (length recorded)
             end
  /\ 0 <= rate /\ rate <= 1.
Proof.
  cbv zeta. destruct (replay_counts events st) as [H1 H2].
  split; [exact H1|]. split; [exact H2|].
  destruct (replay_counts events initialState) as [R E].
  cbn [initialState collector initialMetrics performance requestCount errorCount] in R, E.
  assert (Hrate : errorRate (sPerformance (getMetrics (replay initialState events)))
                  == match requests events with
                     | [] => 0
                     | _ :: _ => ofNat (length (failures (requests events)))
                                 / ofNat (length (requests events))
                     end).
  { unfold getMetrics. cbn [errorRate sPerformance getMetricsSummary].
    rewrite R, E, !Z.add_0_l. unfold ratioOrZero.
    destruct (requests events) as [|d ds] eqn:Er.
    - reflexivity.
    - rewrite <- Er.
      assert (Hpos : (0 < length (requests events))%nat) by (rewrite Er; simpl; lia).
      change (inject_Z (Z.of_nat (length (requests events))))
        with (ofNat (length (requests events))).
      rewrite (ofNat_eq_bool_pos _ Hpos). reflexivity. }
  split; [exact Hrate|].
  rewrite Hrate. destruct (requests events) as [|d ds] eqn:Er; [split; lra|].
  rewrite <- Er.
  assert (Hpos : 0 < ofNat (length (requests events)))
    by (apply ofNat_pos; rewrite Er; simpl; lia).
  pose proof (failures_le (requests events)) as Hle.
  pose proof (ofNat_nonneg (length (failures (requests events)))) as Hf.
  assert (Hle' : ofNat (length (failures (requests events)))
                 <= ofNat (length (requests events))).
  { unfold ofNat. rewrite <- Zle_Qle. lia. }
  split.
  - apply Qle_shift_div_l; [exact Hpos | lra].
  - apply Qle_shift_div_r; [exact Hpos | lra].
Qed.

(** *** Alerts are raised again and again *)

Lemma ofType_generateAlert_same (type : string) (am : AlertManager) (sev msg : string)
    (d : jsnum) (now : Z) :
  ofType type (generateAlert am type sev msg d now)
  = (ofType type am ++ [newAlert type sev msg d now])%list.
Proof.
  unfold ofType, generateAlert. cbn [alerts]. rewrite List.filter_app.
  cbn [List.filter alertType]. rewrite String.eqb_refl. reflexivity.
Qed.

Lemma checkPerformanceMetrics_thresholds (am : AlertManager) (s : Summary) (now : Z) :
  thresholds (checkPerformanceMetrics am s now) = thresholds am.
Proof. apply checkPerformanceMetrics_cost. Qed.

Lemma failed_request_step (st : State) (d : RequestData) (now : Z) (r : Q) :
  success d = false ->
  errorCount (performance (collector st)) = requestCount (performance (collector st)) ->
  (0 <= requestCount (performance (collector st)))%Z ->
  rate (tError (thresholds (alertManager st))) = Some r -> r < 1 ->
  length (ofType "error_rate" (alertManager (recordRequest st d now)))
  = S (length (ofType "error_rate" (alertManager st))).
Proof.
  intros Hs He Hn Hr Hlt. unfold recordRequest. cbn [alertManager].
  set (m := collectRequest (collector st) d now).
  assert (Hrate : errorRate (sPerformance (getMetricsSummary m)) == 1).
  { cbn [errorRate sPerformance getMetricsSummary]. unfold m.
    cbn [performance collectRequest cleanupOldMetrics requestCount errorCount].
    rewrite Hs, He. unfold ratioOrZero.
    set (n := (requestCount (performance (collector st)) + 1)%Z).
    assert (Hpos : 0 < inject_Z n) by (rewrite <- (Zlt_Qlt 0); lia).
    destruct (Qeq_bool (inject_Z n) 0) eqn:E.
    - apply Qeq_bool_iff in E. lra.
    - field. lra. }
  unfold checkPerformanceMetrics. cbv zeta.
  assert (Hex : exceeds (JNum (errorRate (sPerformance (getMetricsSummary m))))
                  (rate (tError (thresholds (alertManager st)))) = true).
  { rewrite Hr. cbn [exceeds]. apply Qltb_lt. rewrite Hrate. exact Hlt. }
  rewrite Hex.
  match goal with
  | |- context [if ?b then _ else _] => destruct b
  end.
  - rewrite ofType_generateAlert by reflexivity.
    rewrite ofType_generateAlert_same, length_app. cbn [length]. lia.
  - rewrite ofType_generateAlert_same, length_app. cbn [length]. lia.
Qed.

(** X21. Alerts are not de-duplicated. While every request fails, on a
    monitor whose requests so far all failed and whose error-rate
    threshold is below 1 (the default is 0.1), each recorded request
    raises one more [error_rate] alert: after n requests there are n more
    of them. *)
Theorem failed_requests_alert_each_time (st : State) (events : list (Event * Z))
    (r : Q) :
  forallb isFailedRequest events = true ->
  errorCount (performance (collector st)) = requestCount (performance (collector st)) ->
  (0 <= requestCount (performance (collector st)))%Z ->
  rate (tError (thresholds (alertManager st))) = Some r ->
  r < 1 ->
  length (ofType "error_rate" (alertManager (replay st events)))
  = (length (ofType "error_rate" (alertManager st)) + length events)%nat.
Proof.
  revert st. induction events as [|[ev now] events IH]; intros st Hall He Hn Hr Hlt.
  - simpl. lia.
  - cbn [forallb] in Hall. apply andb_prop in Hall as [Hev Hall].
    unfold isFailedRequest in Hev. cbn [fst] in Hev.
    destruct ev as [d| | | | |]; try discriminate.
    apply negb_true_iff in Hev.
    rewrite replay_cons. cbn [fst snd step].
    rewrite (IH (recordRequest st d now) Hall).
    + rewrite (failed_request_step st d now r Hev He Hn Hr Hlt). cbn [length]. lia.
    + pose proof (step_requestCount st (Request d) now) as H1.
      pose proof (step_errorCount st (Request d) now) as H2.
      cbn [step] in H1, H2. rewrite H1, H2, Hev, He. reflexivity.
    + pose proof (step_requestCount st (Request d) now) as H1.
      cbn [step] in H1. rewrite H1. lia.
    + unfold recordRequest. cbn [alertManager].
      rewrite checkPerformanceMetrics_thresholds. exact Hr.
    + exact Hlt.
Qed.

(** Three failed requests on a fresh monitor. *)
Lemma failed_requests_alert_each_time_test :
  length (ofType "error_rate"
            (alertManager (replay initialState Scenario3.threeFailures))) = 3%nat.
Proof.
  apply (failed_requests_alert_each_time initialState Scenario3.threeFailures (1 # 10));
    reflexivity.
Defined.

(** *** The health tick *)

Lemma getActiveAlerts_generateAlert (am : AlertManager) (type sev msg : string)
    (d : jsnum) (now : Z) :
  getActiveAlerts (generateAlert am type sev msg d now)
  = (getActiveAlerts am ++ [newAlert type sev msg d now])%list.
Proof.
  unfold getActiveAlerts, generateAlert. cbn [alerts]. rewrite List.filter_app.
  reflexivity.
Qed.

Lemma length_pos_ltb {A} (l : list A) : (0 <? length l)%nat = negb (Nat.eqb (length l) 0).
Proof. destruct l; reflexivity. Qed.

(** X22. The health tick never changes the status it reads. On a
    healthy monitor it does nothing; on a degraded or critical one it adds
    one active [system_health] alert, of severity high or critical, which
    keeps the status where it is: while nothing resolves the alerts, every
    tick adds one more. *)
Theorem health_tick_keeps_the_status (st : State) (now : Z) :
  let health := getHealthStatus st in
  let st' := healthTick st now in
  status (getHealthStatus st') = status health
  /\ (status health = "healthy" -> st' = st)
  /\ (status health <> "healthy" ->
      alerts (alertManager st')
      = (alerts (alertManager st)
         ++ [newAlert "system_health"
               (if String.eqb (status health) "critical" then "critical" else "high")
               "System health check failed" (JNum (ofNat (activeAlerts health))) now])%list
      /\ activeAlerts (getHealthStatus st') = S (activeAlerts health)).
Proof.
  cbv zeta. unfold healthTick.
  cbn [status getHealthStatus activeAlerts].
  set (active := getActiveAlerts (alertManager st)).
  set (critical := List.filter (fun alert => String.eqb (severity alert) "critical") active).
  set (high := List.filter (fun alert => String.eqb (severity alert) "high") active).
  destruct (0 <? length critical)%nat eqn:Ec.
  - cbn [negb String.eqb Ascii.eqb Bool.eqb andb]. cbn [alertManager].
    rewrite getActiveAlerts_generateAlert. fold active.
    rewrite !List.filter_app. fold critical. fold high.
    cbn [List.filter newAlert severity String.eqb Ascii.eqb Bool.eqb andb].
    rewrite !length_app. cbn [length].
    split.
    + replace (0 <? length critical + 1)%nat with true
        by (symmetry; apply Nat.ltb_lt; lia). reflexivity.
    + split; [discriminate|]. intros _. split; [reflexivity | lia].
  - destruct (0 <? length high)%nat eqn:Eh.
    + cbn [negb String.eqb Ascii.eqb Bool.eqb andb]. cbn [alertManager].
      rewrite getActiveAlerts_generateAlert. fold active.
      rewrite !List.filter_app. fold critical. fold high.
      cbn [List.filter newAlert severity String.eqb Ascii.eqb Bool.eqb andb].
      rewrite app_nil_r, Ec, !length_app. cbn [length].
      split.
      * replace (0 <? length high + 1)%nat with true
          by (symmetry; apply Nat.ltb_lt; lia). reflexivity.
      * split; [discriminate|]. intros _. split; [reflexivity | lia].
    + cbn [negb String.eqb Ascii.eqb Bool.eqb andb].
      fold active. fold critical. fold high. rewrite Ec, Eh.
      split; [reflexivity|]. split; [reflexivity|]. intros H. congruence.
Qed.

(** *** The cost table *)

Lemma step_costs (st : State) (ev : Event) (now : Z) :
  costs (collector (step st ev now))
  = match ev with
    | Cost id c tk => costs (recordCostMetrics (collector st) id c tk now)
    | _ => costs (collector st)
    end.
Proof.
  destruct ev; cbn [step]; try reflexivity.
  unfold healthTick. destruct (negb _); reflexivity.
Qed.

Lemma recordCostMetrics_costs_ext (m1 m2 : Metrics) (id : string) (c tk : Q) (now : Z) :
  costs m1 = costs m2 ->
  costs (recordCostMetrics m1 id c tk now) = costs (recordCostMetrics m2 id c tk now).
Proof. intros H. unfold recordCostMetrics. cbn [costs]. rewrite H. reflexivity. Qed.

Lemma replay_costs_ext (events : list (Event * Z)) (st1 st2 : State) :
  costs (collector st1) = costs (collector st2) ->
  costs (collector (replay st1 events)) = costs (collector (replay st2 events)).
Proof.
  revert st1 st2. induction events as [|[ev now] events IH]; intros st1 st2 H.
  - exact H.
  - rewrite !replay_cons. cbn [fst snd]. apply IH. rewrite !step_costs.
    destruct ev; try exact H. apply recordCostMetrics_costs_ext, H.
Qed.

Lemma historyCost_snoc (h : list CostEntry) (e : CostEntry) :
  historyCost (h ++ [e]) == historyCost h + ceCost e.
Proof.
  unfold historyCost. induction h as [|x h IH]; simpl.
  - ring.
  - rewrite IH. ring.
Qed.

Lemma historyTokens_snoc (h : list CostEntry) (e : CostEntry) :
  historyTokens (h ++ [e])
  == historyTokens h + match ceTokens e with Some t => t | None => 0 end.
Proof.
  unfold historyTokens. induction h as [|x h IH]; simpl.
  - ring.
  - rewrite IH. ring.
Qed.

Lemma mapGet_Forall {V} (P : V -> Prop) (k : string) (m : list (string * V)) (v : V) :
  Forall (fun kv => P (snd kv)) m -> mapGet k m = Some v -> P v.
Proof.
  induction 1 as [|[k' v'] m Hv _ IH]; [discriminate|].
  simpl. destruct (String.eqb k k'); [|exact IH].
  intros H. injection H as <-. exact Hv.
Qed.

Lemma mapSet_Forall {V} (P : V -> Prop) (k : string) (v : V) (m : list (string * V)) :
  Forall (fun kv => P (snd kv)) m -> P v -> Forall (fun kv => P (snd kv)) (mapSet k v m).
Proof.
  intros Hm Hv. induction Hm as [|[k' v'] m Hv' Hm IH]; simpl.
  - constructor; [exact Hv | constructor].
  - destruct (String.eqb k k'); constructor; assumption.
Qed.

Lemma recordCostMetrics_consistent (m : Metrics) (id : string) (c tk : Q) (now : Z) :
  Forall (fun kv => consistent (snd kv)) (costs m) ->
  Forall (fun kv => consistent (snd kv)) (costs (recordCostMetrics m id c tk now)).
Proof.
  intros H. unfold recordCostMetrics. cbn [costs]. apply mapSet_Forall; [exact H|].
  assert (Hcm : consistent match mapGet id (costs m) with
                           | Some cm => cm
                           | None => {| totalCost := 0; totalTokens := 0; history := [] |}
                           end).
  { destruct (mapGet id (costs m)) as [cm|] eqn:E.
    - exact (mapGet_Forall consistent id (costs m) cm H E).
    - split; reflexivity. }
  destruct Hcm as [H1 H2]. split; cbn [totalCost totalTokens history].
  - rewrite historyCost_snoc, H1. reflexivity.
  - rewrite historyTokens_snoc, H2. reflexivity.
Qed.

Lemma replay_consistent (events : list (Event * Z)) (st : State) :
  Forall (fun kv => consistent (snd kv)) (costs (collector st)) ->
  Forall (fun kv => consistent (snd kv)) (costs (collector (replay st events))).
Proof.
  revert st. induction events as [|[ev now] events IH]; intros st H; [exact H|].
  rewrite replay_cons. cbn [fst snd]. apply IH. rewrite step_costs.
  destruct ev; try exact H. apply recordCostMetrics_consistent, H.
Qed.

(** X23. The cost table of the collector, which the summary reports,
    is fed by [recordCost] alone: the table after a run is the table after
    the [recordCost] calls of that run, so the cost a request is recorded
    with never enters it and without such a call it stays empty. In every
    entry the total cost and the total tokens are the sums over the
    entry's history. *)
Theorem cost_table_is_fed_by_recordCost_alone (st : State) (events : list (Event * Z)) :
  costs (collector (replay st events))
  = costs (collector (replay st (List.filter isCost events)))
  /\ (List.filter isCost events = [] ->
      costs (collector (replay st events)) = costs (collector st))
  /\ Forall (fun kv => consistent (snd kv))
       (costs (collector (replay initialState events))).
Proof.
  assert (H : costs (collector (replay st events))
              = costs (collector (replay st (List.filter isCost events)))).
  { revert st. induction events as [|[ev now] events IH]; intros st; [reflexivity|].
    rewrite replay_cons. cbn [fst snd List.filter]. unfold isCost at 1. cbn [fst].
    destruct ev; try (rewrite IH; apply replay_costs_ext; rewrite step_costs; reflexivity).
    rewrite replay_cons. cbn [fst snd]. apply IH. }
  split; [exact H|]. split.
  - intros He. rewrite H, He. reflexivity.
  - apply replay_consistent. constructor.
Qed.

(** *** The cost check on histories *)








(** *** The status the service can reach *)

Lemma generateAlert_notCritical (am : AlertManager) (type sev msg : string) (d : jsnum)
    (now : Z) :
  Forall notCritical (alerts am) -> sev <> "critical" ->
  Forall notCritical (alerts (generateAlert am type sev msg d now)).
Proof.
  intros H Hs. unfold generateAlert. cbn [alerts]. apply Forall_app. split; [exact H|].
  constructor; [exact Hs | constructor].
Qed.

Lemma checkPerformanceMetrics_notCritical (am : AlertManager) (s : Summary) (now : Z) :
  Forall notCritical (alerts am) ->
  Forall notCritical (alerts (checkPerformanceMetrics am s now)).
Proof.
  intros H. unfold checkPerformanceMetrics. cbv zeta.
  destruct (exceeds (JNum (errorRate (sPerformance s))) _);
    match goal with
    | |- context [if ?b then _ else _] => destruct b
    end;
    repeat (apply generateAlert_notCritical; [|discriminate]); exact H.
Qed.

Lemma checkResourceMetrics_notCritical (am : AlertManager) (r : Resources) (now : Z) :
  Forall notCritical (alerts am) ->
  Forall notCritical (alerts (checkResourceMetrics am r now)).
Proof.
  intros H. unfold checkResourceMetrics. cbv zeta.
  destruct (exceeds _ (usage (tMemory (thresholds am))));
    destruct (last (cpu r)) as [c|];
    try match goal with
        | |- context [if ?b then _ else _] => destruct b
        end;
    repeat (apply generateAlert_notCritical; [|discriminate]); exact H.
Qed.

Lemma checkResourceMetrics_thresholds (am : AlertManager) (r : Resources) (now : Z) :
  thresholds (checkResourceMetrics am r now) = thresholds am.
Proof. apply checkResourceMetrics_cost. Qed.

Lemma checkCostMetrics_summary_notCritical (am am' : AlertManager) (m : Metrics)
    (now : Z) :
  monthlyOk (thresholds am) ->
  Forall notCritical (alerts am) ->
  checkCostMetrics am (sCosts (getMetricsSummary m)) now = Ok am' ->
  Forall notCritical (alerts am') /\ thresholds am' = thresholds am.
Proof.
  intros Hm H E. destruct (costs m) as [|kv rest] eqn:Ec.
  - unfold checkCostMetrics in E. cbn [sCosts getMetricsSummary] in E.
    rewrite Ec in E. cbn [map entryValues sumCosts] in E.
    assert (Hno : forall am1 : AlertManager,
               thresholds am1 = thresholds am ->
               exceeds (JNum 0) (monthly (tCost (thresholds am1))) = false).
    { intros am1 ->. unfold monthlyOk in Hm.
      destruct (monthly (tCost (thresholds am))) as [x|]; [|reflexivity].
      cbn [exceeds]. apply Qltb_ge. exact Hm. }
    destruct (exceeds (JNum 0) (daily (tCost (thresholds am)))).
    + rewrite Hno in E by reflexivity. injection E as <-.
      split; [|reflexivity]. apply generateAlert_notCritical; [exact H | discriminate].
    + rewrite Hno in E by reflexivity. injection E as <-. split; [exact H | reflexivity].
  - rewrite checkCostMetrics_summary in E by congruence. discriminate.
Qed.

Lemma notCritical_status (st : State) :
  Forall notCritical (alerts (alertManager st)) ->
  status (getHealthStatus st) <> "critical"
  /\ healthStatusCode st = 200%Z.
Proof.
  intros H.
  assert (Hc : List.filter (fun alert => String.eqb (severity alert) "critical")
                 (getActiveAlerts (alertManager st)) = []).
  { unfold getActiveAlerts. induction H as [|a l Ha _ IH]; [reflexivity|].
    cbn [List.filter]. destruct (String.eqb (alertStatus a) "active"); [|exact IH].
    cbn [List.filter]. apply String.eqb_neq in Ha. rewrite Ha. exact IH. }
  unfold healthStatusCode. cbv zeta. cbn [status getHealthStatus]. rewrite Hc.
  cbn [length Nat.ltb Nat.leb].
  match goal with
  | |- context [if ?b then _ else _] => destruct b
  end; split; (discriminate || reflexivity).
Qed.

Lemma step_invariant (st : State) (ev : Event) (now : Z) :
  keepsMonthly (ev, now) ->
  Forall notCritical (alerts (alertManager st)) /\ monthlyOk (thresholds (alertManager st)) ->
  Forall notCritical (alerts (alertManager (step st ev now)))
  /\ monthlyOk (thresholds (alertManager (step st ev now))).
Proof.
  intros Hk [H Hm]. destruct ev; cbn [step].
  - unfold recordRequest. cbn [alertManager].
    rewrite checkPerformanceMetrics_thresholds.
    split; [apply checkPerformanceMetrics_notCritical, H | exact Hm].
  - split; [exact H | exact Hm].
  - unfold recordResources. cbn [alertManager].
    rewrite checkResourceMetrics_thresholds.
    split; [apply checkResourceMetrics_notCritical, H | exact Hm].
  - unfold runHealthChecks. cbn [alertManager].
    set (am1 := checkPerformanceMetrics (alertManager st) (getMetrics st) now).
    set (am2 := checkResourceMetrics am1 (sResources (getMetrics st)) now).
    assert (H2 : Forall notCritical (alerts am2))
      by (apply checkResourceMetrics_notCritical, checkPerformanceMetrics_notCritical, H).
    assert (T2 : thresholds am2 = thresholds (alertManager st)).
    { unfold am2. rewrite checkResourceMetrics_thresholds. unfold am1.
      apply checkPerformanceMetrics_thresholds. }
    destruct (checkCostMetrics am2 (sCosts (getMetrics st)) now) as [am3|e] eqn:E.
    + unfold getMetrics in E.
      destruct (checkCostMetrics_summary_notCritical am2 am3 (collector st) now) as [H3 T3].
      * rewrite T2. exact Hm.
      * exact H2.
      * exact E.
      * split; [exact H3 | rewrite T3, T2; exact Hm].
    + split; [exact H2 | rewrite T2; exact Hm].
  - unfold healthTick. destruct (notCritical_status st H) as [Hs _].
    destruct (negb _); [|split; assumption]. cbn [alertManager].
    split; [|exact Hm].
    apply generateAlert_notCritical; [exact H|].
    apply String.eqb_neq in Hs. rewrite Hs. discriminate.
  - cbn [alertManager]. split; [exact H|].
    unfold keepsMonthly in Hk. cbn [fst] in Hk.
    unfold monthlyOk, updateThresholds in *. cbn [thresholds tCost].
    destruct (uCost u) as [c|]; [exact Hk | exact Hm].
Qed.

(** X25. On a monitor that starts with the default thresholds, whatever
    is recorded (requests, costs, resource samples), however often the
    health check and the health tick run, and whatever thresholds are set
    as long as the monthly cost threshold stays absent or not negative, no
    alert of severity critical is ever raised: the health status is never
    critical and the [/health] route answers 200. *)
Theorem health_is_never_critical (events : list (Event * Z)) :
  Forall keepsMonthly events ->
  let st := replay initialState events in
  Forall notCritical (alerts (alertManager st))
  /\ status (getHealthStatus st) <> "critical"
  /\ healthStatusCode st = 200%Z.
Proof.
  intros Hk. cbv zeta.
  assert (Hinv : forall st,
             Forall notCritical (alerts (alertManager st))
             /\ monthlyOk (thresholds (alertManager st)) ->
             Forall notCritical (alerts (alertManager (replay st events)))).
  { induction Hk as [|[ev now] events Hev _ IH]; intros st Hst; [apply Hst|].
    rewrite replay_cons. cbn [fst snd]. apply IH.
    apply step_invariant; assumption. }
  assert (H : Forall notCritical (alerts (alertManager (replay initialState events)))).
  { apply Hinv. split; [constructor|]. unfold monthlyOk. cbn. discriminate. }
  split; [exact H|]. apply notCritical_status, H.
Qed.

(** A failed request, a cost, a resource sample over the memory
    threshold, two health checks, a tick and a threshold update. *)
Lemma health_is_never_critical_test :
  status (getHealthStatus (replay initialState Scenario3.busyDay)) = "degraded"
  /\ status (getHealthStatus (replay initialState Scenario3.busyDay)) <> "critical"
  /\ healthStatusCode (replay initialState Scenario3.busyDay) = 200%Z.
Proof.
  split; [vm_compute; reflexivity|].
  apply (health_is_never_critical Scenario3.busyDay).
  unfold Scenario3.busyDay. repeat (constructor; [exact I|]). constructor.
Defined.

(** *** Threshold updates *)

Lemma exceeds_None (x : jsnum) : exceeds x None = false.
Proof. destruct x; reflexivity. Qed.

(** X26. A threshold update replaces each group it names as a whole: an
    update whose cost group names the daily threshold only removes the
    monthly one, and from then on the cost check raises no monthly alert,
    whatever the costs. The alerts raised so far are kept. *)
Theorem partial_cost_update_drops_the_monthly_check (am am' : AlertManager)
    (u : ThresholdUpdate) (c : CostThresholds) (costs : value) (now : Z) :
  uCost u = Some c ->
  monthly c = None ->
  checkCostMetrics (updateThresholds am u) costs now = Ok am' ->
  monthly (tCost (thresholds am')) = None
  /\ ofType "cost_monthly" am' = ofType "cost_monthly" am
  /\ alerts (updateThresholds am u) = alerts am.
Proof.
  intros Hu Hc E. unfold checkCostMetrics in E.
  destruct (entryValues costs) as [entries|e]; [|discriminate].
  destruct (sumCosts now entries (JNum 0) (JNum 0)) as [[dailyTotal monthlyTotal]|e];
    [|discriminate].
  assert (Ht : tCost (thresholds (updateThresholds am u)) = c)
    by (unfold updateThresholds; cbn [thresholds tCost]; rewrite Hu; reflexivity).
  destruct (exceeds dailyTotal _) in E; cbn [thresholds generateAlert] in E;
    rewrite Ht, Hc, exceeds_None in E; injection E as <-.
  - split; [|split; [|reflexivity]].
    + change (monthly (tCost (thresholds (updateThresholds am u))) = None).
      rewrite Ht. exact Hc.
    + rewrite ofType_generateAlert by reflexivity. reflexivity.
  - rewrite Ht. split; [exact Hc|]. split; reflexivity.
Qed.

(** After the update that names the daily threshold only, over the ten
    costs of the monitoring test. *)
Lemma partial_cost_update_drops_the_monthly_check_test :
  monthly (tCost (thresholds initialAlertManager)) = Some 20000
  /\ exists am',
       checkCostMetrics (updateThresholds initialAlertManager Scenario3.dailyOnly)
         (Scenario.costTable (collector Scenario.afterTenCosts)) 11000 = Ok am'
       /\ monthly (tCost (thresholds am')) = None
       /\ ofType "cost_monthly" am' = [].
Proof.
  split; [reflexivity|].
  destruct (checkCostMetrics (updateThresholds initialAlertManager Scenario3.dailyOnly)
              (Scenario.costTable (collector Scenario.afterTenCosts)) 11000)
    as [am'|e] eqn:E; [|vm_compute in E; discriminate].
  exists am'. split; [reflexivity|].
  destruct (partial_cost_update_drops_the_monthly_check initialAlertManager am'
              Scenario3.dailyOnly _ _ _ eq_refl eq_refl E) as (H1 & H2 & _).
  split; [exact H1 | exact H2].
Defined.

End MonitoringMore.

(** ** The adapters *)

Module AdapterFacts.
Import JS Errors Adapter.

Lemma callModelStart_Ok (a : Adapter) :
  (activeConnections a < maxConcurrentQueries a)%Z ->
  callModelStart a = Ok (_recordConnectionStart a).
Proof.
  intros H. unfold callModelStart, _checkConcurrencyLimit.
  apply Z.leb_gt in H. rewrite H. reflexivity.
Qed.

Lemma callModelStart_Throw (a : Adapter) :
  (maxConcurrentQueries a <= activeConnections a)%Z ->
  callModelStart a = Throw (modelUnavailable (providerName a ++ " 超出并发限制")).
Proof.
  intros H. unfold callModelStart, _checkConcurrencyLimit.
  apply Z.leb_le in H. rewrite H. reflexivity.
Qed.

Lemma step_keeps (a : Adapter) (s : Step) :
  providerName (step a s) = providerName a
  /\ maxConcurrentQueries (step a s) = maxConcurrentQueries a
  /\ ((0 <= activeConnections a <= Z.max 0 (maxConcurrentQueries a))%Z ->
      (0 <= activeConnections (step a s) <= Z.max 0 (maxConcurrentQueries a))%Z).
Proof.
  destruct s; cbn [step].
  - destruct (Z.lt_ge_cases (activeConnections a) (maxConcurrentQueries a)) as [H|H].
    + rewrite (callModelStart_Ok a H). cbn. repeat split; lia.
    + rewrite (callModelStart_Throw a H). repeat split; lia.
  - cbn. repeat split; lia.
Qed.

Lemma run_keeps (steps : list Step) (a : Adapter) :
  (0 <= activeConnections a <= Z.max 0 (maxConcurrentQueries a))%Z ->
  providerName (run a steps) = providerName a
  /\ maxConcurrentQueries (run a steps) = maxConcurrentQueries a
  /\ (0 <= activeConnections (run a steps) <= Z.max 0 (maxConcurrentQueries a))%Z.
Proof.
  revert a. induction steps as [|s steps IH]; intros a H; [auto|].
  cbn [run fold_left]. fold (run (step a s) steps).
  destruct (step_keeps a s) as (Hn & Hm & Hc).
  destruct (IH (step a s)) as (Hn' & Hm' & Hc').
  - rewrite Hm. apply Hc, H.
  - rewrite Hn', Hm', Hn, Hm. rewrite Hm in Hc'. auto.
Qed.

(** X27. An adapter enforces its own limit. However calls start and
    end on it, its count of active connections stays between 0 and its
    limit ([maxConcurrentQueries], 10 when absent or 0); a call starts
    exactly while the count is below the limit, and is refused with
    MODEL_UNAVAILABLE, the count untouched, otherwise. *)
Theorem adapter_never_exceeds_its_limit (name : string) (cfg : Router.ProviderConfig)
    (steps : list Step) :
  let a := run (create name cfg) steps in
  (0 <= activeConnections a <= Z.max 0 (maxConcurrentQueries a))%Z
  /\ maxConcurrentQueries a = maxConcurrentQueries (create name cfg)
  /\ ((activeConnections a < maxConcurrentQueries a)%Z <->
      callModelStart a = Ok (_recordConnectionStart a))
  /\ ((maxConcurrentQueries a <= activeConnections a)%Z <->
      callModelStart a = Throw (modelUnavailable (name ++ " 超出并发限制")))
  /\ (forall e, callModelStart a = Throw e -> step a Start = a).
Proof.
  cbv zeta.
  destruct (run_keeps steps (create name cfg)) as (Hn & Hm & Hc).
  { cbn [activeConnections create]. lia. }
  set (a := run (create name cfg) steps) in *.
  cbn [providerName create] in Hn.
  split; [rewrite Hm; exact Hc|]. split; [exact Hm|]. split; [|split].
  - split; [apply callModelStart_Ok|].
    intros H. destruct (Z.lt_ge_cases (activeConnections a) (maxConcurrentQueries a))
      as [Hlt|Hge]; [exact Hlt|].
    rewrite (callModelStart_Throw a Hge) in H. discriminate.
  - rewrite <- Hn. split; [apply callModelStart_Throw|].
    intros H. destruct (Z.lt_ge_cases (activeConnections a) (maxConcurrentQueries a))
      as [Hlt|Hge]; [|exact Hge].
    rewrite (callModelStart_Ok a Hlt) in H. discriminate.
  - intros e H. cbn [step]. rewrite H. reflexivity.
Qed.

(** X28. The manager starts a call exactly on a registered adapter that
    is available (on line and below its limit), and then the adapter's
    count grows by one and stays within the limit. Otherwise it throws
    MODEL_UNAVAILABLE, for a missing adapter or for an unavailable one,
    and changes nothing; the adapter's own limit error is never what the
    manager throws. *)
Theorem manager_refuses_unavailable_adapters (m : AdapterManager.Manager) (p : string) :
  (forall e, AdapterManager.callModelStart m p = Throw e ->
             (m !! p = None
              /\ e = modelUnavailable ("提供商 " ++ p ++ " 的适配器不存在"))
             \/ (exists a, m !! p = Some a /\ isAvailable a = false
                           /\ e = modelUnavailable ("提供商 " ++ p ++ " 当前不可用")))
  /\ (forall a, m !! p = Some a -> isAvailable a = true ->
                AdapterManager.callModelStart m p
                = Ok (<[p := _recordConnectionStart a]> m)
                /\ (activeConnections (_recordConnectionStart a)
                    <= maxConcurrentQueries a)%Z
                /\ Router.status (config a) <> Some "offline").
Proof.
  unfold AdapterManager.callModelStart, AdapterManager.getAdapter. split.
  - intros e. destruct (m !! p) as [a|] eqn:E.
    + destruct (isAvailable a) eqn:Ea; cbn [negb].
      * unfold isAvailable in Ea. apply andb_prop in Ea as [Hlt _].
        apply Z.ltb_lt in Hlt. rewrite (callModelStart_Ok a Hlt). discriminate.
      * intros H. injection H as <-. right. exists a. auto.
    + intros H. injection H as <-. left. auto.
  - intros a E Ea. rewrite E, Ea. cbn [negb].
    unfold isAvailable in Ea. apply andb_prop in Ea as [Hlt Hs].
    apply Z.ltb_lt in Hlt. rewrite (callModelStart_Ok a Hlt).
    split; [reflexivity|]. split; [cbn; lia|].
    intros Hoff. rewrite Hoff in Hs. discriminate.
Qed.

(** X29. Every failed request of a remote adapter is retried. The
    error that reaches the retry callback is the one [_handleRequestError]
    throws, a fresh error without a response, for which [_shouldRetry]
    answers true whatever the status was: a rejected log-in (401, 403) or
    another client error is retried like a server error, although
    [_shouldRetry] on the client's own error would refuse it. *)
Theorem remote_failures_are_always_retried (showStatus : Z -> string) :
  (forall attempt error,
      Remote._makeRequest showStatus attempt = inr error -> Remote.retry error = true)
  /\ (forall error r,
        Remote.response error = Some r ->
        (Remote.status r < 500)%Z -> Remote.status r <> 429%Z ->
        Remote._shouldRetry error = false
        /\ Remote.retry (Remote._handleRequestError showStatus error) = true)
  /\ Remote.message (Remote._handleRequestError showStatus Scenario4.unauthorized)
     = "认证错误: invalid api key".
Proof.
  assert (H : forall error,
             Remote.response (Remote._handleRequestError showStatus error) = None).
  { intros error. unfold Remote._handleRequestError.
    destruct (Remote.response error) as [r|].
    - cbv zeta. repeat match goal with
                       | |- context [if ?b then _ else _] => destruct b
                       end; reflexivity.
    - destruct (Remote.request error); reflexivity. }
  split; [|split].
  - intros [data|e] error E; [discriminate|].
    cbn [Remote._makeRequest] in E. injection E as <-.
    unfold Remote.retry, Remote._shouldRetry. rewrite H. reflexivity.
  - intros error r Hr Hlt Hne. split.
    + unfold Remote._shouldRetry. rewrite Hr.
      apply orb_false_iff. split; [apply Z.leb_gt; exact Hlt | apply Z.eqb_neq; exact Hne].
    + unfold Remote.retry, Remote._shouldRetry. rewrite H. reflexivity.
  - reflexivity.
Qed.

End AdapterFacts.
